(** * events-planner: a shallow embedding of the client's fetch, form and
      list logic

    The repository is a React client.  Every component keeps a few pieces
    of [useState] state, talks to the backend through [fetch] inside
    [async] handlers wrapped in [try / catch / finally], and renders a view
    that is a function of its state.  The embedding follows that shape:

    - JavaScript strings are Rocq strings, read as sequences of code units
      below 256 (the Latin-1 part of UTF-16), with [trim], [toLowerCase],
      [includes] and the e-mail regular expression written out;
    - JSON payloads are values of [JsVal];
    - an [async] handler is a tree of type [Prog]: state updates, observable
      effects (console, callbacks of the parent, navigation), thrown errors
      and suspension points ([Await]) at every [fetch];
    - [run] executes a handler to completion against a backend, [advance]
      executes it up to its next suspension point (for the interleavings of
      the event loop);
    - each component is a module holding its state record, its handlers
      under the names of the source, and its render function. *)

From stdpp Require Import base gmap strings list pretty.
From Stdlib Require Import ZArith Ascii Lia.

(** ** JavaScript strings *)

Module JsString.

(** White space and line terminators below 256, the characters removed by
    [String.prototype.trim] and matched by [\s]:
    TAB, LF, VT, FF, CR, SPACE and NBSP. *)
Definition is_space (c : ascii) : bool :=
  let n := N_of_ascii c in
  ((9 <=? n) && (n <=? 13) || (n =? 32) || (n =? 160))%N.

(** Removes leading white space. *)
Fixpoint trimStart (s : string) : string :=
  match s with
  | EmptyString => EmptyString
  | String c s' => if is_space c then trimStart s' else s
  end.

(** Removes trailing white space. *)
Fixpoint trimEnd (s : string) : string :=
  match s with
  | EmptyString => EmptyString
  | String c s' =>
      match trimEnd s' with
      | EmptyString => if is_space c then EmptyString else String c EmptyString
      | String d t => String c (String d t)
      end
  end.

(** [s.trim()] *)
Definition trim (s : string) : string := trimEnd (trimStart s).

(** Lower-casing of one code unit below 256: [A-Z] and the accented
    capitals 0xC0-0xDE (0xD7, the multiplication sign, excepted) move up
    by 0x20, everything else is unchanged. *)
Definition lower_char (c : ascii) : ascii :=
  let n := N_of_ascii c in
  if ((65 <=? n) && (n <=? 90)
      || (192 <=? n) && (n <=? 222) && negb (n =? 215))%N
  then ascii_of_N (n + 32) else c.

(** [s.toLowerCase()] *)
Fixpoint toLowerCase (s : string) : string :=
  match s with
  | EmptyString => EmptyString
  | String c s' => String (lower_char c) (toLowerCase s')
  end.

(** Whether every character of [s] satisfies [p]. *)
Fixpoint all_chars (p : ascii → bool) (s : string) : bool :=
  match s with
  | EmptyString => true
  | String c s' => p c && all_chars p s'
  end.

(** Two strings that differ at most in the case of their letters. *)
Inductive same_letters : string → string → Prop :=
| same_letters_nil : same_letters "" ""
| same_letters_cons c d s t :
    lower_char c = lower_char d → same_letters s t →
    same_letters (String c s) (String d t).

(** Two entries that differ at most in the case of their letters and in
    the white space around them. *)
Definition same_entry (e1 e2 : string) : Prop :=
  ∃ l1 r1 l2 r2 a b,
    e1 = l1 +:+ a +:+ r1 ∧ e2 = l2 +:+ b +:+ r2 ∧
    all_chars is_space l1 = true ∧ all_chars is_space r1 = true ∧
    all_chars is_space l2 = true ∧ all_chars is_space r2 = true ∧
    same_letters a b.

(** [s.startsWith(p)] *)
Fixpoint startsWith (p s : string) : bool :=
  match p, s with
  | EmptyString, _ => true
  | String a p', String b s' => Ascii.eqb a b && startsWith p' s'
  | String _ _, EmptyString => false
  end.

(** [s.includes(p)] *)
Fixpoint includes (s p : string) : bool :=
  startsWith p s ||
  match s with
  | EmptyString => false
  | String _ s' => includes s' p
  end.

(** A string is truthy when it is not empty. *)
Definition nonempty (s : string) : bool :=
  match s with EmptyString => false | String _ _ => true end.

(** [s || d] on strings. *)
Definition or_else (s d : string) : string := if nonempty s then s else d.

End JsString.

(** ** JSON values

    What [JSON.parse] gives and what the handlers pass around.  A number is
    an integer here: the model covers the integers that JavaScript holds
    exactly and prints with all their digits (fractions, and integers from
    [1e21] up, which print with an exponent, are outside it). *)

#[warnings="-register-all"]
Inductive JsVal : Type :=
| VUndefined
| VNull
| VBool (b : bool)
| VNum (n : Z)
| VStr (s : string)
| VArr (items : list JsVal)
| VObj (fields : list (string * JsVal)).

Module Js.

(** Truthiness, as used by [if (x)], [!x], [x || y] and [x && y]. *)
Definition truthy (v : JsVal) : bool :=
  match v with
  | VUndefined | VNull => false
  | VBool b => b
  | VNum n => negb (n =? 0)%Z
  | VStr s => JsString.nonempty s
  | VArr _ | VObj _ => true
  end.

(** [x || y] *)
Definition or (x y : JsVal) : JsVal := if truthy x then x else y.

Fixpoint assoc (k : string) (fields : list (string * JsVal)) : JsVal :=
  match fields with
  | [] => VUndefined
  | (k', v) :: rest => if String.eqb k k' then v else assoc k rest
  end.

(** Property access [v.k] on a payload.  It throws on [null] and
    [undefined] (the result is [None]); own properties of an object are
    looked up, anything else is [undefined]. *)
Definition get (v : JsVal) (k : string) : option JsVal :=
  match v with
  | VUndefined | VNull => None
  | VObj fields => Some (assoc k fields)
  | _ => Some VUndefined
  end.

(** Conversion to text, as a template literal or [String(v)] does it; an
    array prints its items separated by commas, [null] and [undefined]
    items as nothing; a number prints its digits (see [JsVal] for the
    numbers covered). *)
Fixpoint to_text (v : JsVal) : string :=
  match v with
  | VUndefined => "undefined"
  | VNull => "null"
  | VBool true => "true"
  | VBool false => "false"
  | VNum n => pretty n
  | VStr s => s
  | VArr items =>
      String.concat ","
        (map (λ x, match x with
                   | VUndefined | VNull => ""
                   | _ => to_text x
                   end) items)
  | VObj _ => "[object Object]"
  end.

(** [a === b] between values taken from payloads: primitives are compared
    by value; two arrays or objects parsed from JSON are never the same
    object. *)
Definition strict_eq (a b : JsVal) : bool :=
  match a, b with
  | VUndefined, VUndefined | VNull, VNull => true
  | VBool x, VBool y => Bool.eqb x y
  | VNum x, VNum y => (x =? y)%Z
  | VStr x, VStr y => String.eqb x y
  | _, _ => false
  end.

(** The keys of an object literal, in insertion order. *)
Definition keys (v : JsVal) : list string :=
  match v with
  | VObj fields => fields.*1
  | _ => []
  end.

(** [v.length]: the length of an array or of a string, the [length]
    property of an object, [undefined] on a number or a boolean; it throws
    ([None]) on [null] and [undefined]. *)
Definition length_of (v : JsVal) : option JsVal :=
  match v with
  | VUndefined | VNull => None
  | VArr items => Some (VNum (Z.of_nat (length items)))
  | VStr s => Some (VNum (Z.of_nat (String.length s)))
  | VObj fields => Some (assoc "length" fields)
  | VBool _ | VNum _ => Some VUndefined
  end.

(** Neither an array nor an object. *)
Definition plain (v : JsVal) : bool :=
  match v with
  | VArr _ | VObj _ => false
  | _ => true
  end.

End Js.

(** [v > n] for an integer [n].  The operands are converted to numbers:
    [true] is 1, [false] and [null] are 0, [undefined] and an object are
    [NaN] (above nothing), an array is converted through its text.  How a
    string converts to a number (the grammar of numeric strings and their
    rounding) is taken as given. *)
Class Numeric := { text_above : string → Z → bool }.

Definition above `{Numeric} (v : JsVal) (n : Z) : bool :=
  match v with
  | VUndefined | VObj _ => false
  | VNull => (n <? 0)%Z
  | VBool b => (n <? (if b then 1 else 0))%Z
  | VNum m => (n <? m)%Z
  | VStr s => text_above s n
  | VArr _ => text_above (Js.to_text v) n
  end.

(** The value of a string of decimal digits; the empty string counts as
    0. *)
Fixpoint digits_value (acc : Z) (s : string) : option Z :=
  match s with
  | EmptyString => Some acc
  | String c s' =>
      let n := N_of_ascii c in
      if ((48 <=? n) && (n <=? 57))%N
      then digits_value (10 * acc + Z.of_N (n - 48)) s'
      else None
  end.

(** A conversion for the examples: it knows the strings of decimal digits
    and takes every other string for [NaN]. *)
Definition sampleNumeric : Numeric :=
  {| text_above s n :=
       match digits_value 0 s with
       | Some m => (n <? m)%Z
       | None => false
       end |}.

(** ** Requests, responses and thrown errors *)

Inductive Method := GET | POST | PATCH | DELETE.

Record Request := mkRequest {
  req_method : Method;
  req_url : string;
  (** the object given to [JSON.stringify], when the request has a body
      (its only header is then the JSON content type) *)
  req_body : option JsVal
}.

(** A thrown value, seen through its [message]. *)
Record JsError := mkError { message : string }.

(** A response: its status, and what [await response.json()] gives, a
    parsed payload or the error it rejects with. *)
Record Response := mkResponse {
  status : N;
  json : JsError + JsVal
}.

(** [response.ok]: the status is in the range 200-299. *)
Definition ok (r : Response) : bool := ((200 <=? status r) && (status r <=? 299))%N.

(** How an awaited [fetch] settles: the promise rejects (network failure)
    or resolves with a response. *)
Inductive FetchOutcome :=
| Rejected (e : JsError)
| Resolved (r : Response).

(** A backend that answers every request with a status and a payload. *)
Definition answering (status : N) (payload : JsVal) : Request → FetchOutcome :=
  λ _, Resolved (mkResponse status (inr payload)).

(** The payload of an outcome that a handler takes as a success: a
    response with a success status whose body parses. *)
Definition accepted (o : FetchOutcome) : option JsVal :=
  match o with
  | Resolved r =>
      if ok r then match json r with inr data => Some data | inl _ => None end
      else None
  | Rejected _ => None
  end.

(** What a handler does besides updating state and calling the network. *)
Inductive Effect :=
| ConsoleError (label : string) (detail : string)
| ConsoleLog (label : string) (detail : JsVal)
| Callback (prop : string) (args : list JsVal)
| Navigate (path : string) (state : JsVal).

(** ** Handlers as trees *)

Inductive Prog (S A : Type) : Type :=
| Ret (a : A)
| Throw (e : JsError)
| SetState (f : S → S) (k : Prog S A)
| Emit (o : Effect) (k : Prog S A)
| Await (req : Request) (k : FetchOutcome → Prog S A).

Arguments Ret {S A} a.
Arguments Throw {S A} e.
Arguments SetState {S A} f k.
Arguments Emit {S A} o k.
Arguments Await {S A} req k.

Module ProgM.

Section Combinators.
Context {S : Type}.

Fixpoint bind {A B} (p : Prog S A) (f : A → Prog S B) : Prog S B :=
  match p with
  | Ret a => f a
  | Throw e => Throw e
  | SetState g k => SetState g (bind k f)
  | Emit o k => Emit o (bind k f)
  | Await req k => Await req (λ o, bind (k o) f)
  end.

(** [try { p } catch (err) { h err }] *)
Fixpoint try_catch {A} (p : Prog S A) (h : JsError → Prog S A) : Prog S A :=
  match p with
  | Ret a => Ret a
  | Throw e => h e
  | SetState g k => SetState g (try_catch k h)
  | Emit o k => Emit o (try_catch k h)
  | Await req k => Await req (λ o, try_catch (k o) h)
  end.

(** [try { p } finally { fin }]: [fin] runs on every way out of [p],
    then the result or the error of [p] goes on. *)
Fixpoint try_finally {A} (p : Prog S A) (fin : Prog S unit) : Prog S A :=
  match p with
  | Ret a => bind fin (λ _, Ret a)
  | Throw e => bind fin (λ _, Throw e)
  | SetState g k => SetState g (try_finally k fin)
  | Emit o k => Emit o (try_finally k fin)
  | Await req k => Await req (λ o, try_finally (k o) fin)
  end.

(** A state setter called with a value or with an updater function. *)
Definition set (f : S → S) : Prog S unit := SetState f (Ret ()).
Definition emit (o : Effect) : Prog S unit := Emit o (Ret ()).
Definition throw {A} (msg : string) : Prog S A := Throw (mkError msg).

(** [await fetch(url, {method, body})] *)
Definition fetch (m : Method) (url : string) (body : option JsVal)
  : Prog S Response :=
  Await (mkRequest m url body)
        (λ o, match o with
              | Rejected e => Throw e
              | Resolved r => Ret r
              end).

(** [await response.json()]; reading the body is part of the settlement of
    the request, it is no suspension point of its own. *)
Definition json_of (r : Response) : Prog S JsVal :=
  match json r with
  | inl e => Throw e
  | inr v => Ret v
  end.

(** Property access that throws a [TypeError] on [null]/[undefined].  The
    text of that error is the engine's; the one here stands for it. *)
Definition prop (v : JsVal) (k : string) : Prog S JsVal :=
  match Js.get v k with
  | Some x => Ret x
  | None => throw "Cannot read properties of null or undefined"
  end.

End Combinators.

End ProgM.

#[global] Instance prog_ret {S} : MRet (Prog S) := λ A a, Ret a.
#[global] Instance prog_bind {S} : MBind (Prog S) := λ A B f p, ProgM.bind p f.

(** [try { body } catch (err) { handler err } finally { finalizer }] *)
Definition try_catch_finally {S A} (body : Prog S A)
    (handler : JsError → Prog S A) (finalizer : Prog S unit) : Prog S A :=
  ProgM.try_finally (ProgM.try_catch body handler) finalizer.

(** ** Running a handler *)

(** What an observer sees, in order. *)
Inductive Obs :=
| Sent (req : Request)
| Did (o : Effect).

Record Run (S A : Type) := mkRun {
  final : S;
  trace : list Obs;
  result : JsError + A
}.
Arguments mkRun {S A}.
Arguments final {S A}.
Arguments trace {S A}.
Arguments result {S A}.

Definition requests (tr : list Obs) : list Request :=
  omap (λ o, match o with Sent r => Some r | Did _ => None end) tr.

Definition effects (tr : list Obs) : list Effect :=
  omap (λ o, match o with Did e => Some e | Sent _ => None end) tr.

Section Run.
Context {S A : Type}.

(** Runs [p] to completion from state [s]; every request is answered by
    [backend]. *)
Fixpoint run (backend : Request → FetchOutcome) (p : Prog S A) (s : S)
  : Run S A :=
  match p with
  | Ret a => mkRun s [] (inr a)
  | Throw e => mkRun s [] (inl e)
  | SetState f k => run backend k (f s)
  | Emit o k =>
      let r := run backend k s in mkRun (final r) (Did o :: trace r) (result r)
  | Await req k =>
      let r := run backend (k (backend req)) s in
      mkRun (final r) (Sent req :: trace r) (result r)
  end.

(** Where a handler stands when it gives control back to the event loop:
    finished, or suspended on a request. *)
Inductive Step :=
| Finished (r : JsError + A)
| Suspended (req : Request) (k : FetchOutcome → Prog S A).

(** Runs [p] up to its next [await]. *)
Fixpoint advance (p : Prog S A) (s : S) : S * list Effect * Step :=
  match p with
  | Ret a => (s, [], Finished (inr a))
  | Throw e => (s, [], Finished (inl e))
  | SetState f k => advance k (f s)
  | Emit o k => let '(s', es, st) := advance k s in (s', o :: es, st)
  | Await req k => (s, [], Suspended req k)
  end.

End Run.

(** ** The event loop

    Between two suspension points a handler runs alone; while it waits for
    its request, other handlers may start and other requests may settle, in
    any order.  A configuration holds the component state, the handlers
    waiting for an answer, and what has been sent and done so far. *)

Module EventLoop.

Section Loop.
Context {S : Type}.

Record Pending := mkPending {
  awaited : Request;
  resume : FetchOutcome → Prog S unit
}.

Record Config := mkConfig {
  state : S;
  inflight : list Pending;
  sent : list Request;
  done_effects : list Effect
}.

(** Takes in what a handler did up to the point where it stopped. *)
Definition absorb (c : Config) (r : S * list Effect * @Step S unit) : Config :=
  match r with
  | (s', es, Finished _) =>
      mkConfig s' (inflight c) (sent c) (done_effects c ++ es)
  | (s', es, Suspended req k) =>
      mkConfig s' (inflight c ++ [mkPending req k]) (sent c ++ [req])
               (done_effects c ++ es)
  end.

(** A user event: the handler created by the latest render runs up to its
    first [await].  React renders again before the next event is handled,
    so the handler closes over the state the earlier events have left. *)
Definition dispatch (handler : S → Prog S unit) (c : Config) : Config :=
  absorb c (advance (handler (state c)) (state c)).

(** The [i]-th waiting request settles and its handler goes on. *)
Definition settle (i : nat) (o : FetchOutcome) (c : Config) : Config :=
  match inflight c !! i with
  | None => c
  | Some p =>
      absorb (mkConfig (state c) (delete i (inflight c)) (sent c) (done_effects c))
             (advance (resume p o) (state c))
  end.

(** A call of an [async] function that is not awaited: it runs up to its
    first [await] and is left to go on when its request settles. *)
Definition start_async (p : Prog S unit) (c : Config) : Config :=
  absorb c (advance p (state c)).

(** A state setter called by a synchronous handler. *)
Definition update (f : S → S) (c : Config) : Config :=
  mkConfig (f (state c)) (inflight c) (sent c) (done_effects c).

(** A component with nothing in flight. *)
Definition idle (s : S) : Config := mkConfig s [] [] [].

End Loop.

Arguments Pending : clear implicits.
Arguments Config : clear implicits.

End EventLoop.

(** * The components *)

(** ** What is rendered

    A rendered view is a tree of elements, each identified by its
    [className]; leaves are literal text (the emoji of the markup are left
    out), a value shown through a JSX expression, the text of a date, or a
    child component, which stands where it is mounted: what it renders is
    its own business. *)

#[warnings="-register-all"]
Inductive Node : Type :=
| Elem (className : string) (children : list Node)
| Text (s : string)
| Expr (v : JsVal)
| DateText (v : JsVal)
| Component (name : string).

(** Whether an element with the given class occurs in a view. *)
Fixpoint has_class (c : string) (n : Node) : bool :=
  match n with
  | Elem c' children =>
      String.eqb c c' || existsb (has_class c) children
  | _ => false
  end.

(** [cond && <markup>] inside JSX: nothing is rendered unless [cond]. *)
Definition when (cond : bool) (n : Node) : list Node :=
  if cond then [n] else [].

(** Whether React accepts a value as a child: strings and numbers are
    shown, booleans, [null] and [undefined] show nothing, an array shows
    its items; a plain object is refused ("Objects are not valid as a React
    child"). *)
Fixpoint renderable (v : JsVal) : bool :=
  match v with
  | VObj _ => false
  | VArr items => forallb renderable items
  | _ => true
  end.

(** [{v}] inside JSX; [None] when rendering throws. *)
Definition child (v : JsVal) : option Node :=
  if renderable v then Some (Expr v) else None.

(** [{v && <markup>}] for a value [v] of a payload: the markup when [v] is
    truthy, else [v] itself as a child (a falsy value is no object). *)
Definition guarded (v : JsVal) (markup : option Node) : option Node :=
  if Js.truthy v then markup else Some (Expr v).

(** The text [new Date(v).toLocaleDateString('en-US', ...)] of the
    [formatDate] functions stands in the view as [DateText v]; it is the
    text [Invalid Date] for what is no date, and nothing there throws.
    [missing] is what [formatDate] returns for a falsy value. *)
Definition formatted (missing : string) (dateString : JsVal) : Node :=
  if Js.truthy dateString then DateText dateString else Text missing.

(** Whether a child component is mounted in a view. *)
Fixpoint mounts (name : string) (n : Node) : bool :=
  match n with
  | Elem _ children => existsb (mounts name) children
  | Component name' => String.eqb name name'
  | _ => false
  end.

(** ** EventDetailPage (third revision of EventDetailPage.jsx) *)

Module EventDetailPage.

Record State := mkState {
  event : JsVal;
  loading : bool;
  error : option string;
  showRSVPForm : bool;
  rsvps : JsVal;
  rsvpLoading : bool;
  showTaskForm : bool;
  tasks : JsVal;
  taskSummary : JsVal;
  taskLoading : bool;
  showEditForm : bool;
  deleteLoading : bool
}.

(** The arguments of the [useState] calls. *)
Definition initial : State :=
  mkState VNull true None false (VArr []) false false (VArr []) VNull false
          false false.

Definition setEvent (v : JsVal) (s : State) : State :=
  mkState v (loading s) (error s) (showRSVPForm s) (rsvps s) (rsvpLoading s)
          (showTaskForm s) (tasks s) (taskSummary s) (taskLoading s)
          (showEditForm s) (deleteLoading s).
Definition setLoading (b : bool) (s : State) : State :=
  mkState (event s) b (error s) (showRSVPForm s) (rsvps s) (rsvpLoading s)
          (showTaskForm s) (tasks s) (taskSummary s) (taskLoading s)
          (showEditForm s) (deleteLoading s).
Definition setError (e : option string) (s : State) : State :=
  mkState (event s) (loading s) e (showRSVPForm s) (rsvps s) (rsvpLoading s)
          (showTaskForm s) (tasks s) (taskSummary s) (taskLoading s)
          (showEditForm s) (deleteLoading s).
Definition setRsvps (v : JsVal) (s : State) : State :=
  mkState (event s) (loading s) (error s) (showRSVPForm s) v (rsvpLoading s)
          (showTaskForm s) (tasks s) (taskSummary s) (taskLoading s)
          (showEditForm s) (deleteLoading s).
Definition setRsvpLoading (b : bool) (s : State) : State :=
  mkState (event s) (loading s) (error s) (showRSVPForm s) (rsvps s) b
          (showTaskForm s) (tasks s) (taskSummary s) (taskLoading s)
          (showEditForm s) (deleteLoading s).
Definition setTasks (v : JsVal) (s : State) : State :=
  mkState (event s) (loading s) (error s) (showRSVPForm s) (rsvps s)
          (rsvpLoading s) (showTaskForm s) v (taskSummary s) (taskLoading s)
          (showEditForm s) (deleteLoading s).
Definition setTaskSummary (v : JsVal) (s : State) : State :=
  mkState (event s) (loading s) (error s) (showRSVPForm s) (rsvps s)
          (rsvpLoading s) (showTaskForm s) (tasks s) v (taskLoading s)
          (showEditForm s) (deleteLoading s).
Definition setTaskLoading (b : bool) (s : State) : State :=
  mkState (event s) (loading s) (error s) (showRSVPForm s) (rsvps s)
          (rsvpLoading s) (showTaskForm s) (tasks s) (taskSummary s) b
          (showEditForm s) (deleteLoading s).

Definition eventUrl (eventId : JsVal) : string :=
  "http://localhost:5000/events/" +:+ Js.to_text eventId.

(** [fetchEvent], lines 500-528. *)
Definition fetchEvent (eventId : JsVal) : Prog State unit :=
  try_catch_finally
    (ProgM.set (setLoading true);;
     ProgM.set (setError None);;
     response ← ProgM.fetch GET (eventUrl eventId) None;
     (if negb (ok response) then
        if (status response =? 404)%N
        then ProgM.throw "Event not found"
        else ProgM.throw ("HTTP error! status: " +:+ pretty (status response))
      else mret ());;
     eventData ← ProgM.json_of response;
     ProgM.set (setEvent eventData))
    (λ err,
       ProgM.emit (ConsoleError "Error fetching event:" (message err));;
       ProgM.set
         (setError (Some (JsString.or_else (message err) "Failed to load event"))))
    (ProgM.set (setLoading false)).

(** [fetchEventRSVPs], lines 533-547. *)
Definition fetchEventRSVPs (eventId : JsVal) : Prog State unit :=
  try_catch_finally
    (ProgM.set (setRsvpLoading true);;
     response ← ProgM.fetch GET (eventUrl eventId +:+ "/rsvps") None;
     if ok response then
       data ← ProgM.json_of response;
       list ← ProgM.prop data "rsvps";
       ProgM.set (setRsvps (Js.or list (VArr [])))
     else mret ())
    (λ error, ProgM.emit (ConsoleError "Error fetching RSVPs:" (message error)))
    (ProgM.set (setRsvpLoading false)).

(** [fetchEventTasks], lines 571-586. *)
Definition fetchEventTasks (eventId : JsVal) : Prog State unit :=
  try_catch_finally
    (ProgM.set (setTaskLoading true);;
     response ← ProgM.fetch GET (eventUrl eventId +:+ "/tasks") None;
     if ok response then
       data ← ProgM.json_of response;
       list ← ProgM.prop data "tasks";
       ProgM.set (setTasks (Js.or list (VArr [])));;
       summary ← ProgM.prop data "task_summary";
       ProgM.set (setTaskSummary (Js.or summary VNull))
     else mret ())
    (λ error, ProgM.emit (ConsoleError "Error fetching tasks:" (message error)))
    (ProgM.set (setTaskLoading false)).

(** [if (error)]: the error state is a non-empty string. *)
Definition error_shown (s : State) : option string :=
  match error s with
  | Some msg => if JsString.nonempty msg then Some msg else None
  | None => None
  end.

Definition loading_view : Node :=
  Elem "event-detail-page"
    [Elem "loading-container"
       [Elem "loading-spinner" []; Text "Loading event details..."]].

Definition error_view (msg : string) : Node :=
  Elem "event-detail-page"
    [Elem "error-container"
       [Text "Error"; Text msg; Elem "retry-button" [Text "Try Again"]]].

(** [formatDate], lines 663-679. *)
Definition formatDate : JsVal → Node := formatted "Date not specified".

(** The header, lines 712-725. *)
Definition event_header (event : JsVal) : option Node :=
  title ← Js.get event "title";
  title ← child title;
  date ← Js.get event "date";
  location ← Js.get event "location";
  location ←
    guarded location
      (shown ← child location; Some (Elem "event-location" [shown]));
  Some (Elem "event-header"
          [Elem "event-title" [title];
           Elem "event-meta" [Elem "event-date" [formatDate date]; location]]).

(** The description, lines 728-731. *)
Definition event_description (event : JsVal) : option Node :=
  description ← Js.get event "description";
  shown ← child (Js.or description (VStr "No description provided"));
  Some (Elem "event-description" [Text "Description"; shown]).

(** The RSVP summary, lines 734-756. *)
Definition stat_item (className : string) (value : JsVal) (label : string)
  : option Node :=
  shown ← child value;
  Some (Elem className
          [Elem "stat-value" [shown]; Elem "stat-label" [Text label]]).

Definition rsvp_summary (event : JsVal) : option Node :=
  summary ← Js.get event "rsvp_summary";
  guarded summary
    (yes ← Js.get summary "yes"; yes ← stat_item "stat-item" yes "Yes";
     no ← Js.get summary "no"; no ← stat_item "stat-item" no "No";
     maybe ← Js.get summary "maybe";
     maybe ← stat_item "stat-item" maybe "Maybe";
     total ← Js.get summary "total";
     total ← stat_item "stat-item total" total "Total RSVPs";
     Some (Elem "rsvp-summary"
             [Text "RSVP Summary"; Elem "rsvp-stats" [yes; no; maybe; total]])).

(** The buttons, lines 759-814. *)
Definition event_actions (s : State) : Node :=
  Elem "event-actions"
    [Text "Event Actions";
     Elem "action-buttons"
       [Elem "action-button rsvp-button"
          [Text (if showRSVPForm s then "Hide RSVP Form" else "RSVP to Event")];
        Elem "action-button view-rsvps-button"
          [Text (if rsvpLoading s then "Loading..." else "View RSVPs")];
        Elem "action-button tasks-button"
          [Text (if showTaskForm s then "Hide Task Form" else "Create Task")];
        Elem "action-button view-tasks-button"
          [Text (if taskLoading s then "Loading..." else "View Tasks")];
        Elem "action-button edit-event-button"
          [Text (if showEditForm s then "Cancel Edit" else "Edit Event")];
        Elem "action-button delete-event-button"
          [Text (if deleteLoading s then "Deleting..." else "Delete Event")]]].

(** One RSVP of the list, lines 832-852.  [rsvp.rsvp_status.toLowerCase()]
    throws unless the status is a string. *)
Definition rsvp_item (rsvp : JsVal) : option Node :=
  _ ← Js.get rsvp "id";
  guest_name ← Js.get rsvp "guest_name";
  guest_name ← child guest_name;
  status ← Js.get rsvp "rsvp_status";
  status_class ← match status with
                 | VStr st => Some ("rsvp-status " +:+ JsString.toLowerCase st)
                 | _ => None
                 end;
  guest_email ← Js.get rsvp "guest_email";
  guest_email ← child guest_email;
  note ← Js.get rsvp "note_to_host";
  note ← guarded note
           (shown ← child note; Some (Elem "guest-note" [Text "Note:"; shown]));
  created ← Js.get rsvp "created_at";
  Some (Elem "rsvp-item"
          [Elem "rsvp-header"
             [Elem "guest-name" [guest_name]; Elem status_class [Expr status]];
           Elem "guest-email" [guest_email];
           note;
           Elem "rsvp-date" [Text "RSVP'd on"; formatDate created]]).

(** The list of RSVPs, lines 826-855:
    [rsvps.length > 0 && (... rsvps.map(...) ...)].  Only an array has
    [map]. *)
Definition rsvps_list `{Numeric} (rsvps : JsVal) : option (list Node) :=
  len ← Js.length_of rsvps;
  if above len 0 then
    match rsvps with
    | VArr items =>
        rows ← mapM rsvp_item items;
        Some [Elem "rsvps-list"
                [Text "Event RSVPs"; Expr len; Elem "rsvps-container" rows]]
    | _ => None
    end
  else Some [].

(** Where the task list is mounted, lines 875-883:
    [(tasks.length > 0 || taskSummary) && <TaskList ... />]. *)
Definition task_list `{Numeric} (tasks taskSummary : JsVal)
  : option (list Node) :=
  len ← Js.length_of tasks;
  Some (if above len 0 then [Component "TaskList"]
        else if Js.truthy taskSummary then [Component "TaskList"]
        else [Expr taskSummary]).

(** The details at the foot, lines 886-901. *)
Definition event_details (event : JsVal) : option Node :=
  id ← Js.get event "id";
  id ← child id;
  created ← Js.get event "created_at";
  updated ← Js.get event "updated_at";
  updated ←
    guarded updated
      (Some (Elem "detail-item" [Text "Last Updated:"; formatDate updated]));
  Some (Elem "event-details"
          [Text "Event Details";
           Elem "detail-grid"
             [Elem "detail-item" [Text "Event ID:"; id];
              Elem "detail-item" [Text "Created:"; formatDate created];
              updated]]).

(** What the detail container holds, lines 711-911, in the order of the
    markup; [None] when rendering it throws: [event] is [null], a list in
    the state is no array, an RSVP has no status, or a value that is shown
    is an object. *)
Definition detail_children `{Numeric} (s : State) : option (list Node) :=
  header ← event_header (event s);
  description ← event_description (event s);
  summary ← rsvp_summary (event s);
  rsvps ← rsvps_list (rsvps s);
  tasks ← task_list (tasks s) (taskSummary s);
  details ← event_details (event s);
  Some ([header; description; summary; event_actions s]
        ++ when (showRSVPForm s) (Component "RSVPForm")
        ++ rsvps
        ++ when (showEditForm s) (Component "EditEventForm")
        ++ when (showTaskForm s) (Component "NewTaskForm")
        ++ tasks
        ++ [details;
            Elem "navigation" [Elem "back-button" [Text "Back to Events"]]]).

(** The detail view, lines 709-914. *)
Definition detail_view `{Numeric} (s : State) : option Node :=
  children ← detail_children s;
  Some (Elem "event-detail-page" [Elem "event-detail-container" children]).

(** The component's render, lines 681-914: the loading view, else the error
    view, else the detail container ([None]: rendering throws). *)
Definition render `{Numeric} (s : State) : option Node :=
  if loading s then Some loading_view
  else match error_shown s with
       | Some msg => Some (error_view msg)
       | None => detail_view s
       end.

Definition setShowRSVPForm (b : bool) (s : State) : State :=
  mkState (event s) (loading s) (error s) b (rsvps s) (rsvpLoading s)
          (showTaskForm s) (tasks s) (taskSummary s) (taskLoading s)
          (showEditForm s) (deleteLoading s).
Definition setShowTaskForm (b : bool) (s : State) : State :=
  mkState (event s) (loading s) (error s) (showRSVPForm s) (rsvps s)
          (rsvpLoading s) b (tasks s) (taskSummary s) (taskLoading s)
          (showEditForm s) (deleteLoading s).
Definition setShowEditForm (b : bool) (s : State) : State :=
  mkState (event s) (loading s) (error s) (showRSVPForm s) (rsvps s)
          (rsvpLoading s) (showTaskForm s) (tasks s) (taskSummary s)
          (taskLoading s) b (deleteLoading s).
Definition setDeleteLoading (b : bool) (s : State) : State :=
  mkState (event s) (loading s) (error s) (showRSVPForm s) (rsvps s)
          (rsvpLoading s) (showTaskForm s) (tasks s) (taskSummary s)
          (taskLoading s) (showEditForm s) b.

(** [handleRSVPSuccess], lines 552-559: the two fetches are started, not
    awaited. *)
Definition handleRSVPSuccess (eventId : JsVal)
  : EventLoop.Config State → EventLoop.Config State :=
  λ c, EventLoop.update (setShowRSVPForm false)
         (EventLoop.start_async (fetchEventRSVPs eventId)
            (EventLoop.start_async (fetchEvent eventId) c)).

(** [handleRSVPUpdate], lines 564-566. *)
Definition handleRSVPUpdate (eventId : JsVal)
  : EventLoop.Config State → EventLoop.Config State :=
  EventLoop.start_async (fetchEventRSVPs eventId).

(** [handleTaskCreated], lines 591-596. *)
Definition handleTaskCreated (eventId : JsVal)
  : EventLoop.Config State → EventLoop.Config State :=
  λ c, EventLoop.update (setShowTaskForm false)
         (EventLoop.start_async (fetchEventTasks eventId) c).

(** [handleTaskUpdate], lines 601-603. *)
Definition handleTaskUpdate (eventId : JsVal)
  : EventLoop.Config State → EventLoop.Config State :=
  EventLoop.start_async (fetchEventTasks eventId).

(** [handleEventUpdate], lines 622-627. *)
Definition handleEventUpdate (updatedEvent : JsVal)
  : EventLoop.Config State → EventLoop.Config State :=
  λ c, EventLoop.update (setShowEditForm false)
         (EventLoop.update (setEvent updatedEvent) c).

(** The updater [handleTaskToggle] gives to [setTasks], lines 610-614:
    [prevTasks.map(task => task.id === updatedTask.id ? updatedTask : task)].
    It throws ([None]) when the state holds no array or when a task, or the
    updated task, is [null] or [undefined]. *)
Definition replaceTask (updatedTask : JsVal) (prevTasks : JsVal) : option JsVal :=
  match prevTasks with
  | VArr items =>
      VArr <$> mapM (λ task,
                 id ← Js.get task "id";
                 updatedId ← Js.get updatedTask "id";
                 Some (if Js.strict_eq id updatedId then updatedTask else task))
               items
  | _ => None
  end.

(** Calls of functions of the browser are recorded like calls of a prop,
    under the name of the function. *)
Definition alert (text : string) : Prog State unit :=
  ProgM.emit (Callback "window.alert" [VStr text]).
Definition historyBack : Prog State unit :=
  ProgM.emit (Callback "window.history.back" []).

(** The texts shown by [alert], in order. *)
Definition alerts (es : list Effect) : list JsVal :=
  es ≫= λ e, match e with
              | Callback name args =>
                  if String.eqb name "window.alert" then args else []
              | _ => []
              end.

(** [handleDeleteEvent], lines 632-657; [confirmed] is the answer of
    [window.confirm]. *)
Definition handleDeleteEvent (confirmed : bool) (eventId : JsVal)
  : Prog State unit :=
  if negb confirmed then mret ()
  else
    try_catch_finally
      (ProgM.set (setDeleteLoading true);;
       response ← ProgM.fetch DELETE (eventUrl eventId) None;
       if ok response then
         alert "Event deleted successfully!";;
         historyBack
       else
         errorData ← ProgM.json_of response;
         err ← ProgM.prop errorData "error";
         alert ("Error deleting event: "
                +:+ Js.to_text (Js.or err (VStr "Unknown error"))))
      (λ error,
         ProgM.emit (ConsoleError "Error deleting event:" (message error));;
         alert "Error deleting event. Please try again.")
      (ProgM.set (setDeleteLoading false)).

(** [handleTaskToggle], lines 608-617.  When the updater throws, the page
    throws while rendering ([None]). *)
Definition handleTaskToggle (eventId updatedTask : JsVal)
  : EventLoop.Config State → option (EventLoop.Config State) :=
  λ c, replaced ← replaceTask updatedTask (tasks (EventLoop.state c));
       Some (EventLoop.start_async (fetchEventTasks eventId)
               (EventLoop.update (setTasks replaced) c)).

(** How the page answers the callbacks of its children, lines 817-883:
    [RSVPForm] gets [handleRSVPSuccess] and [handleRSVPUpdate],
    [NewTaskForm] gets [handleTaskCreated], [TaskList] gets
    [handleTaskToggle] and [handleTaskUpdate].  ([EditEventForm] is given
    [onEventUpdate], a prop it does not read.) *)
Definition onChildEffect (eventId : JsVal) (e : Effect)
  : EventLoop.Config State → option (EventLoop.Config State) :=
  match e with
  | Callback name args =>
      if String.eqb name "onRSVPSuccess" then λ c, Some (handleRSVPSuccess eventId c)
      else if String.eqb name "onRSVPUpdate" then λ c, Some (handleRSVPUpdate eventId c)
      else if String.eqb name "onTaskCreated" then λ c, Some (handleTaskCreated eventId c)
      else if String.eqb name "onTaskUpdate" then λ c, Some (handleTaskUpdate eventId c)
      else if String.eqb name "onTaskToggle" then
        match args with
        | updatedTask :: _ => handleTaskToggle eventId updatedTask
        | [] => handleTaskToggle eventId VUndefined
        end
      else Some
  | _ => Some
  end.

(** The callbacks a child has made, answered in order. *)
Fixpoint deliver (eventId : JsVal) (es : list Effect) (c : EventLoop.Config State)
  : option (EventLoop.Config State) :=
  match es with
  | [] => Some c
  | e :: es' => c' ← onChildEffect eventId e c; deliver eventId es' c'
  end.

(** The read fetches of the page and the state each one is about. *)
Inductive ReadFetch := FetchEvent | FetchEventRSVPs | FetchEventTasks.

Definition read_fetch (op : ReadFetch) : JsVal → Prog State unit :=
  match op with
  | FetchEvent => fetchEvent
  | FetchEventRSVPs => fetchEventRSVPs
  | FetchEventTasks => fetchEventTasks
  end.

Definition read_request (op : ReadFetch) (eventId : JsVal) : Request :=
  match op with
  | FetchEvent => mkRequest GET (eventUrl eventId) None
  | FetchEventRSVPs => mkRequest GET (eventUrl eventId +:+ "/rsvps") None
  | FetchEventTasks => mkRequest GET (eventUrl eventId +:+ "/tasks") None
  end.

Definition loading_flag (op : ReadFetch) (s : State) : bool :=
  match op with
  | FetchEvent => loading s
  | FetchEventRSVPs => rsvpLoading s
  | FetchEventTasks => taskLoading s
  end.

Definition data_of (op : ReadFetch) (s : State) : JsVal :=
  match op with
  | FetchEvent => event s
  | FetchEventRSVPs => rsvps s
  | FetchEventTasks => tasks s
  end.

(** Sample data: a page whose event fetch has failed, and two success
    answers. *)
Definition failedPage : State :=
  mkState VNull false (Some "HTTP error! status: 500") false (VArr []) false
          false (VArr []) VNull false false false.
Definition partyAnswer : Response :=
  mkResponse 200 (inr (VObj [("id", VNum 1); ("title", VStr "Launch party")])).
Definition picnicAnswer : Response :=
  mkResponse 200 (inr (VObj [("id", VNum 2); ("title", VStr "Picnic")])).

(** The failure contract of section 4.1 of the specification, read on the
    state [s'] a read fetch leaves behind: a non-empty message in the error
    state, and the data of the fetch empty (as it is before any fetch). *)
Definition failure_contract (op : ReadFetch) (s' : State) : Prop :=
  (∃ msg, error s' = Some msg ∧ msg ≠ "") ∧ data_of op s' = data_of op initial.

(** A page that has loaded event 1 and its two tasks, and the answer of
    the server to a toggle of task 7. *)
Definition loadedWithTasks : State :=
  mkState (VObj [("id", VNum 1); ("title", VStr "Launch party");
                 ("date", VStr "2030-05-01T18:00:00")])
          false None false (VArr []) false false
          (VArr [VObj [("id", VNum 7); ("description", VStr "Book the venue");
                       ("completed", VBool false)];
                 VObj [("id", VNum 8); ("description", VStr "Order the cake");
                       ("completed", VBool false)]])
          (VObj [("total", VNum 2); ("completed", VNum 0); ("pending", VNum 2);
                 ("high_priority", VNum 0)])
          false false false.
(** The same page with the RSVP form open. *)
Definition loadedWithForm : State := setShowRSVPForm true loadedWithTasks.
Definition reloadedEvent : JsVal :=
  VObj [("id", VNum 1); ("title", VStr "Launch party");
        ("date", VStr "2030-05-01T18:00:00");
        ("rsvp_summary", VObj [("yes", VNum 1); ("no", VNum 0);
                               ("maybe", VNum 0); ("total", VNum 1)])].
Definition toggledTask : JsVal :=
  VObj [("id", VNum 7); ("description", VStr "Book the venue");
        ("completed", VBool true)].

(** A page that has loaded event 1 and, after "View RSVPs", its one
    RSVP. *)
Definition loaded : State :=
  mkState (VObj [("id", VNum 1); ("title", VStr "Launch party");
                 ("date", VStr "2030-05-01T18:00:00")])
          false None false
          (VArr [VObj [("id", VNum 12); ("guest_name", VStr "Ada Lovelace");
                       ("rsvp_status", VStr "Yes")]])
          false false (VArr []) VNull false false false.

End EventDetailPage.

(** A fetch attempt fails when the promise rejects or the status is not a
    success status. *)
Definition failed (o : FetchOutcome) : bool :=
  match o with
  | Rejected _ => true
  | Resolved r => negb (ok r)
  end.

(** ** EventsPage (second component of EditEventForm.jsx) *)

Module EventsPage.

Record State := mkState {
  events : JsVal;
  loading : bool;
  error : option string
}.

Definition initial : State := mkState (VArr []) true None.

Definition setEvents (v : JsVal) (s : State) : State :=
  mkState v (loading s) (error s).
Definition setLoading (b : bool) (s : State) : State :=
  mkState (events s) b (error s).
Definition setError (e : option string) (s : State) : State :=
  mkState (events s) (loading s) e.

Definition eventsRequest : Request :=
  mkRequest GET "http://localhost:5000/events" None.

(** [fetchEvents], lines 235-262. *)
Definition fetchEvents : Prog State unit :=
  try_catch_finally
    (ProgM.set (setLoading true);;
     ProgM.set (setError None);;
     response ← ProgM.fetch GET "http://localhost:5000/events" None;
     (if negb (ok response)
      then ProgM.throw ("HTTP error! status: " +:+ pretty (status response))
      else mret ());;
     eventsData ← ProgM.json_of response;
     ProgM.set (setEvents eventsData))
    (λ err,
       ProgM.emit (ConsoleError "Error fetching events:" (message err));;
       ProgM.set (setError (Some "Failed to load events. Please try again later.")))
    (ProgM.set (setLoading false)).

(** The state a fetch of the events leaves, by the way the request
    settled (see [fetchEvents_final]). *)
Definition refreshed (o : FetchOutcome) (s : State) : State :=
  match o with
  | Resolved r =>
      if ok r then
        match json r with
        | inr eventsData => mkState eventsData false None
        | inl _ =>
            mkState (events s) false
                    (Some "Failed to load events. Please try again later.")
        end
      else mkState (events s) false
                   (Some "Failed to load events. Please try again later.")
  | Rejected _ =>
      mkState (events s) false
              (Some "Failed to load events. Please try again later.")
  end.

(** [handleRefresh], lines 289-291. *)
Definition handleRefresh : Prog State unit := fetchEvents.

(** [formatDate], lines 268-284. *)
Definition formatDate : JsVal → Node := formatted "No date specified".

(** The description shown on a card, lines 360-363:
    [description.length > 150 ? description.substring(0, 150) + "..."
     : description]. *)
Definition descriptionPreview (description : string) : string :=
  if 150 <? String.length description
  then String.substring 0 150 description +:+ "..."
  else description.

(** The same on the [description] of a payload, which is truthy there.
    Only a string has [substring]: an array of more than 150 items
    throws, a shorter one is shown as it is, like a number or [true]
    (they have no [length]); an object throws either way, cut or shown. *)
Definition description_shown (description : JsVal) : option Node :=
  match description with
  | VStr text => Some (Expr (VStr (descriptionPreview text)))
  | VArr items => if 150 <? length items then None else child description
  | VObj _ => None
  | _ => child description
  end.

(** One card of the grid, lines 349-379; [None] when rendering it throws:
    the event is [null] or [undefined], or a value that is shown is an
    object. *)
Definition card (event : JsVal) : option Node :=
  _ ← Js.get event "id";
  title ← Js.get event "title";
  title ← child title;
  date ← Js.get event "date";
  description ← Js.get event "description";
  description ←
    guarded description
      (shown ← description_shown description;
       Some (Elem "event-description" [shown]));
  location ← Js.get event "location";
  location ←
    guarded location
      (shown ← child location; Some (Elem "event-location" [shown]));
  created ← Js.get event "created_at";
  Some (Elem "event-card"
          [Elem "event-header"
             [Elem "event-title" [title]; Elem "event-date" [formatDate date]];
           Elem "event-body" [description; location];
           Elem "event-footer"
             [Elem "created-date" [Text "Created:"; formatDate created]]]).

Definition page_header : Node :=
  Elem "page-header"
    [Text "All Events";
     Elem "header-actions"
       [Elem "btn btn-secondary" [Text "Refresh"];
        Elem "btn btn-primary" [Text "Create New Event"]]].

Definition empty_state : Node :=
  Elem "empty-state"
    [Elem "empty-icon" []; Text "No events yet";
     Text "Get started by creating your first event!";
     Elem "btn btn-primary" [Text "Create First Event"]].

(** [events.length === 0 ? empty state : events.map(card)], lines 335-382.
    Only an array has [map]; [None] is a render that throws. *)
Definition list_view (events : JsVal) : option Node :=
  match events with
  | VUndefined | VNull => None
  | VArr [] => Some empty_state
  | VArr items => cards ← mapM card items; Some (Elem "events-grid" cards)
  | VStr s => if JsString.nonempty s then None else Some empty_state
  | VObj fields =>
      match Js.assoc "length" fields with
      | VNum 0 => Some empty_state
      | _ => None
      end
  | VBool _ | VNum _ => None
  end.

(** The component's render, lines 293-384. *)
Definition render (s : State) : option Node :=
  if loading s then
    Some (Elem "events-page"
            [Elem "loading" [Elem "spinner" []; Text "Loading events..."]])
  else
    match error s with
    | Some (String c msg) =>
        Some (Elem "events-page"
                [Elem "error-message"
                   [Text "Oops! Something went wrong"; Text (String c msg);
                    Elem "btn btn-primary" [Text "Try Again"]]])
    | _ =>
        body ← list_view (events s);
        Some (Elem "events-page" [page_header; body])
    end.

End EventsPage.

(** ** Regular expressions

    The fragment needed for the e-mail pattern of the RSVP form: character
    classes, sequence, alternative and iteration, matched against the whole
    string (the pattern is anchored with [^] and [$]). *)

Module Regex.

Inductive re : Type :=
| Void
| Eps
| Class (p : ascii → bool)
| Seq (a b : re)
| Alt (a b : re)
| Star (a : re).

(** [a+] *)
Definition Plus (a : re) : re := Seq a (Star a).

Fixpoint nullable (r : re) : bool :=
  match r with
  | Void => false
  | Eps => true
  | Class _ => false
  | Seq a b => nullable a && nullable b
  | Alt a b => nullable a || nullable b
  | Star _ => true
  end.

(** What remains to be matched after the character [c]. *)
Fixpoint deriv (c : ascii) (r : re) : re :=
  match r with
  | Void => Void
  | Eps => Void
  | Class p => if p c then Eps else Void
  | Seq a b =>
      if nullable a then Alt (Seq (deriv c a) b) (deriv c b)
      else Seq (deriv c a) b
  | Alt a b => Alt (deriv c a) (deriv c b)
  | Star a => Seq (deriv c a) (Star a)
  end.

(** [/^r$/.test(s)] *)
Fixpoint test (r : re) (s : string) : bool :=
  match s with
  | EmptyString => nullable r
  | String c s' => test (deriv c r) s'
  end.

(** The strings a pattern denotes. *)
Inductive lang : re → string → Prop :=
| lang_eps : lang Eps ""
| lang_class p c : p c = true → lang (Class p) (String c "")
| lang_seq a b s t : lang a s → lang b t → lang (Seq a b) (s +:+ t)
| lang_alt_l a b s : lang a s → lang (Alt a b) s
| lang_alt_r a b s : lang b s → lang (Alt a b) s
| lang_star_nil a : lang (Star a) ""
| lang_star_cons a s t : lang a s → lang (Star a) t → lang (Star a) (s +:+ t).

End Regex.

(** ** RSVPForm (first component of src/unnamed/part_002) *)

Module RSVPForm.

Record FormData := mkFormData {
  guest_name : string;
  guest_email : string;
  rsvp_status : string;
  note_to_host : string
}.

Record Props := mkProps {
  eventId : JsVal;
  (** whether the parent passed the callback *)
  onRSVPSuccess : bool;
  onRSVPUpdate : bool
}.

Record State := mkState {
  formData : FormData;
  isSubmitting : bool;
  submitError : JsVal;
  submitSuccess : bool;
  validationErrors : gmap string string
}.

Definition emptyForm : FormData := mkFormData "" "" "" "".

Definition initial : State := mkState emptyForm false VNull false ∅.

Definition setFormData (d : FormData) (s : State) : State :=
  mkState d (isSubmitting s) (submitError s) (submitSuccess s) (validationErrors s).
Definition setIsSubmitting (b : bool) (s : State) : State :=
  mkState (formData s) b (submitError s) (submitSuccess s) (validationErrors s).
Definition setSubmitError (e : JsVal) (s : State) : State :=
  mkState (formData s) (isSubmitting s) e (submitSuccess s) (validationErrors s).
Definition setSubmitSuccess (b : bool) (s : State) : State :=
  mkState (formData s) (isSubmitting s) (submitError s) b (validationErrors s).
Definition setValidationErrors (e : gmap string string) (s : State) : State :=
  mkState (formData s) (isSubmitting s) (submitError s) (submitSuccess s) e.

(** [[^\s@]] *)
Definition plain_char (c : ascii) : bool :=
  negb (JsString.is_space c || Ascii.eqb c "@").

(** [/^[^\s@]+@[^\s@]+\.[^\s@]+$/], line 77. *)
Definition emailRegex : Regex.re :=
  Regex.Seq (Regex.Plus (Regex.Class plain_char))
    (Regex.Seq (Regex.Class (Ascii.eqb "@"))
       (Regex.Seq (Regex.Plus (Regex.Class plain_char))
          (Regex.Seq (Regex.Class (Ascii.eqb "."))
             (Regex.Plus (Regex.Class plain_char))))).

(** The [errors] object built by [validateForm], lines 64-91. *)
Definition errors_of (formData : FormData) : gmap string string :=
  let errors : gmap string string := ∅ in
  let errors :=
    if negb (JsString.nonempty (JsString.trim (guest_name formData)))
    then <["guest_name" := "Name is required"]> errors
    else if String.length (JsString.trim (guest_name formData)) <? 2
    then <["guest_name" := "Name must be at least 2 characters"]> errors
    else errors in
  let errors :=
    if negb (JsString.nonempty (JsString.trim (guest_email formData)))
    then <["guest_email" := "Email is required"]> errors
    else if negb (Regex.test emailRegex (JsString.trim (guest_email formData)))
    then <["guest_email" := "Please enter a valid email address"]> errors
    else errors in
  let errors :=
    if negb (JsString.nonempty (rsvp_status formData))
    then <["rsvp_status" := "Please select your RSVP status"]> errors
    else errors in
  let errors :=
    if JsString.nonempty (note_to_host formData)
       && (500 <? String.length (note_to_host formData))
    then <["note_to_host" := "Note must be less than 500 characters"]> errors
    else errors in
  errors.

(** [validateForm], lines 63-95: stores the errors and tells whether there
    are none ([Object.keys(errors).length === 0]). *)
Definition validateForm (formData : FormData) : Prog State bool :=
  let errors := errors_of formData in
  ProgM.set (setValidationErrors errors);;
  mret (Nat.eqb (size errors) 0).

(** The body of the POST, lines 117-123. *)
Definition rsvpData (props : Props) (formData : FormData) : JsVal :=
  VObj [("event_id", eventId props);
        ("guest_name", VStr (JsString.trim (guest_name formData)));
        ("guest_email",
          VStr (JsString.toLowerCase (JsString.trim (guest_email formData))));
        ("rsvp_status", VStr (rsvp_status formData));
        ("note_to_host", VStr (JsString.trim (note_to_host formData)))].

(** [handleSubmit], lines 101-172.  [formData] is the state of the render
    that created the handler. *)
Definition handleSubmit (props : Props) (formData : FormData) : Prog State unit :=
  ProgM.set (setSubmitError VNull);;
  ProgM.set (setSubmitSuccess false);;
  valid ← validateForm formData;
  if negb valid then mret ()
  else
    ProgM.set (setIsSubmitting true);;
    try_catch_finally
      (response ← ProgM.fetch POST "http://localhost:5000/rsvps"
                    (Some (rsvpData props formData));
       responseData ← ProgM.json_of response;
       if negb (ok response) then
         if (status response =? 409)%N then
           ProgM.set (setSubmitError (VStr
             "You have already RSVP'd to this event. Each email can only RSVP once."))
         else if (status response =? 404)%N then
           ProgM.set (setSubmitError (VStr "Event not found. Please try again."))
         else
           err ← ProgM.prop responseData "error";
           ProgM.set (setSubmitError
             (Js.or err (VStr "Failed to submit RSVP. Please try again.")))
       else
         ProgM.set (setSubmitSuccess true);;
         ProgM.set (setFormData emptyForm);;
         (if onRSVPSuccess props
          then ProgM.emit (Callback "onRSVPSuccess" [responseData])
          else mret ());;
         (if onRSVPUpdate props
          then ProgM.emit (Callback "onRSVPUpdate" [])
          else mret ()))
      (λ error,
         ProgM.emit (ConsoleError "Error submitting RSVP:" (message error));;
         ProgM.set (setSubmitError (VStr
           "Network error. Please check your connection and try again.")))
      (ProgM.set (setIsSubmitting false)).

(** [{...prev, [name]: value}] on the form data. *)
Definition with_field (name : string) (value : string) (d : FormData) : FormData :=
  if String.eqb name "guest_name"
  then mkFormData value (guest_email d) (rsvp_status d) (note_to_host d)
  else if String.eqb name "guest_email"
  then mkFormData (guest_name d) value (rsvp_status d) (note_to_host d)
  else if String.eqb name "rsvp_status"
  then mkFormData (guest_name d) (guest_email d) value (note_to_host d)
  else if String.eqb name "note_to_host"
  then mkFormData (guest_name d) (guest_email d) (rsvp_status d) value
  else d.

(** [validationErrors[name]] read as a condition, lines 46 and 219-225. *)
Definition shows_error (errors : gmap string string) (name : string) : bool :=
  match errors !! name with
  | Some msg => JsString.nonempty msg
  | None => false
  end.

(** [handleInputChange], lines 42-57, for the inputs of the form (their
    names are the four field names).  [shown] is the [validationErrors] of
    the render that created the handler.  The source stores [null] for the
    field; the map of messages holds strings, so the other falsy value, the
    empty string, stands for it: the component only tests the entry. *)
Definition handleInputChange (shown : gmap string string) (name value : string)
  : Prog State unit :=
  (if shows_error shown name
   then ProgM.set (λ s, setValidationErrors (<[name := ""]> (validationErrors s)) s)
   else mret ());;
  ProgM.set (λ s, setFormData (with_field name value (formData s)) s).

(** [handleReset], lines 177-187. *)
Definition handleReset : Prog State unit :=
  ProgM.set (setFormData emptyForm);;
  ProgM.set (setValidationErrors ∅);;
  ProgM.set (setSubmitError VNull);;
  ProgM.set (setSubmitSuccess false).

(** The fields of the form and the rules the form states for each:
    the name is required and has at least 2 characters once trimmed, the
    e-mail is required and has the shape [local@domain.tld], a status is
    required, the note has at most 500 characters. *)
Inductive Field := GuestName | GuestEmail | RsvpStatus | NoteToHost.

Definition field_name (f : Field) : string :=
  match f with
  | GuestName => "guest_name"
  | GuestEmail => "guest_email"
  | RsvpStatus => "rsvp_status"
  | NoteToHost => "note_to_host"
  end.

(** No white space and no [@]. *)
Definition plain (s : string) : Prop :=
  JsString.all_chars plain_char s = true.

(** [local@domain.tld] with the three parts non-empty and plain. *)
Definition email_shape (s : string) : Prop :=
  ∃ a b c, s = a +:+ "@" +:+ b +:+ "." +:+ c ∧
           a ≠ "" ∧ b ≠ "" ∧ c ≠ "" ∧ plain a ∧ plain b ∧ plain c.

Definition violates (formData : FormData) (f : Field) : Prop :=
  match f with
  | GuestName => String.length (JsString.trim (guest_name formData)) < 2
  | GuestEmail => ¬ email_shape (JsString.trim (guest_email formData))
  | RsvpStatus => rsvp_status formData = ""
  | NoteToHost => 500 < String.length (note_to_host formData)
  end.

(** Sample data: the parent's props, an entry with a one-letter name and
    a complete entry. *)
Definition sampleProps : Props := mkProps (VNum 1) true true.
Definition shortName : FormData := mkFormData "A" "a@b.co" "Yes" "".
Definition sampleEntry : FormData :=
  mkFormData "Ada Lovelace" "  Ada@Example.COM " "Yes" "".

(** The e-mail of the request a submission sends, if it sends exactly
    one. *)
Definition submitted_email (backend : Request → FetchOutcome) (props : Props)
    (formData : FormData) (s : State) : option JsVal :=
  match requests (trace (run backend (handleSubmit props formData) s)) with
  | [req] => body ← req_body req; Js.get body "guest_email"
  | _ => None
  end.

End RSVPForm.

(** ** The platform's dates

    [Date] is taken as given: how a date string is parsed (to milliseconds
    since the epoch, or not at all: [Invalid Date]) and how a date prints
    in ISO 8601. *)

Class Platform := {
  parseDate : string → option Z;
  toISOString : Z → string
}.

(** A platform for the examples: it knows one date in 2030 and one in
    2020. *)
Definition samplePlatform : Platform :=
  {| parseDate s :=
       if String.eqb s "2030-05-01T18:00" then Some 1903975200000%Z
       else if String.eqb s "2020-01-01T00:00" then Some 1577836800000%Z
       else None;
     toISOString t :=
       if (t =? 1903975200000)%Z then "2030-05-01T18:00:00.000Z"
       else if (t =? 1577836800000)%Z then "2020-01-01T00:00:00.000Z"
       else "1970-01-01T00:00:00.000Z" |}.

(** [new Date(s).toISOString()]; it throws a [RangeError] on an invalid
    date. *)
Definition isoOfInput `{Platform} {S} (s : string) : Prog S string :=
  match parseDate s with
  | Some t => mret (toISOString t)
  | None => ProgM.throw "Invalid time value"
  end.

(** ** Yup and Formik

    The two form libraries are not part of the repository; their documented
    behaviour on the schemas and handlers of this program is written out
    here. *)

Module Yup.

Inductive StringRule :=
| Min (n : nat) (msg : string)
| Max (n : nat) (msg : string)
| Required (msg : string)
| OneOf (allowed : list string) (msg : string).

Inductive DateRule :=
| DateMin (limit : Z) (msg : string)
| DateRequired (msg : string).

(** A date schema carries its rules and the message for a value that is
    no date, which may show the value. *)
Inductive FieldSchema :=
| StringSchema (rules : list StringRule)
| DateSchema (rules : list DateRule) (typeError : string → string).

(** The message of [.typeError(msg)]. *)
Definition typeError (msg : string) : string → string := λ _, msg.

(** The default message for a string that is no date, at the field
    [path]: the final value prints as [Invalid Date], the original value
    between double quotes. *)
Definition notDate (path : string) : string → string :=
  λ raw, path +:+ " must be a `date` type, but the final value was: "
         +:+ "`Invalid Date` (cast from the value `"
         +:+ String "034" (raw +:+ String "034" "`).").

(** The message of a rule that a value fails.  An absent value
    ([undefined]) fails [required] only; a present string fails [min] and
    [max] by its length, [required] when it is empty, [oneOf] when it is
    not listed. *)
Definition string_rule (v : option string) (r : StringRule) : option string :=
  match r, v with
  | Min n msg, Some s => if String.length s <? n then Some msg else None
  | Max n msg, Some s => if n <? String.length s then Some msg else None
  | Required msg, Some s => if JsString.nonempty s then None else Some msg
  | Required msg, None => Some msg
  | OneOf allowed msg, Some s =>
      if bool_decide (s ∈ allowed) then None else Some msg
  | _, None => None
  end.

Definition date_rule (v : option Z) (r : DateRule) : option string :=
  match r, v with
  | DateMin limit msg, Some t => if (t <? limit)%Z then Some msg else None
  | DateMin _ _, None => None
  | DateRequired msg, Some _ => None
  | DateRequired msg, None => Some msg
  end.

(** The messages of the rules a field value fails, in the order of the
    rules.  A present date that does not parse fails with the type error
    alone. *)
Definition validateField `{Platform} (f : FieldSchema) (v : option string)
  : list string :=
  match f with
  | StringSchema rules => omap (string_rule v) rules
  | DateSchema rules typeError =>
      match v with
      | None => omap (date_rule None) rules
      | Some raw =>
          match parseDate raw with
          | None => [typeError raw]
          | Some t => omap (date_rule (Some t)) rules
          end
      end
  end.

End Yup.

Module Formik.

(** Formik hands empty strings to the schema as [undefined]. *)
Definition prepare (raw : string) : option string :=
  if JsString.nonempty raw then Some raw else None.

(** The errors object Formik builds from a Yup object schema: for each
    field, the first message the schema reports for it. *)
Definition validate `{Platform} (shape : list (string * Yup.FieldSchema))
    (value : string → string) : gmap string string :=
  foldr (λ '(name, f) errors,
           match Yup.validateField f (prepare (value name)) with
           | msg :: _ => <[name := msg]> errors
           | [] => errors
           end)
        ∅ shape.

(** Formik's state for a form whose values have type [V]. *)
Record Bag (V : Type) := mkBag {
  values : V;
  errors : gmap string string;
  status : JsVal;
  isSubmitting : bool
}.
Arguments mkBag {V}.
Arguments values {V}.
Arguments errors {V}.
Arguments status {V}.
Arguments isSubmitting {V}.

(** The helpers Formik passes to [onSubmit]. *)
Record Helpers (S : Type) := mkHelpers {
  setSubmitting : bool → Prog S unit;
  setStatus : JsVal → Prog S unit;
  resetForm : Prog S unit;
  setFieldError : string → string → Prog S unit
}.
Arguments setSubmitting {S}.
Arguments setStatus {S}.
Arguments resetForm {S}.
Arguments setFieldError {S}.

Section Form.
Context {S V : Type}.
(** where the component state holds Formik's *)
Context (withBag : (Bag V → Bag V) → S → S).
Context (initialValues : V).

Definition helpers : Helpers S :=
  {| setSubmitting b :=
       ProgM.set (withBag (λ f, mkBag (values f) (errors f) (status f) b));
     setStatus st :=
       ProgM.set (withBag (λ f, mkBag (values f) (errors f) st (isSubmitting f)));
     resetForm :=
       ProgM.set (withBag (λ _, mkBag initialValues ∅ VUndefined false));
     setFieldError name msg :=
       ProgM.set (withBag (λ f, mkBag (values f) (<[name := msg]> (errors f))
                                      (status f) (isSubmitting f))) |}.

(** Submitting the form: Formik validates the current values and calls
    [onSubmit] only when the schema reports no error; [isSubmitting] is
    cleared when the attempt is over. *)
Definition submitForm (validate : V → gmap string string)
    (onSubmit : V → Helpers S → Prog S unit) (current : V) : Prog S unit :=
  setSubmitting helpers true;;
  let found := validate current in
  ProgM.set (withBag (λ f, mkBag (values f) found (status f) (isSubmitting f)));;
  if Nat.eqb (size found) 0 then
    ProgM.try_finally (onSubmit current helpers) (setSubmitting helpers false)
  else setSubmitting helpers false.

End Form.

End Formik.

(** ** NewTaskForm (first component of NewTaskForm.jsx) *)

Module NewTaskForm.

Record Values := mkValues {
  description : string;
  assigned_to : string;
  priority : string;
  due_date : string;
  completed : bool
}.

Record Props := mkProps {
  eventId : JsVal;
  onTaskCreated : bool
}.

Definition initialValues : Values := mkValues "" "" "Medium" "" false.

(** The text of a field, by its name. *)
Definition field (values : Values) (name : string) : string :=
  if String.eqb name "description" then description values
  else if String.eqb name "assigned_to" then assigned_to values
  else if String.eqb name "priority" then priority values
  else if String.eqb name "due_date" then due_date values
  else "".

(** [TaskValidationSchema], lines 26-39.  [created] is the value of
    [new Date()] when the module is loaded and the schema is built. *)
Definition TaskValidationSchema (created : Z) : list (string * Yup.FieldSchema) :=
  [("description",
     Yup.StringSchema
       [Yup.Min 5 "Description must be at least 5 characters";
        Yup.Max 500 "Description must be less than 500 characters";
        Yup.Required "Description is required"]);
   ("assigned_to",
     Yup.StringSchema [Yup.Max 100 "Assigned to must be less than 100 characters"]);
   ("priority",
     Yup.StringSchema
       [Yup.OneOf ["High"; "Medium"; "Low"] "Priority must be High, Medium, or Low";
        Yup.Required "Priority is required"]);
   ("due_date",
     Yup.DateSchema [Yup.DateMin created "Due date must be in the future"]
       (Yup.notDate "due_date"))].

Definition taskStatus (type msg : JsVal) : JsVal :=
  VObj [("type", type); ("message", msg)].

(** [handleSubmit], lines 54-103. *)
Definition handleSubmit `{Platform} {S} (props : Props) (values : Values)
    (formik : Formik.Helpers S) : Prog S unit :=
  try_catch_finally
    (Formik.setStatus formik VNull;;
     let taskData :=
       [("event_id", eventId props);
        ("description", VStr (JsString.trim (description values)));
        ("assigned_to", VStr (JsString.trim (assigned_to values)));
        ("priority", VStr (priority values));
        ("completed", VBool (completed values))] in
     taskData ←
       (if JsString.nonempty (due_date values) then
          iso ← isoOfInput (due_date values);
          mret (taskData ++ [("due_date", VStr iso)])
        else mret taskData);
     response ← ProgM.fetch POST "http://localhost:5000/tasks" (Some (VObj taskData));
     responseData ← ProgM.json_of response;
     if negb (ok response) then
       err ← ProgM.prop responseData "error";
       Formik.setStatus formik
         (taskStatus (VStr "error") (Js.or err (VStr "Failed to create task")))
     else
       Formik.setStatus formik
         (taskStatus (VStr "success") (VStr "Task created successfully!"));;
       Formik.resetForm formik;;
       (if onTaskCreated props
        then ProgM.emit (Callback "onTaskCreated" [responseData])
        else mret ()))
    (λ error,
       ProgM.emit (ConsoleError "Error creating task:" (message error));;
       Formik.setStatus formik
         (taskStatus (VStr "error") (VStr "Network error. Please try again.")))
    (Formik.setSubmitting formik false).

(** The component keeps no state besides Formik's. *)
Definition State := Formik.Bag Values.

Definition initial : State := Formik.mkBag initialValues ∅ VUndefined false.

(** Pressing "Create Task" with the values [current] in the form. *)
Definition submit `{Platform} (created : Z) (props : Props) (current : Values)
  : Prog State unit :=
  Formik.submitForm (λ f, f) initialValues
    (λ v, Formik.validate (TaskValidationSchema created) (field v))
    (handleSubmit props) current.

(** The fields of the form and the rules the schema states for each: the
    description has 5 to 500 characters, the assignee at most 100, the
    priority is one of the three listed, the due date, when given, is a
    date not before the instant the schema was built. *)
Inductive Field := Description | AssignedTo | Priority | DueDate.

Definition field_name (f : Field) : string :=
  match f with
  | Description => "description"
  | AssignedTo => "assigned_to"
  | Priority => "priority"
  | DueDate => "due_date"
  end.

Definition violates `{Platform} (created : Z) (values : Values) (f : Field) : Prop :=
  match f with
  | Description =>
      String.length (description values) < 5 ∨
      500 < String.length (description values)
  | AssignedTo => 100 < String.length (assigned_to values)
  | Priority => priority values ∉ ["High"; "Medium"; "Low"]
  | DueDate =>
      due_date values ≠ "" ∧
      ∀ t, parseDate (due_date values) = Some t → (t < created)%Z
  end.

(** Sample data: a task with the description "abcd", and a complete
    one. *)
Definition sampleProps : Props := mkProps (VNum 1) true.
Definition abcd : Values := mkValues "abcd" "" "Medium" "" false.
Definition sampleTask : Values :=
  mkValues "  Order the cake " " Grace " "High" "2030-05-01T18:00" false.
Definition blankTask : Values := mkValues "      " "" "Medium" "" false.
(** A task due on the first of January 2020. *)
Definition staleTask : Values :=
  mkValues "Order the cake" "" "High" "2020-01-01T00:00" false.

End NewTaskForm.

(** ** NewEventForm (second component of NewTaskForm.jsx) *)

Module NewEventForm.

Record Values := mkValues {
  title : string;
  description : string;
  location : string;
  date : string
}.

Definition initialValues : Values := mkValues "" "" "" "".

Definition field (values : Values) (name : string) : string :=
  if String.eqb name "title" then title values
  else if String.eqb name "description" then description values
  else if String.eqb name "location" then location values
  else if String.eqb name "date" then date values
  else "".

(** [validationSchema], lines 269-285; it is built at each render,
    [created] is the value of [new Date()] then. *)
Definition validationSchema (created : Z) : list (string * Yup.FieldSchema) :=
  [("title",
     Yup.StringSchema
       [Yup.Required "Title is required";
        Yup.Min 3 "Title must be at least 3 characters";
        Yup.Max 200 "Title must be less than 200 characters"]);
   ("description",
     Yup.StringSchema [Yup.Max 1000 "Description must be less than 1000 characters"]);
   ("location",
     Yup.StringSchema [Yup.Max 300 "Location must be less than 300 characters"]);
   ("date",
     Yup.DateSchema
       [Yup.DateRequired "Date is required";
        Yup.DateMin created "Date must be in the future"]
       (Yup.typeError "Please enter a valid date"))].

Record State := mkState {
  formik : Formik.Bag Values;
  submitError : option string
}.

Definition initial : State :=
  mkState (Formik.mkBag initialValues ∅ VUndefined false) None.

Definition withFormik (f : Formik.Bag Values → Formik.Bag Values) (s : State) : State :=
  mkState (f (formik s)) (submitError s).
Definition setSubmitError (e : option string) (s : State) : State :=
  mkState (formik s) e.

(** The body of the request, lines 296-301. *)
Definition eventData `{Platform} {S} (values : Values) : Prog S JsVal :=
  iso ← isoOfInput (date values);
  mret (VObj [("title", VStr (title values));
              ("description", VStr (description values));
              ("location", VStr (location values));
              ("date", VStr iso)]).

(** What the [catch] blocks of the event forms do with the error, lines
    330-342 (and 87-94 of EditEventForm.jsx). *)
Definition reportError (label fallback : string) (error : JsError)
    (formik : Formik.Helpers State) : Prog State unit :=
  ProgM.emit (ConsoleError label (message error));;
  ProgM.set (setSubmitError (Some (JsString.or_else (message error) fallback)));;
  if JsString.includes (message error) "title"
  then Formik.setFieldError formik "title" (message error)
  else if JsString.includes (message error) "date"
  then Formik.setFieldError formik "date" (message error)
  else mret ().

(** The error thrown on a non-success answer:
    [new Error(errorData.error || fallback)]. *)
Definition throwApiError {A} (response : Response) (fallback : string)
  : Prog State A :=
  errorData ← ProgM.json_of response;
  err ← ProgM.prop errorData "error";
  ProgM.throw (Js.to_text (Js.or err (VStr fallback))).

(** [handleSubmit], lines 291-346. *)
Definition handleSubmit `{Platform} (values : Values)
    (formik : Formik.Helpers State) : Prog State unit :=
  try_catch_finally
    (ProgM.set (setSubmitError None);;
     body ← eventData values;
     response ← ProgM.fetch POST "http://localhost:5000/events" (Some body);
     (if negb (ok response)
      then throwApiError response "Failed to create event"
      else mret ());;
     createdEvent ← ProgM.json_of response;
     ProgM.emit (ConsoleLog "Event created successfully:" createdEvent);;
     ProgM.emit (Navigate "/"
       (VObj [("state", VObj [("message", VStr "Event created successfully!");
                              ("type", VStr "success")])])))
    (λ error,
       reportError "Error creating event:"
         "Failed to create event. Please try again." error formik)
    (Formik.setSubmitting formik false).

Definition submit `{Platform} (created : Z) (current : Values) : Prog State unit :=
  Formik.submitForm withFormik initialValues
    (λ v, Formik.validate (validationSchema created) (field v))
    handleSubmit current.

(** Sample data: a complete event. *)
Definition sampleEvent : Values :=
  mkValues "Launch party" "" "Town hall" "2030-05-01T18:00".

End NewEventForm.

(** ** EditTaskForm (EditTaskForm.jsx) *)

Module EditTaskForm.

Record Values := mkValues {
  description : string;
  priority : string;
  assigned_to : string;
  due_date : string
}.

Record Props := mkProps {
  (** [task.id] *)
  taskId : JsVal;
  eventId : JsVal;
  onTaskUpdate : bool
}.

Definition field (values : Values) (name : string) : string :=
  if String.eqb name "description" then description values
  else if String.eqb name "priority" then priority values
  else if String.eqb name "assigned_to" then assigned_to values
  else if String.eqb name "due_date" then due_date values
  else "".

(** [validationSchema], lines 31-44. *)
Definition validationSchema (created : Z) : list (string * Yup.FieldSchema) :=
  [("description",
     Yup.StringSchema
       [Yup.Required "Task description is required";
        Yup.Min 3 "Description must be at least 3 characters";
        Yup.Max 500 "Description must be less than 500 characters"]);
   ("priority",
     Yup.StringSchema
       [Yup.Required "Priority is required";
        Yup.OneOf ["Low"; "Medium"; "High"] "Priority must be Low, Medium, or High"]);
   ("assigned_to",
     Yup.StringSchema [Yup.Max 100 "Assigned to must be less than 100 characters"]);
   ("due_date",
     Yup.DateSchema [Yup.DateMin created "Due date cannot be in the past"]
       (Yup.notDate "due_date"))].

(** [s || null] *)
Definition or_null (s : string) : JsVal :=
  if JsString.nonempty s then VStr s else VNull.

(** The body of the request, lines 87-93. *)
Definition taskData (props : Props) (values : Values) : JsVal :=
  VObj [("description", VStr (JsString.trim (description values)));
        ("priority", VStr (priority values));
        ("assigned_to", or_null (JsString.trim (assigned_to values)));
        ("due_date", or_null (due_date values));
        ("event_id", eventId props)].

Definition State := Formik.Bag Values.

(** [handleSubmit], lines 82-126. *)
Definition handleSubmit (props : Props) (values : Values)
    (formik : Formik.Helpers State) : Prog State unit :=
  try_catch_finally
    (Formik.setStatus formik VNull;;
     response ← ProgM.fetch PATCH
                  ("http://localhost:5000/tasks/" +:+ Js.to_text (taskId props))
                  (Some (taskData props values));
     if ok response then
       updatedTask ← ProgM.json_of response;
       (if onTaskUpdate props
        then ProgM.emit (Callback "onTaskUpdate" [updatedTask])
        else mret ());;
       Formik.setStatus formik
         (NewTaskForm.taskStatus (VStr "success") (VStr "Task updated successfully!"))
     else
       errorData ← ProgM.json_of response;
       err ← ProgM.prop errorData "error";
       ProgM.throw (Js.to_text (Js.or err (VStr "Failed to update task"))))
    (λ error,
       ProgM.emit (ConsoleError "Error updating task:" (message error));;
       Formik.setStatus formik
         (NewTaskForm.taskStatus (VStr "error")
            (VStr (JsString.or_else (message error)
                     "Failed to update task. Please try again."))))
    (Formik.setSubmitting formik false).

(** Pressing "Update Task"; [initialValues] are those computed from the
    task being edited. *)
Definition submit `{Platform} (created : Z) (props : Props)
    (initialValues current : Values) : Prog State unit :=
  Formik.submitForm (λ f, f) initialValues
    (λ v, Formik.validate (validationSchema created) (field v))
    (handleSubmit props) current.

(** Sample data: the props of the editor of task 7 and a complete edit. *)
Definition sampleProps : Props := mkProps (VNum 7) (VNum 1) true.
Definition sampleEdit : Values := mkValues "Order the cake" "High" "" "".

(** What [Date] gives for a time in the local zone: the year, the month
    from 0, the day, the hours and the minutes. *)
Record LocalParts := mkLocalParts {
  fullYear : Z;
  month : Z;
  day : Z;
  hours : Z;
  minutes : Z
}.

Class LocalZone := { localParts : Z → LocalParts }.

(** [String(n)] for what a getter of [Date] gives: a number, or [NaN] on
    an invalid date. *)
Definition numberText (n : option Z) : string :=
  match n with
  | Some z => pretty z
  | None => "NaN"
  end.

(** [s.padStart(2, '0')] *)
Definition padStart2 (s : string) : string :=
  match s with
  | EmptyString => "00"
  | String c EmptyString => String "0" (String c EmptyString)
  | _ => s
  end.

(** [formatDateForInput], lines 51-67.  No call in its [try] block throws:
    the getters of an invalid date give [NaN]. *)
Definition formatDateForInput `{Platform} `{LocalZone} (dateString : option string)
  : string :=
  match dateString with
  | None | Some EmptyString => ""
  | Some s =>
      let date := localParts <$> parseDate s in
      let year := numberText (fullYear <$> date) in
      let month := padStart2 (numberText ((λ d, month d + 1)%Z <$> date)) in
      let day := padStart2 (numberText (day <$> date)) in
      let hours := padStart2 (numberText (hours <$> date)) in
      let minutes := padStart2 (numberText (minutes <$> date)) in
      year +:+ "-" +:+ month +:+ "-" +:+ day +:+ "T" +:+ hours +:+ ":" +:+ minutes
  end.

(** A zone for the examples: it knows the local time of the one date in
    2030 of the sample platform. *)
Definition sampleZone : LocalZone :=
  {| localParts t :=
       if (t =? 1903975200000)%Z then mkLocalParts 2030 4 1 18 0
       else mkLocalParts 1970 0 1 0 0 |}.

End EditTaskForm.

(** ** EditEventForm (first component of EditEventForm.jsx)

    Its values, its schema (lines 41-54) and the error handling of its
    submit handler are those of NewEventForm. *)

Module EditEventForm.

Record Props := mkProps {
  eventId : JsVal;
  onEventUpdated : bool
}.

(** [handleSubmit], lines 56-98. *)
Definition handleSubmit `{Platform} (props : Props) (values : NewEventForm.Values)
    (formik : Formik.Helpers NewEventForm.State) : Prog NewEventForm.State unit :=
  try_catch_finally
    (ProgM.set (NewEventForm.setSubmitError None);;
     body ← NewEventForm.eventData values;
     response ← ProgM.fetch PATCH
                  ("http://localhost:5000/events/" +:+ Js.to_text (eventId props))
                  (Some body);
     (if negb (ok response)
      then NewEventForm.throwApiError response "Failed to update event"
      else mret ());;
     updatedEvent ← ProgM.json_of response;
     ProgM.emit (ConsoleLog "Event updated successfully:" updatedEvent);;
     if onEventUpdated props
     then ProgM.emit (Callback "onEventUpdated" [updatedEvent])
     else mret ())
    (λ error,
       NewEventForm.reportError "Error updating event:"
         "Failed to update event. Please try again." error formik)
    (Formik.setSubmitting formik false).

Definition submit `{Platform} (created : Z) (props : Props)
    (initialValues current : NewEventForm.Values) : Prog NewEventForm.State unit :=
  Formik.submitForm NewEventForm.withFormik initialValues
    (λ v, Formik.validate (NewEventForm.validationSchema created)
            (NewEventForm.field v))
    (handleSubmit props) current.

(** [new Date(v)] for a value of a payload: a string is parsed, a number
    is a time in milliseconds (within the range of [Date]), [null] and the
    booleans count as numbers, [undefined] is no date, an array or an
    object is parsed through its text. *)
Definition newDate `{Platform} (v : JsVal) : option Z :=
  match v with
  | VUndefined => None
  | VNull => Some 0%Z
  | VBool b => Some (if b then 1 else 0)%Z
  | VNum n =>
      if ((-8640000000000000 <=? n) && (n <=? 8640000000000000))%Z
      then Some n else None
  | VStr s => parseDate s
  | VArr _ | VObj _ => parseDate (Js.to_text v)
  end.

(** What the form is initialised with, lines 24-29. *)
Record InitialValues := mkInitialValues {
  title : JsVal;
  description : JsVal;
  location : JsVal;
  date : string
}.

(** The state of the component, lines 14-15. *)
Record LoadState := mkLoadState {
  submitError : option string;
  initialValues : option InitialValues
}.

Definition mounted : LoadState := mkLoadState None None.

Definition setSubmitError (e : option string) (s : LoadState) : LoadState :=
  mkLoadState e (initialValues s).
Definition setInitialValues (v : InitialValues) (s : LoadState) : LoadState :=
  mkLoadState (submitError s) (Some v).

(** [fetchEventDetails], lines 19-37. *)
Definition fetchEventDetails `{Platform} (eventId : JsVal) : Prog LoadState unit :=
  ProgM.try_catch
    (response ← ProgM.fetch GET
                  ("http://localhost:5000/events/" +:+ Js.to_text eventId) None;
     if ok response then
       eventData ← ProgM.json_of response;
       title ← ProgM.prop eventData "title";
       description ← ProgM.prop eventData "description";
       location ← ProgM.prop eventData "location";
       date ← ProgM.prop eventData "date";
       iso ← match newDate date with
             | Some t => mret (toISOString t)
             | None => ProgM.throw "Invalid time value"
             end;
       ProgM.set (setInitialValues
         (mkInitialValues title description location (String.substring 0 16 iso)))
     else ProgM.throw "Failed to fetch event details")
    (λ error,
       ProgM.emit (ConsoleError "Error fetching event details:" (message error));;
       ProgM.set (setSubmitError (Some "Failed to load event data."))).

(** The component's render at its top, lines 100-122: without initial
    values the placeholder, else the form, with the error banner inside
    it. *)
Definition render (s : LoadState) : Node :=
  match initialValues s with
  | None => Elem "" [Text "Loading event data..."]
  | Some _ =>
      Elem "edit-event-form-page"
        [Elem "form-container"
           [Elem "form-header"
              [Text "Edit Event";
               Text "Modify the details below to update your event"];
            Elem "event-form"
              (match submitError s with
               | Some (String c msg) =>
                   [Elem "error-banner" [Text "Error:"; Text (String c msg)]]
               | _ => []
               end ++ [Component "fields"; Component "form-actions"])]]
  end.

End EditEventForm.

(** The fields of the entities that a client may write (section 3 of the
    specification: everything but the identifier and the timestamps). *)
Definition task_fields : list string :=
  ["event_id"; "description"; "assigned_to"; "priority"; "due_date"; "completed"].

(** ** TaskList (second component of src/unnamed/part_002) *)

Module TaskList.

Record Task := mkTask {
  id : Z;
  event_id : Z;
  description : string;
  assigned_to : option string;
  priority : string;
  (** [null] or an ISO 8601 string *)
  due_date : option string;
  completed : bool
}.

(** [isOverdue], lines 441-444; [now] is the value of [new Date()] at the
    call.  A comparison with an invalid date is false. *)
Definition isOverdue `{Platform} (now : Z) (task : Task) : bool :=
  match due_date task with
  | None => false
  | Some due =>
      if negb (JsString.nonempty due) || completed task then false
      else match parseDate due with
           | Some t => (t <? now)%Z
           | None => false
           end
  end.

(** Sample data: a pending task that was due in 2020. *)
Definition lateTask : Task :=
  mkTask 7 1 "Book the venue" None "High" (Some "2020-01-01T00:00") false.

Record Props := mkProps {
  onTaskToggle : bool;
  onTaskUpdate : bool;
  onTaskDelete : bool
}.

(** Sample data: the props the detail page passes. *)
Definition sampleProps : Props := mkProps true true false.

Record State := mkState {
  editingTaskId : option Z;
  processingTasks : gset Z
}.

Definition initial : State := mkState None ∅.

Definition setProcessingTasks (f : gset Z → gset Z) (s : State) : State :=
  mkState (editingTaskId s) (f (processingTasks s)).

Definition toggleRequest (taskId : Z) : Request :=
  mkRequest PATCH ("http://localhost:5000/tasks/" +:+ pretty taskId +:+ "/toggle")
            None.

(** [handleTaskToggle], lines 374-401.  [processing] is the
    [processingTasks] of the render that created the handler. *)
Definition handleTaskToggle (props : Props) (processing : gset Z) (taskId : Z)
  : Prog State unit :=
  if bool_decide (taskId ∈ processing) then mret ()
  else
    try_catch_finally
      (ProgM.set (setProcessingTasks (λ prev, prev ∪ {[taskId]}));;
       response ← ProgM.fetch PATCH (req_url (toggleRequest taskId)) None;
       if ok response then
         updatedTask ← ProgM.json_of response;
         (if onTaskToggle props
          then ProgM.emit (Callback "onTaskToggle" [updatedTask])
          else mret ());;
         (if onTaskUpdate props
          then ProgM.emit (Callback "onTaskUpdate" [])
          else mret ())
       else
         errorData ← ProgM.json_of response;
         err ← ProgM.prop errorData "error";
         ProgM.emit (ConsoleError "Failed to toggle task:" (Js.to_text err)))
      (λ error, ProgM.emit (ConsoleError "Error toggling task:" (message error)))
      (ProgM.set (setProcessingTasks (λ prev, prev ∖ {[taskId]}))).

Definition setEditingTaskId (v : option Z) (s : State) : State :=
  mkState v (processingTasks s).

(** [handleEditTask] and [handleCancelEdit], lines 403-409. *)
Definition handleEditTask (taskId : Z) : Prog State unit :=
  ProgM.set (setEditingTaskId (Some taskId)).
Definition handleCancelEdit : Prog State unit :=
  ProgM.set (setEditingTaskId None).

(** [handleDeleteTask], lines 411-426. *)
Definition handleDeleteTask (props : Props) (taskId : Z) : Prog State unit :=
  ProgM.try_catch
    (response ← ProgM.fetch DELETE
                  ("http://localhost:5000/tasks/" +:+ pretty taskId) None;
     if ok response then
       (if onTaskDelete props
        then ProgM.emit (Callback "onTaskDelete" [VNum taskId])
        else mret ());;
       (if onTaskUpdate props
        then ProgM.emit (Callback "onTaskUpdate" [])
        else mret ())
     else ProgM.emit (ConsoleError "Failed to delete task." ""))
    (λ error, ProgM.emit (ConsoleError "Error deleting task:" (message error))).

Definition deleteRequest (taskId : Z) : Request :=
  mkRequest DELETE ("http://localhost:5000/tasks/" +:+ pretty taskId) None.

(** Pressing the delete button of a task. *)
Definition pressDelete (props : Props) (taskId : Z)
  : EventLoop.Config State → EventLoop.Config State :=
  EventLoop.dispatch (λ _, handleDeleteTask props taskId).

(** The life of one mounted task list, from its mounting on: the user
    presses the toggle, the Edit or the Delete button of a task, or leaves
    the editor (by Cancel, or by an update that went through), and the
    requests of the list settle, in any order. *)
Definition start : EventLoop.Config State := EventLoop.mkConfig initial [] [] [].

Definition press (props : Props) (taskId : Z)
  : EventLoop.Config State → EventLoop.Config State :=
  EventLoop.dispatch (λ s, handleTaskToggle props (processingTasks s) taskId).

Definition pressEdit (taskId : Z)
  : EventLoop.Config State → EventLoop.Config State :=
  EventLoop.dispatch (λ _, handleEditTask taskId).

Definition leaveEditor : EventLoop.Config State → EventLoop.Config State :=
  EventLoop.dispatch (λ _, handleCancelEdit).

Inductive step (props : Props)
  : EventLoop.Config State → EventLoop.Config State → Prop :=
| step_press c taskId : step props c (press props taskId c)
| step_edit c taskId : step props c (pressEdit taskId c)
| step_cancel c : step props c (leaveEditor c)
| step_delete c taskId : step props c (pressDelete props taskId c)
| step_settle c i o :
    i < length (EventLoop.inflight c) → step props c (EventLoop.settle i o c).

Definition reachable (props : Props) (c : EventLoop.Config State) : Prop :=
  rtc (step props) start c.

(** What holds all along: every waiting handler waits for a toggle of a
    task and will remove that task from [processingTasks] when its request
    settles, whatever the answer, or waits for the deletion of a task and
    will leave the state as it is; no two wait for the same toggle; and
    [processingTasks] holds the tasks whose toggle is waited for and no
    other. *)
Definition waits_for_toggle (p : EventLoop.Pending State) (taskId : Z) : Prop :=
  EventLoop.awaited p = toggleRequest taskId ∧
  ∀ o s, ∃ es r,
    advance (EventLoop.resume p o) s =
    (setProcessingTasks (λ prev, prev ∖ {[taskId]}) s, es, Finished r).

Definition waits_for_delete (p : EventLoop.Pending State) (taskId : Z) : Prop :=
  EventLoop.awaited p = deleteRequest taskId ∧
  ∀ o s, ∃ es r, advance (EventLoop.resume p o) s = (s, es, Finished r).

Definition is_patch (req : Request) : bool :=
  match req_method req with PATCH => true | _ => false end.

Definition invariant (c : EventLoop.Config State) : Prop :=
  (∀ p, p ∈ EventLoop.inflight c →
        (∃ taskId, waits_for_toggle p taskId) ∨
        (∃ taskId, waits_for_delete p taskId)) ∧
  NoDup (filter (λ req, is_patch req = true)
           (EventLoop.awaited <$> EventLoop.inflight c)) ∧
  (∀ taskId, taskId ∈ processingTasks (EventLoop.state c) ↔
             toggleRequest taskId ∈ EventLoop.awaited <$> EventLoop.inflight c).

(** The [i]-th waiting request is a toggle of [taskId]. *)
Definition toggling_at (c : EventLoop.Config State) (i : nat) (taskId : Z) : Prop :=
  ∃ p, EventLoop.inflight c !! i = Some p ∧
       EventLoop.awaited p = toggleRequest taskId.

End TaskList.

(** ** The children of the detail page

    The props the detail page gives them, lines 817-883 of
    EventDetailPage.jsx.  The edit form is given [onEventUpdate]; the prop
    it reads, [onEventUpdated], is not passed. *)

Definition rsvpFormProps (eventId : JsVal) : RSVPForm.Props :=
  RSVPForm.mkProps eventId true true.
Definition newTaskFormProps (eventId : JsVal) : NewTaskForm.Props :=
  NewTaskForm.mkProps eventId true.
Definition editEventFormProps (eventId : JsVal) : EditEventForm.Props :=
  EditEventForm.mkProps eventId false.
Definition taskListProps : TaskList.Props := TaskList.mkProps true true false.

(** ** The task list inside the detail page

    The page mounts the task list where its view holds it (lines 875-883)
    and unmounts it when a render does not: while [loading] is set the page
    returns the loading view (lines 682-691), and a list mounted after that
    is a new component, whose [processingTasks] starts empty.  A handler of
    an unmounted list that waits for its answer goes on waiting; its request
    is not cancelled. *)

Module PageWithTaskList.

Record World := mkWorld {
  page : EventLoop.Config EventDetailPage.State;
  (** the mounted list, if the view of the page holds one *)
  taskList : option (EventLoop.Config TaskList.State);
  (** the waiting handlers of lists that are no longer mounted *)
  orphaned : list (EventLoop.Pending TaskList.State)
}.

(** Whether the view of the page holds the task list; a render that throws
    shows nothing. *)
Definition shows_task_list `{Numeric} (s : EventDetailPage.State) : bool :=
  match EventDetailPage.render s with
  | Some view => mounts "TaskList" view
  | None => false
  end.

(** What React does with the list after the page has rendered. *)
Definition reconcile `{Numeric} (w : World) : World :=
  if shows_task_list (EventLoop.state (page w)) then
    match taskList w with
    | Some _ => w
    | None => mkWorld (page w) (Some TaskList.start) (orphaned w)
    end
  else
    match taskList w with
    | Some list => mkWorld (page w) None (orphaned w ++ EventLoop.inflight list)
    | None => w
    end.

(** Something happens in the page (an event, a callback of a child, an
    answer to one of its requests), and the page renders. *)
Definition on_page `{Numeric}
    (f : EventLoop.Config EventDetailPage.State
         → EventLoop.Config EventDetailPage.State) (w : World) : World :=
  reconcile (mkWorld (f (page w)) (taskList w) (orphaned w)).

(** Something happens in the mounted list, if there is one. *)
Definition on_list
    (f : EventLoop.Config TaskList.State → EventLoop.Config TaskList.State)
    (w : World) : World :=
  mkWorld (page w) (f <$> taskList w) (orphaned w).

(** The requests of task lists that wait for an answer. *)
Definition waiting (w : World) : list Request :=
  EventLoop.awaited
    <$> (orphaned w ++ match taskList w with
                       | Some list => EventLoop.inflight list
                       | None => []
                       end).

(** The page of event 1 with its tasks and the RSVP form open, the task
    list mounted. *)
Definition opened : World :=
  mkWorld (EventLoop.idle EventDetailPage.loadedWithForm)
          (Some TaskList.start) [].

End PageWithTaskList.

(** * Properties *)

(** ** Running handlers: general facts *)

Section RunFacts.
Context {S : Type}.
Implicit Types (s : S) (backend : Request → FetchOutcome).

Lemma run_bind {A B} backend (p : Prog S A) (f : A → Prog S B) s :
  run backend (ProgM.bind p f) s =
  let r := run backend p s in
  match result r with
  | inl e => mkRun (final r) (trace r) (inl e)
  | inr a =>
      let r' := run backend (f a) (final r) in
      mkRun (final r') (trace r ++ trace r') (result r')
  end.
Proof.
  revert s. induction p as [a|e|g k IH|o k IH|req k IH]; intros s; simpl.
  - by destruct (run backend (f a) s).
  - done.
  - apply IH.
  - rewrite IH. simpl. by destruct (result (run backend k s)).
  - rewrite IH. simpl. by destruct (result (run backend (k (backend req)) s)).
Qed.

(** A [finally] block that only sets state is applied last, on every way
    out of the protected block. *)
Lemma run_try_finally_set {A} backend (p : Prog S A) (f : S → S) s :
  run backend (ProgM.try_finally p (ProgM.set f)) s =
  let r := run backend p s in mkRun (f (final r)) (trace r) (result r).
Proof.
  revert s. induction p as [a|e|g k IH|o k IH|req k IH]; intros s; simpl;
    try done.
  - by rewrite IH.
  - by rewrite IH.
Qed.

End RunFacts.

Lemma or_else_nonempty (s d : string) : d ≠ "" → JsString.or_else s d ≠ "".
Proof. unfold JsString.or_else. by destruct s. Qed.

(** ** EventDetailPage *)

Section EventDetailPageFacts.
Import EventDetailPage.
Context `{Numeric}.
Implicit Types (s : State) (backend : Request → FetchOutcome) (eventId : JsVal).

(** What [fetchEvent] leaves in the state, by the way the request settles. *)
Lemma fetchEvent_final eventId backend s :
  final (run backend (fetchEvent eventId) s) =
  match backend (mkRequest GET (eventUrl eventId) None) with
  | Rejected e =>
      setLoading false
        (setError (Some (JsString.or_else (message e) "Failed to load event"))
           (setError None (setLoading true s)))
  | Resolved r =>
      if ok r then
        match json r with
        | inr eventData =>
            setLoading false (setEvent eventData (setError None (setLoading true s)))
        | inl e =>
            setLoading false
              (setError (Some (JsString.or_else (message e) "Failed to load event"))
                 (setError None (setLoading true s)))
        end
      else if (status r =? 404)%N then
        setLoading false
          (setError (Some "Event not found") (setError None (setLoading true s)))
      else
        setLoading false
          (setError (Some ("HTTP error! status: " +:+ pretty (status r)))
             (setError None (setLoading true s)))
  end.
Proof.
  unfold fetchEvent, try_catch_finally. simpl.
  destruct (backend _) as [e|r]; simpl; [done|].
  destruct (ok r); simpl.
  - unfold ProgM.json_of. by destruct (json r).
  - by destruct (status r =? 404)%N.
Qed.

(** C1. A 404 answer to the event fetch puts exactly "Event not found" in
    the error state and the page renders the error view, without the
    event-detail container; any other non-success status puts
    "HTTP error! status: " followed by the decimal status code there. *)
Theorem fetchEvent_not_found_and_http_errors eventId backend s r :
  backend (mkRequest GET (eventUrl eventId) None) = Resolved r →
  ok r = false →
  let s' := final (run backend (fetchEvent eventId) s) in
  (status r = 404%N →
     error s' = Some "Event not found" ∧
     ∃ view, render s' = Some view ∧
             view = error_view "Event not found" ∧
             has_class "error-container" view = true ∧
             has_class "event-detail-container" view = false)
  ∧ (status r ≠ 404%N →
     error s' = Some ("HTTP error! status: " +:+ pretty (status r)) ∧
     ∃ view, render s' = Some view ∧
             has_class "error-container" view = true ∧
             has_class "event-detail-container" view = false).
Proof.
  intros Hb Hok s'. subst s'. rewrite fetchEvent_final, Hb, Hok. split.
  - intros ->. simpl. split; [done|]. eexists. split; [reflexivity|]. done.
  - intros Hne. apply N.eqb_neq in Hne. rewrite Hne. simpl.
    split; [done|]. eexists. split; [reflexivity|]. done.
Qed.

Lemma fetchEventRSVPs_final eventId backend s :
  final (run backend (fetchEventRSVPs eventId) s) =
  match backend (read_request FetchEventRSVPs eventId) with
  | Rejected _ => setRsvpLoading false (setRsvpLoading true s)
  | Resolved r =>
      if ok r then
        match json r with
        | inr data =>
            match Js.get data "rsvps" with
            | Some list =>
                setRsvpLoading false
                  (setRsvps (Js.or list (VArr [])) (setRsvpLoading true s))
            | None => setRsvpLoading false (setRsvpLoading true s)
            end
        | inl _ => setRsvpLoading false (setRsvpLoading true s)
        end
      else setRsvpLoading false (setRsvpLoading true s)
  end.
Proof.
  unfold fetchEventRSVPs, try_catch_finally. simpl.
  destruct (backend _) as [e|r]; simpl; [done|].
  destruct (ok r); simpl; [|done].
  unfold ProgM.json_of. destruct (json r) as [e|data]; simpl; [done|].
  unfold ProgM.prop. by destruct (Js.get data "rsvps").
Qed.

Lemma fetchEventTasks_final eventId backend s :
  final (run backend (fetchEventTasks eventId) s) =
  match backend (read_request FetchEventTasks eventId) with
  | Rejected _ => setTaskLoading false (setTaskLoading true s)
  | Resolved r =>
      if ok r then
        match json r with
        | inr data =>
            match Js.get data "tasks", Js.get data "task_summary" with
            | Some list, Some summary =>
                setTaskLoading false
                  (setTaskSummary (Js.or summary VNull)
                     (setTasks (Js.or list (VArr [])) (setTaskLoading true s)))
            | _, _ => setTaskLoading false (setTaskLoading true s)
            end
        | inl _ => setTaskLoading false (setTaskLoading true s)
        end
      else setTaskLoading false (setTaskLoading true s)
  end.
Proof.
  unfold fetchEventTasks, try_catch_finally. simpl.
  destruct (backend _) as [e|r]; simpl; [done|].
  destruct (ok r); simpl; [|done].
  unfold ProgM.json_of. destruct (json r) as [e|data]; simpl; [done|].
  unfold ProgM.prop. destruct data; simpl; done.
Qed.

(** C4, as the code has it.  When a read fetch of the page fails (the
    promise rejects or the status is not a success status), the data it is
    about is left as it was.  Only the event fetch has an error state: it
    then holds a non-empty message.  The RSVP and task fetches store no
    message: the state is the one before the attempt, with the loading
    flag of the fetch cleared. *)
Theorem failed_read_fetch_keeps_data eventId backend s op :
  failed (backend (read_request op eventId)) = true →
  let s' := final (run backend (read_fetch op eventId) s) in
  data_of op s' = data_of op s ∧
  match op with
  | FetchEvent => ∃ msg, error s' = Some msg ∧ msg ≠ ""
  | FetchEventRSVPs => s' = setRsvpLoading false s
  | FetchEventTasks => s' = setTaskLoading false s
  end.
Proof.
  intros Hfail s'. subst s'.
  destruct op; cbn [read_fetch read_request data_of] in *.
  - rewrite fetchEvent_final.
    destruct (backend _) as [e|r]; simpl in *.
    + split; [done|]. eexists. split; [done|]. by apply or_else_nonempty.
    + apply negb_true_iff in Hfail. rewrite Hfail.
      destruct (status r =? 404)%N; simpl; (split; [done|]); eexists; done.
  - rewrite fetchEventRSVPs_final. simpl.
    destruct (backend _) as [e|r]; simpl in *; [done|].
    apply negb_true_iff in Hfail. by rewrite Hfail.
  - rewrite fetchEventTasks_final. simpl.
    destruct (backend _) as [e|r]; simpl in *; [done|].
    apply negb_true_iff in Hfail. by rewrite Hfail.
Qed.

Lemma failed_read_fetch_keeps_data_witness :
  failed (answering 500 VNull (read_request FetchEvent (VNum 1))) = true ∧
  ∃ msg, error (final (run (answering 500 VNull) (fetchEvent (VNum 1)) loaded))
         = Some msg ∧ msg ≠ "".
Proof.
  split; [reflexivity|].
  exact (proj2 (failed_read_fetch_keeps_data (VNum 1) (answering 500 VNull)
                  loaded FetchEvent eq_refl)).
Defined.

(** C4, as the specification states it, fails: after a 500 answer to the
    RSVP fetch of a page that shows its RSVPs, no message is stored in the
    error state and the RSVPs are still there. *)
Lemma fetchEventRSVPs_failure_breaks_contract :
  failed (answering 500 VNull (read_request FetchEventRSVPs (VNum 1))) = true ∧
  error (final (run (answering 500 VNull) (fetchEventRSVPs (VNum 1)) loaded))
    = None ∧
  rsvps (final (run (answering 500 VNull) (fetchEventRSVPs (VNum 1)) loaded))
    ≠ VArr [] ∧
  ¬ failure_contract FetchEventRSVPs
      (final (run (answering 500 VNull) (fetchEventRSVPs (VNum 1)) loaded)).
Proof.
  split; [reflexivity|]. split; [reflexivity|]. split; [discriminate|].
  intros [[msg [Herr _]] _]. vm_compute in Herr. discriminate.
Qed.

(** The data is left as it was, not empty: a failed refresh of a loaded
    page keeps the event. *)
Lemma fetchEvent_failure_keeps_loaded_event :
  ¬ failure_contract FetchEvent
      (final (run (answering 500 VNull) (fetchEvent (VNum 1)) loaded)).
Proof. intros [_ Hdata]. vm_compute in Hdata. discriminate. Qed.

(** C5 on this page. *)
Lemma read_fetch_clears_loading_flag op eventId backend s :
  loading_flag op (final (run backend (read_fetch op eventId) s)) = false.
Proof.
  destruct op; simpl;
    unfold fetchEvent, fetchEventRSVPs, fetchEventTasks, try_catch_finally;
    by rewrite run_try_finally_set.
Qed.

End EventDetailPageFacts.

Lemma fetchEvent_not_found_and_http_errors_witness :
  EventDetailPage.error
    (final (run (answering 404 VNull)
              (EventDetailPage.fetchEvent (VNum 999)) EventDetailPage.initial))
    = Some "Event not found" ∧
  EventDetailPage.render (H := sampleNumeric)
    (final (run (answering 404 VNull)
              (EventDetailPage.fetchEvent (VNum 999)) EventDetailPage.initial))
    = Some (EventDetailPage.error_view "Event not found") ∧
  EventDetailPage.error
    (final (run (answering 500 VNull)
              (EventDetailPage.fetchEvent (VNum 999)) EventDetailPage.initial))
    = Some "HTTP error! status: 500".
Proof.
  destruct (@fetchEvent_not_found_and_http_errors sampleNumeric (VNum 999)
              (answering 404 VNull) EventDetailPage.initial
              (mkResponse 404 (inr VNull)) eq_refl eq_refl) as [H404 _].
  destruct (H404 eq_refl) as [Herr [view [Hview [-> _]]]].
  destruct (@fetchEvent_not_found_and_http_errors sampleNumeric (VNum 999)
              (answering 500 VNull) EventDetailPage.initial
              (mkResponse 500 (inr VNull)) eq_refl eq_refl) as [_ H500].
  destruct (H500 ltac:(discriminate)) as [Herr' _].
  split; [exact Herr|]. split; [exact Hview|exact Herr'].
Defined.


(** ** EventsPage *)

Section EventsPageFacts.
Import EventsPage.
Implicit Types (s : State) (backend : Request → FetchOutcome).

Lemma fetchEvents_final backend s :
  final (run backend fetchEvents s) = refreshed (backend eventsRequest) s.
Proof.
  unfold fetchEvents, try_catch_finally, eventsRequest. simpl.
  destruct (backend _) as [e|r]; simpl; [done|].
  destruct (ok r); simpl; [|done].
  unfold ProgM.json_of. by destruct (json r).
Qed.

Lemma refreshed_idempotent o s : refreshed o (refreshed o s) = refreshed o s.
Proof.
  destruct o as [e|r]; simpl; [done|].
  destruct (ok r); [|done]. by destruct (json r).
Qed.

Lemma render_refreshed o s s0 : render (refreshed o s0) = render (refreshed o s).
Proof.
  destruct o as [e|r]; simpl; [done|].
  destruct (ok r); [|done]. by destruct (json r).
Qed.

(** C8. With a backend that answers the same way, a second refresh leaves
    the state of the first, so the page renders the same view after each;
    and that view is determined by the answer alone, whatever the page
    held before. *)
Theorem refresh_twice_renders_the_same backend s :
  let s1 := final (run backend handleRefresh s) in
  let s2 := final (run backend handleRefresh s1) in
  s2 = s1 ∧ render s2 = render s1 ∧
  ∀ s0, render (final (run backend handleRefresh s0)) = render s1.
Proof.
  unfold handleRefresh. cbv zeta. rewrite !fetchEvents_final.
  split; [apply refreshed_idempotent|split].
  - by rewrite refreshed_idempotent.
  - intros s0. rewrite fetchEvents_final. apply render_refreshed.
Qed.

Lemma fetchEvents_clears_loading backend s :
  loading (final (run backend fetchEvents s)) = false.
Proof.
  unfold fetchEvents, try_catch_finally. by rewrite run_try_finally_set.
Qed.

End EventsPageFacts.

(** C5. Every read fetch that has a loading flag clears it on every way out:
    the event, RSVP and task fetches of the detail page and the events
    fetch of the list page, whatever the backend answers and whatever the
    state was. *)
Theorem read_fetches_clear_their_loading_flag :
  (∀ op eventId backend s,
     EventDetailPage.loading_flag op
       (final (run backend (EventDetailPage.read_fetch op eventId) s)) = false)
  ∧ (∀ backend s,
       EventsPage.loading (final (run backend EventsPage.fetchEvents s)) = false).
Proof.
  split.
  - apply read_fetch_clears_loading_flag.
  - apply fetchEvents_clears_loading.
Qed.

(** ** Strings *)

Section StringFacts.
Import JsString.
#[local] Arguments String.append !_ _ / : simpl nomatch.
Implicit Types (s t u : string) (c : ascii).

Lemma append_nil_r s : s +:+ "" = s.
Proof. induction s; simpl; congruence. Qed.

Lemma length_append s t : String.length (s +:+ t) = String.length s + String.length t.
Proof. induction s; simpl; congruence. Qed.

(** A common suffix can be cancelled. *)
Lemma append_inj_l s t u : s +:+ u = t +:+ u → s = t.
Proof.
  revert t. induction s as [|c s IH]; intros [|d t] Heq; simpl in *.
  - done.
  - apply (f_equal String.length) in Heq. simpl in Heq.
    rewrite length_append in Heq. lia.
  - apply (f_equal String.length) in Heq. simpl in Heq.
    rewrite length_append in Heq. lia.
  - injection Heq as -> Heq. f_equal. by apply IH.
Qed.

Lemma trimStart_blank_l l s : all_chars is_space l = true → trimStart (l +:+ s) = trimStart s.
Proof.
  induction l as [|c l IH]; simpl; [done|].
  intros [Hc Hl]%andb_true_iff. rewrite Hc. by apply IH.
Qed.

Lemma trimEnd_blank r : all_chars is_space r = true → trimEnd r = "".
Proof.
  induction r as [|c r IH]; simpl; [done|].
  intros [Hc Hr]%andb_true_iff. by rewrite IH, Hc.
Qed.

Lemma trimEnd_blank_r s r : all_chars is_space r = true → trimEnd (s +:+ r) = trimEnd s.
Proof.
  intros Hr. induction s as [|c s IH]; simpl.
  - by apply trimEnd_blank.
  - by rewrite IH.
Qed.

Lemma trimStart_cases s :
  (all_chars is_space s = true ∧ trimStart s = "") ∨
  (∃ l, all_chars is_space l = true ∧ s = l +:+ trimStart s ∧
        ∃ c t, trimStart s = String c t ∧ is_space c = false).
Proof.
  induction s as [|c s IH]; simpl; [by left|].
  destruct (is_space c) eqn:Hc; simpl.
  - destruct IH as [[Hs Ht]|(l & Hl & Hs & Hrest)]; [by left|right].
    exists (String c l). simpl. rewrite Hc, Hl. split; [done|].
    split; [by rewrite <- Hs|done].
  - right. exists "". simpl. split; [done|]. split; [done|]. by exists c, s.
Qed.

Lemma trimStart_append_blank s r :
  all_chars is_space r = true →
  trimStart (s +:+ r) = trimStart s +:+ r ∨
  (trimStart s = "" ∧ trimStart (s +:+ r) = "").
Proof.
  intros Hr. induction s as [|c s IH]; simpl.
  - right. split; [done|]. rewrite <- (append_nil_r r).
    by rewrite trimStart_blank_l.
  - destruct (is_space c); [done|by left].
Qed.

(** White space around an entry does not change what [trim] gives. *)
Lemma trim_blank_around l s r :
  all_chars is_space l = true → all_chars is_space r = true →
  trim (l +:+ s +:+ r) = trim s.
Proof.
  intros Hl Hr. unfold trim. rewrite trimStart_blank_l by done.
  destruct (trimStart_append_blank s r Hr) as [->|[-> ->]]; [|done].
  by apply trimEnd_blank_r.
Qed.

Lemma is_space_lower_char c : is_space (lower_char c) = is_space c.
Proof. by destruct c as [[] [] [] [] [] [] [] []]. Qed.

Lemma toLowerCase_trimStart s : toLowerCase (trimStart s) = trimStart (toLowerCase s).
Proof.
  induction s as [|c s IH]; simpl; [done|].
  rewrite is_space_lower_char. by destruct (is_space c).
Qed.

Lemma toLowerCase_trimEnd s : toLowerCase (trimEnd s) = trimEnd (toLowerCase s).
Proof.
  induction s as [|c s IH]; simpl; [done|].
  rewrite <- IH, is_space_lower_char.
  destruct (trimEnd s); simpl; [by destruct (is_space c)|done].
Qed.

(** Lower-casing and trimming commute. *)
Lemma toLowerCase_trim s : toLowerCase (trim s) = trim (toLowerCase s).
Proof. unfold trim. by rewrite toLowerCase_trimEnd, toLowerCase_trimStart. Qed.

Lemma toLowerCase_same_letters s t : same_letters s t → toLowerCase s = toLowerCase t.
Proof. induction 1; simpl; congruence. Qed.

(** Entries that differ in case and surrounding white space only have the
    same normal form. *)
Lemma same_entry_normal_form s t :
  same_entry s t → toLowerCase (trim s) = toLowerCase (trim t).
Proof.
  intros (l1 & r1 & l2 & r2 & a & b & -> & -> & Hl1 & Hr1 & Hl2 & Hr2 & Hab).
  rewrite !trim_blank_around by done.
  rewrite !toLowerCase_trim. by rewrite (toLowerCase_same_letters a b).
Qed.

Lemma nonempty_true s : nonempty s = true ↔ s ≠ "".
Proof. by destruct s. Qed.

Lemma nonempty_false s : nonempty s = false ↔ s = "".
Proof. by destruct s. Qed.

End StringFacts.

(** ** Regular expressions: the matcher decides the language *)

Section RegexFacts.
Import Regex.
#[local] Arguments String.append !_ _ / : simpl nomatch.
Implicit Types (r a b : re) (s t w : string) (c : ascii).

Lemma append_eq_nil s t : s +:+ t = "" → s = "" ∧ t = "".
Proof. by destruct s. Qed.

Lemma lang_nil_nullable r : lang r "" → nullable r = true.
Proof.
  intros H. remember "" as w eqn:Hw. induction H; simpl; try done.
  - apply append_eq_nil in Hw as [-> ->]. by rewrite IHlang1, IHlang2.
  - by rewrite IHlang.
  - rewrite IHlang by done. by destruct (nullable a).
Qed.

Lemma nullable_lang_nil r : nullable r = true → lang r "".
Proof.
  induction r as [| |p|a IHa b IHb|a IHa b IHb|a IHa]; simpl; try done.
  - intros _. constructor.
  - intros [Ha Hb]%andb_true_iff. apply (lang_seq a b "" ""); auto.
  - intros [Ha|Hb]%orb_true_iff; [apply lang_alt_l|apply lang_alt_r]; auto.
  - intros _. constructor.
Qed.

Lemma lang_class_inv p w : lang (Class p) w → ∃ c, w = String c "" ∧ p c = true.
Proof. intros H. inversion H; subst. eauto. Qed.

Lemma lang_seq_iff a b w :
  lang (Seq a b) w ↔ ∃ s t, w = s +:+ t ∧ lang a s ∧ lang b t.
Proof.
  split.
  - intros H. inversion H; subst. eauto.
  - intros (s & t & -> & Ha & Hb). by constructor.
Qed.

Lemma lang_star_inv a c s :
  lang (Star a) (String c s) →
  ∃ s1 s2, s = s1 +:+ s2 ∧ lang a (String c s1) ∧ lang (Star a) s2.
Proof.
  intros H. remember (Star a) as r eqn:Hr. remember (String c s) as w eqn:Hw.
  induction H; try discriminate.
  injection Hr as ->. destruct s0 as [|d s0]; simpl in Hw.
  - by apply IHlang2.
  - injection Hw as -> <-. eauto.
Qed.

Lemma deriv_sound c r s : lang (deriv c r) s → lang r (String c s).
Proof.
  revert s. induction r as [| |p|a IHa b IHb|a IHa b IHb|a IHa]; simpl; intros s H.
  - inversion H.
  - inversion H.
  - destruct (p c) eqn:Hp; inversion H; subst. by constructor.
  - assert (lang (Seq (deriv c a) b) s → lang (Seq a b) (String c s)) as Hseq.
    { intros H'. inversion H'; subst.
      apply (lang_seq a b (String c s0) t); auto. }
    destruct (nullable a) eqn:Hn; [|by apply Hseq].
    inversion H; subst; [by apply Hseq|].
    apply (lang_seq a b "" (String c s)); [by apply nullable_lang_nil|auto].
  - inversion H; subst; [apply lang_alt_l|apply lang_alt_r]; auto.
  - inversion H; subst. apply (lang_star_cons a (String c s0) t); auto.
Qed.

Lemma deriv_complete c r s : lang r (String c s) → lang (deriv c r) s.
Proof.
  revert s. induction r as [| |p|a IHa b IHb|a IHa b IHb|a IHa]; simpl; intros s H.
  - inversion H.
  - inversion H.
  - apply lang_class_inv in H as (d & [= <- ->] & ->). constructor.
  - apply lang_seq_iff in H as (s1 & s2 & Heq & Ha & Hb).
    destruct s1 as [|d s1]; simpl in Heq.
    + subst s2. rewrite (lang_nil_nullable a Ha). apply lang_alt_r. auto.
    + injection Heq as <- ->.
      assert (lang (Seq (deriv c a) b) (s1 +:+ s2)) by (constructor; auto).
      destruct (nullable a); [by apply lang_alt_l|done].
  - inversion H; subst; [apply lang_alt_l|apply lang_alt_r]; auto.
  - apply lang_star_inv in H as (s1 & s2 & -> & H1 & H2). constructor; auto.
Qed.

(** The matcher accepts exactly the strings of the language. *)
Lemma test_lang r s : test r s = true ↔ lang r s.
Proof.
  revert r. induction s as [|c s IH]; intros r; simpl.
  - split; [apply nullable_lang_nil|apply lang_nil_nullable].
  - rewrite IH. split; [apply deriv_sound|apply deriv_complete].
Qed.

(** [p+] denotes the non-empty strings whose characters all satisfy [p]. *)
Lemma lang_star_class p s : lang (Star (Class p)) s ↔ JsString.all_chars p s = true.
Proof.
  split.
  - intros H. remember (Star (Class p)) as r eqn:Hr.
    induction H; try discriminate; [done|].
    injection Hr as ->. apply lang_class_inv in H as (d & -> & Hd). simpl.
    rewrite Hd. simpl. by apply IHlang2.
  - induction s as [|c s IH]; simpl; [constructor|].
    intros [Hc Hs]%andb_true_iff.
    apply (lang_star_cons (Class p) (String c "") s); [by constructor|auto].
Qed.

Lemma lang_plus_class p s :
  lang (Plus (Class p)) s ↔ s ≠ "" ∧ JsString.all_chars p s = true.
Proof.
  unfold Plus. split.
  - intros (s1 & s2 & -> & Ha & Hb)%lang_seq_iff.
    apply lang_class_inv in Ha as (d & -> & Hd). simpl.
    apply lang_star_class in Hb. by rewrite Hd, Hb.
  - intros [Hne Hall]. destruct s as [|c s]; [done|]. simpl in Hall.
    apply andb_true_iff in Hall as [Hc Hs].
    apply (lang_seq (Class p) (Star (Class p)) (String c "") s);
      [by constructor|by apply lang_star_class].
Qed.

Lemma lang_char_seq d b w :
  lang (Seq (Class (Ascii.eqb d)) b) w ↔ ∃ t, w = String d t ∧ lang b t.
Proof.
  split.
  - intros (s1 & s2 & -> & Ha & Hb)%lang_seq_iff.
    apply lang_class_inv in Ha as (e & -> & <-%Ascii.eqb_eq). simpl. eauto.
  - intros (t & -> & Ht).
    apply (lang_seq (Class (Ascii.eqb d)) b (String d "") t); [|done].
    constructor. apply Ascii.eqb_refl.
Qed.

(** The e-mail pattern accepts exactly the strings [local@domain.tld]. *)
Lemma emailRegex_shape s :
  test RSVPForm.emailRegex s = true ↔ RSVPForm.email_shape s.
Proof.
  rewrite test_lang. unfold RSVPForm.emailRegex, RSVPForm.email_shape, RSVPForm.plain.
  rewrite lang_seq_iff. split.
  - intros (a & w1 & -> & Ha & H1).
    apply lang_char_seq in H1 as (w2 & -> & H2).
    apply lang_seq_iff in H2 as (b & w3 & -> & Hb & H3).
    apply lang_char_seq in H3 as (c & -> & Hc).
    apply lang_plus_class in Ha as [? ?], Hb as [? ?], Hc as [? ?].
    exists a, b, c. done.
  - intros (a & b & c & -> & Ha & Hb & Hc & Hpa & Hpb & Hpc).
    exists a, ("@" +:+ b +:+ "." +:+ c). split; [done|].
    split; [by apply lang_plus_class|].
    apply lang_char_seq. exists (b +:+ "." +:+ c). split; [done|].
    apply lang_seq_iff. exists b, ("." +:+ c). split; [done|].
    split; [by apply lang_plus_class|].
    apply lang_char_seq. exists c. split; [done|]. by apply lang_plus_class.
Qed.

End RegexFacts.

(** ** RSVPForm *)

Section RSVPFormFacts.
Import RSVPForm.
Implicit Types (formData : FormData) (props : Props) (s : State)
  (backend : Request → FetchOutcome) (f : Field).

(** The message [validateForm] stores for each field. *)
Lemma errors_of_lookup formData f :
  errors_of formData !! field_name f =
  match f with
  | GuestName =>
      if negb (JsString.nonempty (JsString.trim (guest_name formData)))
      then Some "Name is required"
      else if String.length (JsString.trim (guest_name formData)) <? 2
      then Some "Name must be at least 2 characters"
      else None
  | GuestEmail =>
      if negb (JsString.nonempty (JsString.trim (guest_email formData)))
      then Some "Email is required"
      else if negb (Regex.test emailRegex (JsString.trim (guest_email formData)))
      then Some "Please enter a valid email address"
      else None
  | RsvpStatus =>
      if negb (JsString.nonempty (rsvp_status formData))
      then Some "Please select your RSVP status"
      else None
  | NoteToHost =>
      if JsString.nonempty (note_to_host formData)
         && (500 <? String.length (note_to_host formData))
      then Some "Note must be less than 500 characters"
      else None
  end.
Proof.
  unfold errors_of.
  destruct f; simpl; repeat case_match; by simplify_map_eq.
Qed.

(** Every violated rule has its message. *)
Lemma violated_field_has_message formData f :
  violates formData f →
  ∃ msg, errors_of formData !! field_name f = Some msg ∧ msg ≠ "".
Proof.
  intros Hv. rewrite errors_of_lookup. destruct f; simpl in Hv.
  - destruct (JsString.nonempty _); simpl; [|by eexists].
    apply Nat.ltb_lt in Hv. rewrite Hv. by eexists.
  - destruct (JsString.nonempty _); simpl; [|by eexists].
    destruct (Regex.test _ _) eqn:Htest; simpl; [|by eexists].
    by apply emailRegex_shape in Htest.
  - rewrite Hv. simpl. by eexists.
  - destruct (note_to_host formData) as [|c note]; simpl in *; [lia|].
    apply Nat.ltb_lt in Hv. simpl in Hv. rewrite Hv. by eexists.
Qed.

(** With no rule violated, validation finds nothing. *)
Lemma no_violation_no_error formData :
  (∀ f, ¬ violates formData f) → errors_of formData = ∅.
Proof.
  intros Hok. apply map_eq. intros k. rewrite lookup_empty.
  assert (∀ f, errors_of formData !! field_name f = None) as Hnone.
  { intros f. specialize (Hok f). rewrite errors_of_lookup.
    destruct f; simpl in Hok.
    - destruct (JsString.trim (guest_name formData)) as [|c [|d t]];
        simpl in *; try lia. done.
    - destruct (JsString.nonempty _) eqn:Hne; simpl.
      + destruct (Regex.test _ _) eqn:Htest; simpl; [done|].
        exfalso. apply Hok. intros Hshape.
        apply emailRegex_shape in Hshape. congruence.
      + exfalso. apply Hok. intros (a & b & c & Heq & Ha & _).
        apply nonempty_false in Hne. rewrite Hne in Heq. by destruct a.
    - destruct (rsvp_status formData); [done|done].
    - destruct (JsString.nonempty _); simpl; [|done].
      destruct (500 <? _) eqn:Hlen; [|done].
      apply Nat.ltb_lt in Hlen. done. }
  destruct (errors_of formData !! k) as [msg|] eqn:Hk; [|done].
  exfalso. revert Hk. unfold errors_of.
  pose proof (Hnone GuestName) as H1. pose proof (Hnone GuestEmail) as H2.
  pose proof (Hnone RsvpStatus) as H3. pose proof (Hnone NoteToHost) as H4.
  rewrite errors_of_lookup in H1, H2, H3, H4.
  repeat case_match; simplify_eq; by rewrite lookup_empty.
Qed.

(** An invalid submission stops after validation. *)
Lemma handleSubmit_invalid backend props formData s :
  errors_of formData ≠ ∅ →
  run backend (handleSubmit props formData) s =
  mkRun (setValidationErrors (errors_of formData)
           (setSubmitSuccess false (setSubmitError VNull s)))
        [] (inr ()).
Proof.
  intros Hne. unfold handleSubmit, validateForm. simpl.
  destruct (size (errors_of formData)) eqn:Hsize; [|done].
  by apply map_size_empty_iff in Hsize.
Qed.

(** A valid submission sends its one request, whatever comes back. *)
Lemma handleSubmit_valid_requests backend props formData s :
  errors_of formData = ∅ →
  requests (trace (run backend (handleSubmit props formData) s)) =
  [mkRequest POST "http://localhost:5000/rsvps" (Some (rsvpData props formData))].
Proof.
  intros Hnone. unfold handleSubmit, validateForm, try_catch_finally.
  simpl. rewrite Hnone, map_size_empty. simpl.
  destruct (backend _) as [e|r]; simpl; [done|].
  unfold ProgM.json_of. destruct (json r) as [e|data]; simpl; [done|].
  destruct (ok r); simpl.
  - by destruct (onRSVPSuccess props), (onRSVPUpdate props).
  - destruct (status r =? 409)%N; simpl; [done|].
    destruct (status r =? 404)%N; simpl; [done|].
    unfold ProgM.prop. by destruct (Js.get data "error").
Qed.

(** A submission of the RSVP form that violates a rule of the form (the
    name or the e-mail missing or malformed, no status chosen, the note
    too long) calls the network not at all, and leaves a non-empty message
    for every violated field in [validationErrors]. *)
Theorem invalid_rsvp_is_not_sent backend props formData s f :
  violates formData f →
  let out := run backend (handleSubmit props formData) s in
  requests (trace out) = [] ∧
  ∀ g, violates formData g →
       ∃ msg, validationErrors (final out) !! field_name g = Some msg ∧ msg ≠ "".
Proof.
  intros Hv out. subst out.
  rewrite handleSubmit_invalid.
  - split; [done|]. intros g Hg. simpl. by apply violated_field_has_message.
  - apply violated_field_has_message in Hv as (msg & Hmsg & _).
    intros Hempty. by rewrite Hempty, lookup_empty in Hmsg.
Qed.

Lemma submitted_email_valid backend props formData s :
  (∀ f, ¬ violates formData f) →
  submitted_email backend props formData s =
  Some (VStr (JsString.toLowerCase (JsString.trim (guest_email formData)))).
Proof.
  intros Hok. unfold submitted_email.
  by rewrite handleSubmit_valid_requests by by apply no_violation_no_error.
Qed.

(** C10. The e-mail sent by a valid RSVP submission is the entered one,
    trimmed and in lower case; so two valid entries that differ only in
    case or in surrounding white space send the same e-mail. *)
Theorem rsvp_email_is_normalised backend props formData s :
  (∀ f, ¬ violates formData f) →
  submitted_email backend props formData s =
    Some (VStr (JsString.toLowerCase (JsString.trim (guest_email formData))))
  ∧ ∀ formData' s',
      (∀ f, ¬ violates formData' f) →
      JsString.same_entry (guest_email formData) (guest_email formData') →
      submitted_email backend props formData' s' =
      submitted_email backend props formData s.
Proof.
  intros Hok. split; [by apply submitted_email_valid|].
  intros formData' s' Hok' Hsame.
  rewrite !submitted_email_valid by done.
  by rewrite (same_entry_normal_form _ _ Hsame).
Qed.

End RSVPFormFacts.

Lemma invalid_rsvp_is_not_sent_witness :
  RSVPForm.violates RSVPForm.shortName RSVPForm.GuestName ∧
  requests (trace (run (answering 201 VNull)
                     (RSVPForm.handleSubmit RSVPForm.sampleProps RSVPForm.shortName)
                     RSVPForm.initial)) = [].
Proof.
  assert (RSVPForm.violates RSVPForm.shortName RSVPForm.GuestName) as Hv
    by (simpl; lia).
  split; [exact Hv|].
  exact (proj1 (invalid_rsvp_is_not_sent (answering 201 VNull)
                  RSVPForm.sampleProps RSVPForm.shortName RSVPForm.initial
                  RSVPForm.GuestName Hv)).
Defined.

Lemma sampleEntry_valid f : ¬ RSVPForm.violates RSVPForm.sampleEntry f.
Proof.
  destruct f; simpl.
  - vm_compute. lia.
  - intros H. apply H. apply emailRegex_shape. reflexivity.
  - discriminate.
  - lia.
Qed.

Lemma rsvp_email_is_normalised_witness :
  RSVPForm.submitted_email (answering 201 VNull)
    RSVPForm.sampleProps RSVPForm.sampleEntry RSVPForm.initial =
  Some (VStr "ada@example.com").
Proof.
  exact (proj1 (rsvp_email_is_normalised (answering 201 VNull)
                  RSVPForm.sampleProps RSVPForm.sampleEntry RSVPForm.initial
                  sampleEntry_valid)).
Defined.

(** ** Formik and Yup *)

Section FormikFacts.
Context `{Platform}.

(** A schema that reports nothing accepts every field. *)
Lemma validate_empty_fields shape value name f :
  Formik.validate shape value = ∅ →
  (name, f) ∈ shape →
  Yup.validateField f (Formik.prepare (value name)) = [].
Proof.
  induction shape as [|[name' f'] shape IH]; simpl; intros Hnone Hin.
  - by apply elem_of_nil in Hin.
  - destruct (Yup.validateField f' (Formik.prepare (value name'))) as [|msg rest] eqn:Hf'.
    + apply elem_of_cons in Hin as [[= -> ->]|Hin]; [done|by apply IH].
    + by apply insert_non_empty in Hnone.
Qed.

Lemma validate_lookup_head shape value name f msg rest :
  Yup.validateField f (Formik.prepare (value name)) = msg :: rest →
  Formik.validate ((name, f) :: shape) value !! name = Some msg.
Proof. intros Hf. simpl. rewrite Hf. apply lookup_insert_eq. Qed.

Section Submit.
Context {S V : Type} (withBag : (Formik.Bag V → Formik.Bag V) → S → S).
Context (initialValues : V) (validate : V → gmap string string).
Context (onSubmit : V → Formik.Helpers S → Prog S unit).

(** With an error in the form, Formik does not call [onSubmit]: nothing is
    sent, the errors are stored. *)
Lemma submitForm_invalid backend current s :
  validate current ≠ ∅ →
  run backend (Formik.submitForm withBag initialValues validate onSubmit current) s =
  mkRun
    (withBag (λ f, Formik.mkBag (Formik.values f) (Formik.errors f)
                     (Formik.status f) false)
       (withBag (λ f, Formik.mkBag (Formik.values f) (validate current)
                        (Formik.status f) (Formik.isSubmitting f))
          (withBag (λ f, Formik.mkBag (Formik.values f) (Formik.errors f)
                           (Formik.status f) true) s)))
    [] (inr ()).
Proof.
  intros Hne. unfold Formik.submitForm. simpl.
  destruct (size (validate current)) eqn:Hsize; [|done].
  by apply map_size_empty_iff in Hsize.
Qed.

(** With none, what is sent is what [onSubmit] sends. *)
Lemma submitForm_valid_requests backend current s :
  validate current = ∅ →
  ∃ s', requests (trace (run backend
          (Formik.submitForm withBag initialValues validate onSubmit current) s)) =
        requests (trace (run backend
          (onSubmit current (Formik.helpers withBag initialValues)) s')).
Proof.
  intros Hnone. unfold Formik.submitForm. simpl.
  rewrite Hnone, map_size_empty. simpl.
  rewrite run_try_finally_set. simpl. eauto.
Qed.

End Submit.

End FormikFacts.

(** ** NewTaskForm *)

Section NewTaskFormFacts.
Context `{Platform}.
Import NewTaskForm.

(** C6. Submitting the new-task form with a description of four characters
    is blocked by the schema: no request is sent, and the message for the
    description is exactly "Description must be at least 5 characters". *)
Theorem short_description_blocks_submission backend created props values s :
  String.length (description values) = 4 →
  let out := run backend (submit created props values) s in
  requests (trace out) = [] ∧
  Formik.errors (final out) !! "description" =
    Some "Description must be at least 5 characters".
Proof.
  intros Hlen out. subst out.
  assert (Formik.validate (TaskValidationSchema created) (field values)
            !! "description"
          = Some "Description must be at least 5 characters") as Hmsg.
  { unfold TaskValidationSchema.
    apply (validate_lookup_head _ _ _ _ _ []).
    unfold field. simpl. unfold Formik.prepare.
    assert (JsString.nonempty (description values) = true) as Hne
      by (by destruct (description values)).
    rewrite Hne. simpl. by rewrite Hlen, Hne. }
  unfold submit. rewrite submitForm_invalid.
  - done.
  - intros Hempty. by rewrite Hempty, lookup_empty in Hmsg.
Qed.

(** The message the schema reports for each field. *)
Lemma task_schema_lookup created values f :
  Formik.validate (TaskValidationSchema created) (field values) !! field_name f =
  head (Yup.validateField
          (match f with
           | Description =>
               Yup.StringSchema
                 [Yup.Min 5 "Description must be at least 5 characters";
                  Yup.Max 500 "Description must be less than 500 characters";
                  Yup.Required "Description is required"]
           | AssignedTo =>
               Yup.StringSchema
                 [Yup.Max 100 "Assigned to must be less than 100 characters"]
           | Priority =>
               Yup.StringSchema
                 [Yup.OneOf ["High"; "Medium"; "Low"]
                    "Priority must be High, Medium, or Low";
                  Yup.Required "Priority is required"]
           | DueDate =>
               Yup.DateSchema
                 [Yup.DateMin created "Due date must be in the future"]
                 (Yup.notDate "due_date")
           end)
          (Formik.prepare (field values (field_name f)))).
Proof.
  unfold TaskValidationSchema, Formik.validate.
  cbn [foldr]. destruct f; cbn [field_name];
    repeat case_match; simplify_map_eq; done.
Qed.

(** Every violated rule of the task schema has its message. *)
Lemma violated_task_field_has_message created values f :
  violates created values f →
  ∃ msg, Formik.validate (TaskValidationSchema created) (field values)
           !! field_name f = Some msg ∧ msg ≠ "".
Proof.
  intros Hv. rewrite task_schema_lookup. unfold Formik.prepare.
  destruct f; cbn [field_name field String.eqb Ascii.eqb Bool.eqb] in *;
    simpl in Hv.
  - destruct (description values) as [|c d] eqn:Hd; simpl; [by eexists|].
    destruct Hv as [Hv|Hv].
    + apply Nat.ltb_lt in Hv. simpl in Hv. rewrite Hv. by eexists.
    + destruct (_ <? 5); simpl; [by eexists|].
      apply Nat.ltb_lt in Hv. simpl in Hv. rewrite Hv. by eexists.
  - destruct (assigned_to values) as [|c d] eqn:Hd; simpl in *; [lia|].
    apply Nat.ltb_lt in Hv. simpl in Hv. rewrite Hv. by eexists.
  - destruct (priority values) as [|c d] eqn:Hd; simpl; [by eexists|].
    rewrite bool_decide_eq_false_2 by done. by eexists.
  - destruct Hv as [Hne Hbefore].
    apply nonempty_true in Hne. rewrite Hne. simpl.
    destruct (parseDate (due_date values)) as [t|]; simpl; [|by eexists].
    specialize (Hbefore t eq_refl). apply Z.ltb_lt in Hbefore.
    rewrite Hbefore. by eexists.
Qed.

(** The counterpart of C2 for the new-task form: a submission that violates
    a rule of the task schema sends nothing, and Formik holds a non-empty
    message for every violated field. *)
Lemma invalid_task_is_not_sent backend created props values s f :
  violates created values f →
  requests (trace (run backend (submit created props values) s)) = [] ∧
  ∀ g, violates created values g →
       ∃ msg, Formik.errors (final (run backend (submit created props values) s))
                !! field_name g = Some msg ∧ msg ≠ "".
Proof.
  intros Hv. unfold submit. rewrite submitForm_invalid.
  - split; [done|]. intros g Hg. simpl.
    by apply violated_task_field_has_message.
  - apply violated_task_field_has_message in Hv as (msg & Hmsg & _).
    intros Hempty. by rewrite Hempty, lookup_empty in Hmsg.
Qed.

End NewTaskFormFacts.

Lemma short_description_blocks_submission_witness :
  String.length (NewTaskForm.description NewTaskForm.abcd) = 4 ∧
  requests (trace (run (answering 201 VNull)
                     (@NewTaskForm.submit samplePlatform 0 NewTaskForm.sampleProps
                        NewTaskForm.abcd)
                     NewTaskForm.initial)) = [] ∧
  Formik.errors (final (run (answering 201 VNull)
                          (@NewTaskForm.submit samplePlatform 0
                             NewTaskForm.sampleProps NewTaskForm.abcd)
                          NewTaskForm.initial)) !! "description" =
    Some "Description must be at least 5 characters".
Proof.
  split; [reflexivity|].
  exact (@short_description_blocks_submission samplePlatform (answering 201 VNull)
           0%Z NewTaskForm.sampleProps NewTaskForm.abcd NewTaskForm.initial
           eq_refl).
Defined.

(** ** The write requests of the forms *)

Section WriteFormFacts.
Context `{Platform}.
Implicit Types (backend : Request → FetchOutcome) (created : Z).

(** A date field that passes its schema is empty (when the schema allows
    it) or parses. *)
Lemma date_field_parses rules typeError raw :
  Yup.validateField (Yup.DateSchema rules typeError) (Formik.prepare raw) = [] →
  JsString.nonempty raw = true →
  ∃ t, parseDate raw = Some t.
Proof.
  unfold Formik.prepare. intros Hnone Hne. rewrite Hne in Hnone.
  simpl in Hnone. destruct (parseDate raw) as [t|]; [eauto|done].
Qed.

Lemma required_date_field_nonempty rules typeError msg raw :
  Yup.validateField (Yup.DateSchema (Yup.DateRequired msg :: rules) typeError)
    (Formik.prepare raw) = [] →
  JsString.nonempty raw = true.
Proof.
  unfold Formik.prepare. destruct (JsString.nonempty raw); [done|].
  simpl. done.
Qed.

Lemma newTask_requests backend props values formik_init s :
  (JsString.nonempty (NewTaskForm.due_date values) = true →
   ∃ t, parseDate (NewTaskForm.due_date values) = Some t) →
  ∃ body,
    requests (trace (run backend
      (NewTaskForm.handleSubmit props values
         (@Formik.helpers NewTaskForm.State NewTaskForm.Values (λ f, f) formik_init))
      s)) =
    [mkRequest POST "http://localhost:5000/tasks" (Some body)] ∧
    Js.keys body ⊆ task_fields ∧
    Js.get body "description" =
      Some (VStr (JsString.trim (NewTaskForm.description values))) ∧
    Js.get body "assigned_to" =
      Some (VStr (JsString.trim (NewTaskForm.assigned_to values))) ∧
    Js.keys body =
      ["event_id"; "description"; "assigned_to"; "priority"; "completed"]
      ++ (if JsString.nonempty (NewTaskForm.due_date values)
          then ["due_date"] else []) ∧
    Js.get body "event_id" = Some (NewTaskForm.eventId props) ∧
    Js.get body "priority" = Some (VStr (NewTaskForm.priority values)) ∧
    Js.get body "completed" = Some (VBool (NewTaskForm.completed values)) ∧
    Js.get body "due_date" =
      if JsString.nonempty (NewTaskForm.due_date values)
      then (λ t, VStr (toISOString t)) <$> parseDate (NewTaskForm.due_date values)
      else Some VUndefined.
Proof.
  intros Hdate.
  unfold NewTaskForm.handleSubmit, try_catch_finally, isoOfInput. simpl.
  destruct (JsString.nonempty (NewTaskForm.due_date values)).
  - destruct Hdate as [t ->]; [done|]. simpl. eexists. split.
    { destruct (backend _) as [e|r]; simpl; [done|].
      unfold ProgM.json_of. destruct (json r) as [e|data]; simpl; [done|].
      destruct (ok r); simpl.
      - by destruct (NewTaskForm.onTaskCreated props).
      - unfold ProgM.prop. by destruct (Js.get data "error"). }
    split; [|done]. by apply (bool_decide_unpack _).
  - simpl. eexists. split.
    { destruct (backend _) as [e|r]; simpl; [done|].
      unfold ProgM.json_of. destruct (json r) as [e|data]; simpl; [done|].
      destruct (ok r); simpl.
      - by destruct (NewTaskForm.onTaskCreated props).
      - unfold ProgM.prop. by destruct (Js.get data "error"). }
    split; [|done]. by apply (bool_decide_unpack _).
Qed.






End WriteFormFacts.


(** ** TaskList *)

Section TaskListFacts.
Import TaskList.

(** C7. A task is overdue exactly when it has a due date, that date is
    strictly before the current time, and the task is not completed; it is
    not overdue without a due date, nor once completed. *)
Theorem isOverdue_exactly `{Platform} (now : Z) (task : Task) :
  (isOverdue now task = true ↔
     (∃ due t, due_date task = Some due ∧ due ≠ "" ∧
               parseDate due = Some t ∧ (t < now)%Z)
     ∧ completed task = false)
  ∧ (due_date task = None → isOverdue now task = false)
  ∧ (completed task = true → isOverdue now task = false).
Proof.
  unfold isOverdue. split; [split|split].
  - intros Hover.
    destruct (due_date task) as [due|]; [|done].
    destruct (JsString.nonempty due) eqn:Hne; simpl in Hover; [|done].
    destruct (completed task); [done|].
    destruct (parseDate due) as [t|] eqn:Ht; [|done].
    split; [|done]. exists due, t.
    apply nonempty_true in Hne. apply Z.ltb_lt in Hover. done.
  - intros [(due & t & -> & Hne%nonempty_true & Ht & Hlt%Z.ltb_lt) ->].
    by rewrite Hne, Ht.
  - by intros ->.
  - intros ->. destruct (due_date task); [|done]. by rewrite orb_true_r.
Qed.

Lemma isOverdue_exactly_witness :
  @isOverdue samplePlatform 1767225600000 lateTask = true ∧
  @isOverdue samplePlatform 1500000000000 lateTask = false.
Proof.
  split.
  - apply (proj1 (@isOverdue_exactly samplePlatform 1767225600000 lateTask)).
    split; [|reflexivity].
    exists "2020-01-01T00:00", 1577836800000%Z.
    split; [reflexivity|]. split; [discriminate|]. split; [reflexivity|lia].
  - reflexivity.
Defined.

Lemma toggleRequest_inj t t' : toggleRequest t = toggleRequest t' → t = t'.
Proof.
  unfold toggleRequest. intros [= Hurl].
  apply (inj (String.app _)) in Hurl. apply append_inj_l in Hurl.
  by apply (inj pretty) in Hurl.
Qed.

(** Pressing the toggle of a task that is being processed does nothing. *)
Lemma press_busy props t c :
  t ∈ processingTasks (EventLoop.state c) → press props t c = c.
Proof.
  intros Hin. unfold press, EventLoop.dispatch, handleTaskToggle.
  rewrite bool_decide_eq_true_2 by done. simpl.
  destruct c. simpl. by rewrite app_nil_r.
Qed.

(** Pressing the toggle of any other task marks it and sends the request;
    the handler then waits, and will unmark the task when it goes on. *)
Lemma press_idle props t c :
  t ∉ processingTasks (EventLoop.state c) →
  ∃ p, waits_for_toggle p t ∧
       press props t c =
       EventLoop.mkConfig
         (setProcessingTasks (λ prev, prev ∪ {[t]}) (EventLoop.state c))
         (EventLoop.inflight c ++ [p])
         (EventLoop.sent c ++ [toggleRequest t])
         (EventLoop.done_effects c).
Proof.
  intros Hout. unfold press, EventLoop.dispatch, handleTaskToggle.
  rewrite bool_decide_eq_false_2 by done.
  unfold try_catch_finally. simpl. eexists (EventLoop.mkPending _ _).
  split; [|by rewrite app_nil_r].
  split; [done|]. intros o s. simpl.
  destruct o as [e|r]; simpl; [by eauto|].
  destruct (ok r); simpl; unfold ProgM.json_of;
    destruct (json r) as [e|v]; simpl; try by eauto.
  - destruct (onTaskToggle props), (onTaskUpdate props); simpl; by eauto.
  - unfold ProgM.prop. destruct (Js.get v "error"); simpl; by eauto.
Qed.

Lemma toggle_is_no_delete t t' : toggleRequest t ≠ deleteRequest t'.
Proof. discriminate. Qed.

(** Pressing Edit, or leaving the editor, touches [editingTaskId] only. *)
Lemma pressEdit_eq t c :
  pressEdit t c =
  EventLoop.mkConfig (setEditingTaskId (Some t) (EventLoop.state c))
    (EventLoop.inflight c) (EventLoop.sent c) (EventLoop.done_effects c).
Proof.
  unfold pressEdit, EventLoop.dispatch. simpl. by rewrite app_nil_r.
Qed.

Lemma leaveEditor_eq c :
  leaveEditor c =
  EventLoop.mkConfig (setEditingTaskId None (EventLoop.state c))
    (EventLoop.inflight c) (EventLoop.sent c) (EventLoop.done_effects c).
Proof.
  unfold leaveEditor, EventLoop.dispatch. simpl. by rewrite app_nil_r.
Qed.

(** Pressing Delete sends the request and leaves the state as it is; the
    handler then waits, and will not touch the state when it goes on. *)
Lemma pressDelete_eq props t c :
  ∃ p, waits_for_delete p t ∧
       pressDelete props t c =
       EventLoop.mkConfig (EventLoop.state c) (EventLoop.inflight c ++ [p])
         (EventLoop.sent c ++ [deleteRequest t]) (EventLoop.done_effects c).
Proof.
  unfold pressDelete, EventLoop.dispatch, handleDeleteTask. simpl.
  eexists (EventLoop.mkPending _ _). split; [|by rewrite app_nil_r].
  split; [done|]. intros o s. simpl.
  destruct o as [e|r]; simpl; [by eauto|].
  destruct (ok r); simpl; [|by eauto].
  destruct (onTaskDelete props), (onTaskUpdate props); simpl; by eauto.
Qed.

Lemma invariant_start : invariant start.
Proof.
  split; [|split]; simpl.
  - intros p Hp. by apply elem_of_nil in Hp.
  - constructor.
  - intros t. split; intros Hin; [by apply not_elem_of_empty in Hin|].
    by apply elem_of_nil in Hin.
Qed.

Lemma invariant_press props t c : invariant c → invariant (press props t c).
Proof.
  intros (Hwait & Hnodup & Hset).
  destruct (decide (t ∈ processingTasks (EventLoop.state c))) as [Hin|Hout].
  { by rewrite press_busy. }
  destruct (press_idle props t c Hout) as (p & Hp & ->).
  split; [|split]; simpl.
  - intros q [Hq|Hq%list_elem_of_singleton]%elem_of_app; [by apply Hwait|].
    subst q. left. by exists t.
  - destruct Hp as [Hreq _].
    rewrite fmap_app, filter_app. simpl. rewrite Hreq.
    rewrite filter_cons_True by done.
    apply NoDup_app. split; [done|]. split.
    + intros req [_ Hreq1]%list_elem_of_filter ->%list_elem_of_singleton.
      by apply Hset in Hreq1.
    + apply NoDup_singleton.
  - intros t'. rewrite fmap_app, elem_of_app, elem_of_union, elem_of_singleton.
    rewrite Hset. simpl. rewrite list_elem_of_singleton.
    destruct Hp as [-> _]. split; (intros [?|Heq]; [by left|right]).
    + by subst.
    + by apply toggleRequest_inj.
Qed.

Lemma invariant_edit t c : invariant c → invariant (pressEdit t c).
Proof. intros (Hwait & Hnodup & Hset). rewrite pressEdit_eq. by split. Qed.

Lemma invariant_cancel c : invariant c → invariant (leaveEditor c).
Proof. intros (Hwait & Hnodup & Hset). rewrite leaveEditor_eq. by split. Qed.

Lemma invariant_delete props t c :
  invariant c → invariant (pressDelete props t c).
Proof.
  intros (Hwait & Hnodup & Hset).
  destruct (pressDelete_eq props t c) as (p & Hp & ->).
  split; [|split]; simpl.
  - intros q [Hq|Hq%list_elem_of_singleton]%elem_of_app; [by apply Hwait|].
    subst q. right. by exists t.
  - destruct Hp as [Hreq _].
    rewrite fmap_app, filter_app. simpl. rewrite Hreq.
    rewrite filter_cons_False by done. by rewrite app_nil_r.
  - intros t'. rewrite Hset, fmap_app, elem_of_app. simpl.
    rewrite list_elem_of_singleton. destruct Hp as [-> _].
    split; [by left|]. intros [?|Heq]; [done|].
    by apply toggle_is_no_delete in Heq.
Qed.

Lemma invariant_settle i o c : invariant c → invariant (EventLoop.settle i o c).
Proof.
  intros (Hwait & Hnodup & Hset). unfold EventLoop.settle.
  destruct (EventLoop.inflight c !! i) as [p|] eqn:Hi; [|done].
  pose proof (Hwait p (list_elem_of_lookup_2 _ _ _ Hi)) as Hp.
  rewrite delete_take_drop.
  rewrite <- (take_drop_middle _ _ _ Hi) in Hwait, Hnodup, Hset.
  set (before := take i (EventLoop.inflight c)) in *.
  set (after := drop (S i) (EventLoop.inflight c)) in *.
  rewrite fmap_app, fmap_cons in Hnodup, Hset.
  rewrite filter_app in Hnodup.
  assert (∀ q, q ∈ before ++ after →
               (∃ taskId, waits_for_toggle q taskId) ∨
               (∃ taskId, waits_for_delete q taskId)) as Hkeep.
  { intros q Hq. apply Hwait. rewrite elem_of_app, elem_of_cons.
    apply elem_of_app in Hq as [?|?]; auto. }
  destruct Hp as [(t & Hreq & Hresume)|(t & Hreq & Hresume)];
    destruct (Hresume o (EventLoop.state c)) as (es & r & ->); simpl;
    rewrite Hreq in Hnodup, Hset.
  - rewrite filter_cons_True in Hnodup by done.
    apply NoDup_app in Hnodup as (Hbefore & Hcross & [Hp Hafter]%NoDup_cons).
    split; [|split]; simpl.
    + exact Hkeep.
    + rewrite fmap_app, filter_app. apply NoDup_app. split; [done|].
      split; [|done].
      intros req Hreq1 Hreq2. apply (Hcross req Hreq1). by right.
    + intros t'. rewrite elem_of_difference, elem_of_singleton, Hset.
      rewrite fmap_app, !elem_of_app, elem_of_cons. split.
      * intros [[?|[Heq|?]] Hne]; auto.
        by apply toggleRequest_inj in Heq.
      * intros [Hin|Hin]; (split; [auto|intros ->]).
        -- apply (Hcross (toggleRequest t)); [by apply list_elem_of_filter|].
           by left.
        -- apply Hp. by apply list_elem_of_filter.
  - rewrite filter_cons_False in Hnodup by done.
    split; [|split]; simpl.
    + exact Hkeep.
    + by rewrite fmap_app, filter_app.
    + intros t'. rewrite Hset, fmap_app, !elem_of_app, elem_of_cons. split.
      * intros [?|[Heq|?]]; auto. by apply toggle_is_no_delete in Heq.
      * intros [?|?]; auto.
Qed.

Lemma reachable_invariant props c : reachable props c → invariant c.
Proof.
  unfold reachable. revert c. apply (rtc_ind_r invariant start).
  - apply invariant_start.
  - intros c c' _ Hstep IH. destruct Hstep.
    + by apply invariant_press.
    + by apply invariant_edit.
    + by apply invariant_cancel.
    + by apply invariant_delete.
    + by apply invariant_settle.
Qed.

(** An item that passes a filter without duplicates stands at one place
    only. *)
Lemma NoDup_filter_lookup {A} (P : A → Prop) `{∀ x, Decision (P x)}
    (l : list A) i j x :
  NoDup (filter P l) → P x → l !! i = Some x → l !! j = Some x → i = j.
Proof.
  intros Hnodup Hx. revert i j. induction l as [|y l IH]; intros i j Hi Hj.
  { by rewrite lookup_nil in Hi. }
  assert (∀ k, l !! k = Some x → y = x → False) as Hfresh.
  { intros k Hk ->. rewrite filter_cons_True in Hnodup by done.
    apply NoDup_cons in Hnodup as [Hnotin _]. apply Hnotin.
    apply list_elem_of_filter. split; [done|]. by eapply list_elem_of_lookup_2. }
  assert (NoDup (filter P l)) as Hrest.
  { destruct (decide (P y)).
    - rewrite filter_cons_True in Hnodup by done.
      by apply NoDup_cons in Hnodup as [_ ?].
    - by rewrite filter_cons_False in Hnodup by done. }
  destruct i as [|i], j as [|j]; simpl in *; simplify_eq.
  - done.
  - exfalso. by eapply Hfresh.
  - exfalso. by eapply Hfresh.
  - f_equal. by apply IH.
Qed.

(** C9. While a toggle request for a task waits for its answer and the
    list that sent it stays mounted, pressing the toggle of that task
    again changes nothing: no request is sent and the state stays as it
    is.  So one mounted list never has two toggle requests for one task
    waiting at the same time, whatever else the user does in it; and its
    [processingTasks] holds exactly the tasks whose request is waiting. *)
Theorem one_toggle_in_flight_per_task props c :
  reachable props c →
  (∀ i taskId, toggling_at c i taskId → press props taskId c = c)
  ∧ (∀ i j taskId, toggling_at c i taskId → toggling_at c j taskId → i = j)
  ∧ (∀ taskId, taskId ∈ processingTasks (EventLoop.state c) ↔
               ∃ i, toggling_at c i taskId).
Proof.
  intros (Hwait & Hnodup & Hset)%reachable_invariant.
  assert (∀ i t, toggling_at c i t →
                 (EventLoop.awaited <$> EventLoop.inflight c) !! i
                 = Some (toggleRequest t)) as Hat.
  { intros i t (p & Hi & Hreq). by rewrite list_lookup_fmap, Hi, <- Hreq. }
  split; [|split].
  - intros i t Hi. apply press_busy, Hset.
    eapply list_elem_of_lookup_2. by apply Hat.
  - intros i j t Hi Hj.
    eapply (NoDup_filter_lookup _ _ i j (toggleRequest t) Hnodup);
      [done|by apply Hat..].
  - intros t. rewrite Hset, list_elem_of_lookup. split.
    + intros [i Hi]. exists i. apply list_lookup_fmap_Some in Hi as (p & ? & ?).
      by exists p.
    + intros [i Hi]. exists i. by apply Hat.
Qed.

Lemma one_toggle_in_flight_per_task_witness :
  let c := press sampleProps 7 (pressDelete sampleProps 8 (pressEdit 8 start)) in
  reachable sampleProps c ∧ toggling_at c 1 7 ∧ press sampleProps 7 c = c.
Proof.
  assert (reachable sampleProps
            (press sampleProps 7 (pressDelete sampleProps 8 (pressEdit 8 start))))
    as Hreach.
  { eapply rtc_r; [eapply rtc_r; [apply rtc_once|]|]; constructor. }
  assert (toggling_at
            (press sampleProps 7 (pressDelete sampleProps 8 (pressEdit 8 start)))
            1 7) as Hat
    by (eexists; split; reflexivity).
  split; [exact Hreach|]. split; [exact Hat|].
  exact (proj1 (one_toggle_in_flight_per_task sampleProps _ Hreach) 1 7%Z Hat).
Defined.

End TaskListFacts.

(** C9, as it is stated, fails across a remount of the list.  On the page
    of event 1, with the RSVP form open, the toggle of task 7 is pressed;
    before the answer comes, an RSVP goes through, so the page reloads the
    event and shows the loading view, without the list; when the event is
    there the list is mounted anew, with no task marked, and the toggle of
    task 7 is pressed again: the handler sends a second request while the
    first still waits. *)
Lemma remounted_list_toggles_again :
  let answer := Resolved (mkResponse 200 (inr EventDetailPage.reloadedEvent)) in
  let w1 := PageWithTaskList.on_list (TaskList.press taskListProps 7)
              PageWithTaskList.opened in
  let w2 := PageWithTaskList.on_page (H := sampleNumeric)
              (EventDetailPage.handleRSVPSuccess (VNum 1)) w1 in
  let w3 := PageWithTaskList.on_page (H := sampleNumeric)
              (EventLoop.settle 0 answer) w2 in
  let w4 := PageWithTaskList.on_list (TaskList.press taskListProps 7) w3 in
  PageWithTaskList.waiting w1 = [TaskList.toggleRequest 7]
  ∧ PageWithTaskList.taskList w2 = None
  ∧ PageWithTaskList.taskList w3 = Some TaskList.start
  ∧ PageWithTaskList.waiting w3 = [TaskList.toggleRequest 7]
  ∧ EventLoop.sent <$> PageWithTaskList.taskList w4
    = Some [TaskList.toggleRequest 7]
  ∧ PageWithTaskList.waiting w4
    = [TaskList.toggleRequest 7; TaskList.toggleRequest 7]
  ∧ ¬ NoDup (PageWithTaskList.waiting w4).
Proof.
  do 6 (split; [reflexivity|]).
  intros [Hfresh _]%NoDup_cons. apply Hfresh. by left.
Qed.

(** ** The definitions on concrete inputs *)

Example trim_example :
  JsString.trim (String "009" "  Ada Lovelace " +:+ String "010" "") = "Ada Lovelace".
Proof. reflexivity. Qed.

Example trim_blank_example : JsString.trim "   " = "".
Proof. reflexivity. Qed.

Example toLowerCase_example : JsString.toLowerCase "Ada@Example.COM" = "ada@example.com".
Proof. reflexivity. Qed.

Example includes_example :
  JsString.includes "Event title is too long" "title" = true ∧
  JsString.includes "Failed to create event" "date" = false.
Proof. split; reflexivity. Qed.

Example to_text_example :
  Js.to_text (VArr [VNum 1; VNull; VStr "x"]) = "1,,x" ∧
  Js.to_text (VNum (-5)) = "-5" ∧ Js.to_text VUndefined = "undefined".
Proof. repeat split; reflexivity. Qed.

Example emailRegex_examples :
  Regex.test RSVPForm.emailRegex "ada@example.com" = true ∧
  Regex.test RSVPForm.emailRegex "a@b.c.d" = true ∧
  Regex.test RSVPForm.emailRegex "ada@example" = false ∧
  Regex.test RSVPForm.emailRegex "ada lovelace@example.com" = false ∧
  Regex.test RSVPForm.emailRegex "ada@@example.com" = false ∧
  Regex.test RSVPForm.emailRegex "@example.com" = false.
Proof. repeat split; reflexivity. Qed.

Example errors_of_example :
  RSVPForm.errors_of (RSVPForm.mkFormData " " "ada@example" "" "") =
  {[ "guest_name" := "Name is required";
     "guest_email" := "Please enter a valid email address";
     "rsvp_status" := "Please select your RSVP status" ]}.
Proof. by vm_compute. Qed.

Example task_schema_examples :
  Formik.validate (H := samplePlatform) (NewTaskForm.TaskValidationSchema 0)
    (NewTaskForm.field (NewTaskForm.mkValues "" "" "Urgent" "tomorrow" false)) =
  {[ "description" := "Description is required";
     "priority" := "Priority must be High, Medium, or Low";
     "due_date" := Yup.notDate "due_date" "tomorrow" ]}.
Proof. by vm_compute. Qed.

Example rsvp_request_example :
  requests (trace (run (answering 201 (VObj [("id", VNum 12)]))
                     (RSVPForm.handleSubmit RSVPForm.sampleProps RSVPForm.sampleEntry)
                     RSVPForm.initial)) =
  [mkRequest POST "http://localhost:5000/rsvps"
     (Some (VObj [("event_id", VNum 1);
                  ("guest_name", VStr "Ada Lovelace");
                  ("guest_email", VStr "ada@example.com");
                  ("rsvp_status", VStr "Yes");
                  ("note_to_host", VStr "")]))].
Proof. reflexivity. Qed.

Example rsvp_callbacks_example :
  effects (trace (run (answering 201 (VObj [("id", VNum 12)]))
                    (RSVPForm.handleSubmit RSVPForm.sampleProps RSVPForm.sampleEntry)
                    RSVPForm.initial)) =
  [Callback "onRSVPSuccess" [VObj [("id", VNum 12)]]; Callback "onRSVPUpdate" []].
Proof. reflexivity. Qed.

Example events_page_examples :
  EventsPage.render
    (final (run (answering 200 (VArr [])) EventsPage.handleRefresh EventsPage.initial))
  = Some (Elem "events-page" [EventsPage.page_header; EventsPage.empty_state]) ∧
  EventsPage.render
    (final (run (answering 200
                   (VArr [VObj [("id", VNum 1); ("title", VStr "Launch party");
                                ("date", VStr "2030-05-01T18:00:00");
                                ("description", VStr "Bring your own chair.");
                                ("location", VNull);
                                ("created_at", VStr "2026-01-01T09:00:00")]]))
              EventsPage.handleRefresh EventsPage.initial))
  = Some (Elem "events-page"
            [EventsPage.page_header;
             Elem "events-grid"
               [Elem "event-card"
                  [Elem "event-header"
                     [Elem "event-title" [Expr (VStr "Launch party")];
                      Elem "event-date"
                        [DateText (VStr "2030-05-01T18:00:00")]];
                   Elem "event-body"
                     [Elem "event-description"
                        [Expr (VStr "Bring your own chair.")];
                      Expr VNull];
                   Elem "event-footer"
                     [Elem "created-date"
                        [Text "Created:";
                         DateText (VStr "2026-01-01T09:00:00")]]]]]) ∧
  EventsPage.render
    (final (run (answering 200
                   (VArr [VObj [("id", VNum 1);
                                ("title", VObj [("en", VStr "Launch party")])]]))
              EventsPage.handleRefresh EventsPage.initial))
  = None.
Proof. repeat split; reflexivity. Qed.

Example detail_render_examples :
  (∃ view,
     EventDetailPage.render (H := sampleNumeric) EventDetailPage.loaded
       = Some view
     ∧ has_class "rsvps-list" view = true
     ∧ has_class "rsvp-status yes" view = true
     ∧ mounts "TaskList" view = false) ∧
  (∃ view,
     EventDetailPage.render (H := sampleNumeric) EventDetailPage.loadedWithForm
       = Some view
     ∧ mounts "TaskList" view = true ∧ mounts "RSVPForm" view = true) ∧
  EventDetailPage.render (H := sampleNumeric)
    (EventDetailPage.setEvent
       (VObj [("id", VNum 1); ("title", VObj [("en", VStr "Launch party")])])
       EventDetailPage.loaded) = None ∧
  EventDetailPage.render (H := sampleNumeric)
    (EventDetailPage.setRsvps (VStr "none yet") EventDetailPage.loaded) = None ∧
  EventDetailPage.render (H := sampleNumeric)
    (EventDetailPage.setRsvps (VObj [("length", VNum 3)]) EventDetailPage.loaded)
    = None ∧
  EventDetailPage.render (H := sampleNumeric)
    (EventDetailPage.setRsvps (VArr [VObj [("id", VNum 12)]])
       EventDetailPage.loaded) = None ∧
  is_Some
    (EventDetailPage.render (H := sampleNumeric)
       (EventDetailPage.setRsvps (VObj [("count", VNum 3)])
          EventDetailPage.loaded)).
Proof.
  split; [eexists; repeat split; reflexivity|].
  split; [eexists; repeat split; reflexivity|].
  repeat split; try reflexivity. by eexists.
Qed.

Example toggle_example :
  EventLoop.sent (TaskList.press TaskList.sampleProps 7 TaskList.start) =
    [mkRequest PATCH "http://localhost:5000/tasks/7/toggle" None] ∧
  TaskList.processingTasks
    (EventLoop.state (TaskList.press TaskList.sampleProps 7 TaskList.start)) = {[ 7%Z ]} ∧
  TaskList.processingTasks
    (EventLoop.state
       (EventLoop.settle 0 (answering 200 VNull (TaskList.toggleRequest 7))
          (TaskList.press TaskList.sampleProps 7 TaskList.start))) = ∅.
Proof. repeat split; by vm_compute. Qed.

(** The due date of a task is compared with the instant at which the schema
    was built ([created]), not with the instant of the submission: a date
    at or after [created] passes, a date before it is refused. *)
Lemma due_date_rule `{Platform} (created : Z) (raw : string) (t : Z) :
  JsString.nonempty raw = true →
  parseDate raw = Some t →
  Yup.validateField
    (Yup.DateSchema [Yup.DateMin created "Due date must be in the future"]
       (Yup.notDate "due_date"))
    (Formik.prepare raw) =
  if (t <? created)%Z then ["Due date must be in the future"] else [].
Proof.
  intros Hne Ht. unfold Formik.prepare. rewrite Hne. simpl. rewrite Ht. simpl.
  by destruct (t <? created)%Z.
Qed.

(** C2. A submission that violates a stated rule should send nothing.  The
    new-task form states that the due date must be in the future, but its
    schema holds the instant at which the module was loaded: with the
    module loaded in July 2017 and the form submitted in January 2026, a
    task due on the first of January 2020 is in the past at the
    submission, passes the schema without any message, and is sent. *)
Theorem stale_due_date_is_sent :
  let created := 1500000000000%Z in
  let now := 1767225600000%Z in
  let out := run (answering 201 (VObj [("id", VNum 9)]))
               (@NewTaskForm.submit samplePlatform created
                  NewTaskForm.sampleProps NewTaskForm.staleTask)
               NewTaskForm.initial in
  (∃ t, @parseDate samplePlatform (NewTaskForm.due_date NewTaskForm.staleTask)
        = Some t ∧ (created ≤ t < now)%Z)
  ∧ Formik.validate (H := samplePlatform)
      (NewTaskForm.TaskValidationSchema created)
      (NewTaskForm.field NewTaskForm.staleTask) = ∅
  ∧ requests (trace out) =
      [mkRequest POST "http://localhost:5000/tasks"
         (Some (VObj [("event_id", VNum 1);
                      ("description", VStr "Order the cake");
                      ("assigned_to", VStr "");
                      ("priority", VStr "High");
                      ("completed", VBool false);
                      ("due_date", VStr "2020-01-01T00:00:00.000Z")]))]
  ∧ Formik.errors (final out) = ∅.
Proof.
  split; [|split; [|split]].
  - exists 1577836800000%Z. split; [reflexivity|lia].
  - reflexivity.
  - reflexivity.
  - reflexivity.
Qed.

(** * More of the components *)

(** ** EventDetailPage: the life of a fetch *)

Section EventDetailPageLoop.
Import EventDetailPage.
Context `{Numeric}.
Implicit Types (s : State) (eventId : JsVal).

(** Whatever the detail view shows, it holds the detail container. *)
Lemma detail_view_container s view :
  detail_view s = Some view →
  has_class "event-detail-container" view = true.
Proof.
  unfold detail_view. destruct (detail_children s) as [children|]; [|done].
  by intros [= <-].
Qed.

Lemma child_plain v : Js.plain v = true → child v = Some (Expr v).
Proof. by destruct v. Qed.

Lemma guarded_is_Some v markup :
  (Js.truthy v = true → is_Some markup) → is_Some (guarded v markup).
Proof. unfold guarded. destruct (Js.truthy v); by eauto. Qed.

Lemma or_plain v text : Js.plain v = true → Js.plain (Js.or v (VStr text)) = true.
Proof. unfold Js.or. by destruct (Js.truthy v). Qed.

(** An event whose title, location, description and id are neither arrays
    nor objects, and that has no RSVP summary, can be shown. *)
Lemma plain_event_is_shown fields :
  Forall (λ k, Js.plain (Js.assoc k fields) = true)
    ["title"; "location"; "description"; "id"] →
  Js.truthy (Js.assoc "rsvp_summary" fields) = false →
  is_Some (event_header (VObj fields))
  ∧ is_Some (event_description (VObj fields))
  ∧ is_Some (rsvp_summary (VObj fields))
  ∧ is_Some (event_details (VObj fields)).
Proof.
  intros Hplain Hsummary.
  apply Forall_cons in Hplain as [Htitle Hplain].
  apply Forall_cons in Hplain as [Hlocation Hplain].
  apply Forall_cons in Hplain as [Hdescription Hplain].
  apply Forall_cons in Hplain as [Hid _].
  unfold event_header, event_description, rsvp_summary, event_details. simpl.
  rewrite (child_plain _ Htitle), (child_plain _ Hlocation), (child_plain _ Hid),
    (child_plain _ (or_plain _ _ Hdescription)). simpl.
  unfold guarded. rewrite Hsummary.
  destruct (Js.truthy (Js.assoc "location" fields)),
    (Js.truthy (Js.assoc "updated_at" fields)); simpl; by eauto.
Qed.

(** X1. "Try Again", and every other event fetch: while the request waits,
    the page shows the loading view, whatever it held; when a success
    answer with an object as its body arrives, the event is stored and the
    error of an earlier attempt is gone, so the page renders the detail
    markup of the new event, and whatever that gives holds the detail
    container.  It does give a view when the title, the location, the
    description and the id of the event are neither arrays nor objects,
    the event has no RSVP summary, and the lists the page holds can be
    shown. *)
Theorem retry_recovers eventId s r fields :
  ok r = true → json r = inr (VObj fields) →
  let waiting := EventLoop.start_async (fetchEvent eventId) (EventLoop.idle s) in
  let after := EventLoop.settle 0 (Resolved r) waiting in
  EventLoop.sent waiting = [mkRequest GET (eventUrl eventId) None] ∧
  render (EventLoop.state waiting) = Some loading_view ∧
  event (EventLoop.state after) = VObj fields ∧
  error (EventLoop.state after) = None ∧
  EventLoop.inflight after = [] ∧
  render (EventLoop.state after) = detail_view (setEvent (VObj fields) s) ∧
  (∀ view, render (EventLoop.state after) = Some view →
           has_class "event-detail-container" view = true) ∧
  (Forall (λ k, Js.plain (Js.assoc k fields) = true)
     ["title"; "location"; "description"; "id"] →
   Js.truthy (Js.assoc "rsvp_summary" fields) = false →
   is_Some (rsvps_list (rsvps s)) →
   is_Some (task_list (tasks s) (taskSummary s)) →
   is_Some (render (EventLoop.state after))).
Proof.
  intros Hok Hjson. simpl.
  unfold fetchEvent, try_catch_finally, EventLoop.settle. simpl.
  rewrite Hok. simpl. unfold ProgM.json_of. rewrite Hjson. simpl.
  do 5 (split; [done|]).
  assert (render (setLoading false (setEvent (VObj fields)
                    (setError None (setLoading true s))))
          = detail_view (setEvent (VObj fields) s)) as Hrender by done.
  rewrite Hrender. split; [done|]. split.
  - intros view. apply detail_view_container.
  - intros Hplain Hsummary [rows Hrows] [slot Hslot].
    destruct (plain_event_is_shown fields Hplain Hsummary)
      as ([header Hheader] & [description Hdescription] & [summary Hsum]
          & [details Hdetails]).
    unfold detail_view, detail_children. simpl.
    rewrite Hheader, Hdescription, Hsum, Hrows, Hslot, Hdetails. simpl.
    by eauto.
Qed.

(** X2. A success answer whose body is [null] is stored like any other:
    no error is set, but the page then throws while rendering, since it
    reads [event.title]. *)
Theorem null_event_breaks_render eventId backend s r :
  backend (mkRequest GET (eventUrl eventId) None) = Resolved r →
  ok r = true → json r = inr VNull →
  let s' := final (run backend (fetchEvent eventId) s) in
  event s' = VNull ∧ error s' = None ∧ loading s' = false ∧ render s' = None.
Proof.
  intros Hb Hok Hjson s'. subst s'. by rewrite fetchEvent_final, Hb, Hok, Hjson.
Qed.

(** X3. Nothing cancels an event fetch or tells two of them apart.  With
    two in flight (the page moved from one event to another), the state
    ends with the payload that arrives last: if the answer to the first
    request comes after the answer to the second, the page shows the first
    event, not the one asked for last. *)
Theorem last_answer_wins id1 id2 s r1 r2 d1 d2 :
  ok r1 = true → json r1 = inr d1 → ok r2 = true → json r2 = inr d2 →
  let c := EventLoop.start_async (fetchEvent id2)
             (EventLoop.start_async (fetchEvent id1) (EventLoop.idle s)) in
  EventLoop.sent c = [mkRequest GET (eventUrl id1) None;
                      mkRequest GET (eventUrl id2) None] ∧
  event (EventLoop.state
           (EventLoop.settle 0 (Resolved r1) (EventLoop.settle 1 (Resolved r2) c)))
    = d1 ∧
  event (EventLoop.state
           (EventLoop.settle 0 (Resolved r2) (EventLoop.settle 0 (Resolved r1) c)))
    = d2.
Proof.
  intros Hok1 Hj1 Hok2 Hj2. simpl.
  unfold fetchEvent, try_catch_finally, EventLoop.settle. simpl.
  unfold ProgM.json_of.
  do 4 (rewrite ?Hok1, ?Hok2, ?Hj1, ?Hj2; simpl).
  done.
Qed.

(** X4. [handleRSVPSuccess] starts the event fetch and the RSVP fetch
    together and hides the form.  The two do not interfere: whatever the
    two answers are, the state is the same whichever arrives first. *)
Theorem rsvp_refreshes_commute eventId s o1 o2 :
  let c := handleRSVPSuccess eventId (EventLoop.idle s) in
  EventLoop.sent c = [read_request FetchEvent eventId;
                      read_request FetchEventRSVPs eventId] ∧
  showRSVPForm (EventLoop.state c) = false ∧
  EventLoop.state (EventLoop.settle 0 o2 (EventLoop.settle 0 o1 c)) =
  EventLoop.state (EventLoop.settle 0 o1 (EventLoop.settle 1 o2 c)).
Proof.
  simpl. split; [done|]. split; [done|].
  unfold fetchEvent, fetchEventRSVPs, try_catch_finally, EventLoop.settle. simpl.
  unfold ProgM.json_of, ProgM.prop.
  destruct o1 as [e1|r1];
    [|destruct (ok r1) eqn:Hok1;
      [destruct (json r1) eqn:Hj1|destruct (status r1 =? 404)%N eqn:H404]];
  (destruct o2 as [e2|r2];
    [|destruct (ok r2) eqn:Hok2;
      [destruct (json r2) as [|data] eqn:Hj2;
       [|destruct (Js.get data "rsvps") eqn:Hget]|]]);
  simpl;
  do 4 (rewrite ?Hok1, ?Hok2, ?Hj1, ?Hj2, ?H404, ?Hget; simpl);
  done.
Qed.

(** X5. A success answer to the RSVP fetch replaces the list: by the
    [rsvps] of the body, or by the empty list when the body has no such
    key (or holds something falsy there), whatever the page held.  A body
    that is [null], or that does not parse, leaves the list as it was. *)
Theorem fetchEventRSVPs_success eventId backend s r :
  backend (read_request FetchEventRSVPs eventId) = Resolved r → ok r = true →
  let s' := final (run backend (fetchEventRSVPs eventId) s) in
  (∀ fields, json r = inr (VObj fields) →
     rsvps s' = (if Js.truthy (Js.assoc "rsvps" fields)
                 then Js.assoc "rsvps" fields else VArr []))
  ∧ (json r = inr VNull → rsvps s' = rsvps s)
  ∧ (∀ e, json r = inl e → rsvps s' = rsvps s)
  ∧ error s' = error s ∧ rsvpLoading s' = false.
Proof.
  intros Hb Hok s'. subst s'. rewrite fetchEventRSVPs_final, Hb, Hok.
  split; [|split; [|split]].
  - by intros fields ->.
  - by intros ->.
  - by intros e ->.
  - destruct (json r) as [e|data]; [done|]. by destruct (Js.get data "rsvps").
Qed.

(** X6. [handleDeleteEvent].  Declined, it does nothing.  Confirmed, it
    sends one DELETE, shows exactly one alert whatever happens, goes back
    in the history exactly when the answer is a success, and leaves the
    state as it was but for [deleteLoading], which ends cleared. *)
Theorem handleDeleteEvent_outcomes eventId backend s :
  run backend (handleDeleteEvent false eventId) s = mkRun s [] (inr ())
  ∧ let out := run backend (handleDeleteEvent true eventId) s in
    requests (trace out) = [mkRequest DELETE (eventUrl eventId) None] ∧
    final out = setDeleteLoading false s ∧
    (∃ text, alerts (effects (trace out)) = [VStr text]) ∧
    (Callback "window.history.back" [] ∈ effects (trace out) ↔
     ∃ r, backend (mkRequest DELETE (eventUrl eventId) None) = Resolved r ∧
          ok r = true).
Proof.
  split; [done|]. unfold handleDeleteEvent, try_catch_finally. simpl.
  destruct (backend _) as [e|r]; simpl.
  - repeat split; eauto.
    + intros Hin. repeat (apply elem_of_cons in Hin as [?|Hin]; [done|]).
      by apply elem_of_nil in Hin.
    + by intros (r & ? & _).
  - destruct (ok r) eqn:Hok; simpl.
    + repeat split; eauto.
      intros _. apply list_elem_of_further, list_elem_of_here.
    + unfold ProgM.json_of. destruct (json r) as [e|data]; simpl.
      * repeat split; eauto.
        -- intros Hin. repeat (apply elem_of_cons in Hin as [?|Hin]; [done|]).
           by apply elem_of_nil in Hin.
        -- by intros (r' & [= <-] & ?); congruence.
      * unfold ProgM.prop. destruct (Js.get data "error") as [err|]; simpl.
        -- repeat split; eauto.
           ++ intros Hin. repeat (apply elem_of_cons in Hin as [?|Hin]; [done|]).
              by apply elem_of_nil in Hin.
           ++ by intros (r' & [= <-] & ?); congruence.
        -- repeat split; eauto.
           ++ intros Hin. repeat (apply elem_of_cons in Hin as [?|Hin]; [done|]).
              by apply elem_of_nil in Hin.
           ++ by intros (r' & [= <-] & ?); congruence.
Qed.

(** X7. The updater of [handleTaskToggle] keeps the length and the order of
    the list, puts the updated task in the place of every task with its
    [id], and leaves the other tasks as they are. *)
Theorem replaceTask_replaces updatedTask items replaced :
  replaceTask updatedTask (VArr items) = Some replaced →
  ∃ items',
    replaced = VArr items' ∧ length items' = length items ∧
    ∀ i task, items !! i = Some task →
      ∃ id updatedId,
        Js.get task "id" = Some id ∧ Js.get updatedTask "id" = Some updatedId ∧
        items' !! i = Some (if Js.strict_eq id updatedId then updatedTask else task).
Proof.
  unfold replaceTask. intros Hsome.
  apply fmap_Some in Hsome as (items' & Hmap & ->).
  apply mapM_Some in Hmap. exists items'. split; [done|].
  split; [symmetry; by eapply Forall2_length|].
  intros i task Hi.
  destruct (Forall2_lookup_l _ _ _ _ _ Hmap Hi) as (task' & Hi' & Htask).
  destruct (Js.get task "id") as [id|]; [|done].
  destruct (Js.get updatedTask "id") as [updatedId|]; [|done].
  simpl in Htask. injection Htask as <-. eauto.
Qed.

Lemma last_answer_wins_witness :
  event (EventLoop.state
           (EventLoop.settle 0 (Resolved partyAnswer)
              (EventLoop.settle 1 (Resolved picnicAnswer)
                 (EventLoop.start_async (fetchEvent (VNum 2))
                    (EventLoop.start_async (fetchEvent (VNum 1))
                       (EventLoop.idle initial))))))
  = VObj [("id", VNum 1); ("title", VStr "Launch party")].
Proof.
  exact (proj1 (proj2
           (last_answer_wins (VNum 1) (VNum 2) initial partyAnswer picnicAnswer
              _ _ eq_refl eq_refl eq_refl eq_refl))).
Defined.

Lemma fetchEventRSVPs_success_witness :
  rsvps (final (run (answering 200 (VObj [("count", VNum 0)]))
                  (fetchEventRSVPs (VNum 1)) loaded)) = VArr [].
Proof.
  exact (proj1 (fetchEventRSVPs_success (VNum 1)
                  (answering 200 (VObj [("count", VNum 0)])) loaded
                  (mkResponse 200 (inr (VObj [("count", VNum 0)])))
                  eq_refl eq_refl) _ eq_refl).
Defined.

Lemma replaceTask_replaces_witness :
  ∃ items',
    replaceTask (VObj [("id", VNum 2); ("completed", VBool true)])
      (VArr [VObj [("id", VNum 1)]; VObj [("id", VNum 2)]]) = Some (VArr items') ∧
    length items' = 2.
Proof.
  destruct (replaceTask_replaces
              (VObj [("id", VNum 2); ("completed", VBool true)])
              [VObj [("id", VNum 1)]; VObj [("id", VNum 2)]]
              _ eq_refl) as (items' & Heq & Hlen & _).
  exists items'. split; [by rewrite <- Heq|exact Hlen].
Defined.

End EventDetailPageLoop.

Lemma retry_recovers_witness :
  is_Some
    (EventDetailPage.render (H := sampleNumeric)
       (EventLoop.state
          (EventLoop.settle 0 (Resolved EventDetailPage.partyAnswer)
             (EventLoop.start_async (EventDetailPage.fetchEvent (VNum 1))
                (EventLoop.idle EventDetailPage.failedPage))))).
Proof.
  refine (proj2 (proj2 (proj2 (proj2 (proj2 (proj2 (proj2
            (@retry_recovers sampleNumeric (VNum 1) EventDetailPage.failedPage
               EventDetailPage.partyAnswer _ eq_refl eq_refl)))))))
            _ eq_refl _ _).
  - repeat constructor.
  - by eexists.
  - by eexists.
Defined.

Lemma null_event_breaks_render_witness :
  EventDetailPage.render (H := sampleNumeric)
    (final (run (answering 200 VNull) (EventDetailPage.fetchEvent (VNum 1))
              EventDetailPage.initial)) = None.
Proof.
  exact (proj2 (proj2 (proj2
           (@null_event_breaks_render sampleNumeric (VNum 1)
              (answering 200 VNull) EventDetailPage.initial
              (mkResponse 200 (inr VNull)) eq_refl eq_refl eq_refl)))).
Defined.

(** ** EventsPage: what the list shows *)

Section EventsPageMore.
Import EventsPage.
Implicit Types (s : State) (backend : Request → FetchOutcome).

(** X8. Whatever goes wrong with the events fetch (a rejected request, any
    non-success status, a body that does not parse) the page shows the
    same fixed message, without the status code, in its error view, and
    keeps the events it held. *)
Theorem fetchEvents_failure backend s :
  (failed (backend eventsRequest) = true ∨
   ∃ r e, backend eventsRequest = Resolved r ∧ json r = inl e) →
  let s' := final (run backend fetchEvents s) in
  error s' = Some "Failed to load events. Please try again later." ∧
  events s' = events s ∧
  render s' =
    Some (Elem "events-page"
            [Elem "error-message"
               [Text "Oops! Something went wrong";
                Text "Failed to load events. Please try again later.";
                Elem "btn btn-primary" [Text "Try Again"]]]).
Proof.
  intros Hfail s'. subst s'. rewrite fetchEvents_final.
  destruct Hfail as [Hfail|(r & e & -> & Hjson)].
  - destruct (backend eventsRequest) as [e|r]; simpl in *; [done|].
    apply negb_true_iff in Hfail. by rewrite Hfail.
  - simpl. rewrite Hjson. by destruct (ok r).
Qed.

Lemma fetchEvents_failure_witness :
  error (final (run (answering 503 VNull) fetchEvents initial))
  = Some "Failed to load events. Please try again later.".
Proof.
  exact (proj1 (fetchEvents_failure (answering 503 VNull) initial
                  (or_introl eq_refl))).
Defined.

Lemma mapM_card_length items cards :
  mapM card items = Some cards → length cards = length items.
Proof. intros Hmap%mapM_Some. symmetry. by eapply Forall2_length. Qed.

Lemma description_shown_plain v :
  Js.plain v = true → is_Some (description_shown v).
Proof. destruct v; simpl; by eauto. Qed.

(** An event that is an object whose title, description and location are
    neither arrays nor objects has its card. *)
Lemma plain_event_has_card fields :
  Forall (λ k, Js.plain (Js.assoc k fields) = true)
    ["title"; "description"; "location"] →
  is_Some (card (VObj fields)).
Proof.
  intros Hplain.
  apply Forall_cons in Hplain as [Htitle Hplain].
  apply Forall_cons in Hplain as [Hdescription Hplain].
  apply Forall_cons in Hplain as [Hlocation _].
  unfold card. simpl.
  rewrite (child_plain _ Htitle), (child_plain _ Hlocation). simpl.
  destruct (description_shown_plain _ Hdescription) as [shown Hshown].
  unfold guarded. rewrite Hshown.
  destruct (Js.truthy (Js.assoc "description" fields)),
    (Js.truthy (Js.assoc "location" fields)); simpl; by eauto.
Qed.

(** X9. After a success answer whose body is an array of objects whose
    title, description and location are neither arrays nor objects, the
    page shows the card of each item, in order, one per item, and the
    empty state when the array is empty. *)
Theorem one_card_per_event backend s r items :
  backend eventsRequest = Resolved r → ok r = true → json r = inr (VArr items) →
  Forall (λ e, ∃ fields,
            e = VObj fields ∧
            Forall (λ k, Js.plain (Js.assoc k fields) = true)
              ["title"; "description"; "location"]) items →
  ∃ body,
    render (final (run backend fetchEvents s)) =
      Some (Elem "events-page" [page_header; body]) ∧
    (items = [] → body = empty_state) ∧
    (items ≠ [] → ∃ cards, body = Elem "events-grid" cards ∧
                           Forall2 (λ e shown, card e = Some shown) items cards ∧
                           length cards = length items).
Proof.
  intros Hb Hok Hjson Hall. rewrite fetchEvents_final, Hb. simpl.
  rewrite Hok, Hjson. unfold render. simpl.
  destruct items as [|e items]; simpl.
  - exists empty_state. done.
  - assert (is_Some (mapM card (e :: items))) as [cards Hcards].
    { apply mapM_is_Some. eapply Forall_impl; [exact Hall|].
      intros e' (fields & -> & Hplain). by apply plain_event_has_card. }
    pose proof (mapM_card_length _ _ Hcards) as Hlen.
    pose proof (proj1 (mapM_Some _ _ _) Hcards) as Heach.
    simpl in Hcards. rewrite Hcards. simpl.
    eexists. split; [done|]. split; [done|]. intros _. eauto.
Qed.

Lemma one_card_per_event_witness :
  ∃ body,
    render (final (run (answering 200
                         (VArr [VObj [("id", VNum 1);
                                      ("title", VStr "Launch party")];
                                VObj [("id", VNum 2); ("title", VStr "Picnic");
                                      ("location", VStr "Riverside")]]))
                     fetchEvents initial)) =
      Some (Elem "events-page" [page_header; body]) ∧
    ∃ cards, body = Elem "events-grid" cards ∧ length cards = 2.
Proof.
  destruct (one_card_per_event
              (answering 200
                 (VArr [VObj [("id", VNum 1); ("title", VStr "Launch party")];
                        VObj [("id", VNum 2); ("title", VStr "Picnic");
                              ("location", VStr "Riverside")]]))
              initial _ _ eq_refl eq_refl eq_refl)
    as (body & Hrender & _ & Hcards).
  { repeat constructor; eexists; (split; [reflexivity|]); repeat constructor. }
  exists body. split; [exact Hrender|].
  destruct (Hcards ltac:(discriminate)) as (cards & Hbody & _ & Hlen).
  exists cards. split; [exact Hbody|exact Hlen].
Defined.

Lemma length_substring_0 n (d : string) :
  String.length (String.substring 0 n d) = min n (String.length d).
Proof.
  revert d. induction n as [|n IH]; intros [|c d]; simpl; try done.
  by rewrite IH.
Qed.

Lemma substring_0_prefix n (d : string) :
  ∃ rest, d = String.substring 0 n d +:+ rest.
Proof.
  revert d. induction n as [|n IH]; intros [|c d]; simpl.
  - by exists "".
  - by exists (String c d).
  - by exists "".
  - destruct (IH d) as [rest Hrest]. exists rest.
    change (String c d = String c (String.substring 0 n d +:+ rest)).
    by rewrite <- Hrest.
Qed.

(** X10. The description shown on a card is the description itself up to
    150 characters; a longer one is cut to its first 150 characters
    followed by three dots, so a card never shows more than 153. *)
Theorem descriptionPreview_bounded (d : string) :
  String.length (descriptionPreview d) ≤ 153 ∧
  (String.length d ≤ 150 → descriptionPreview d = d) ∧
  (150 < String.length d →
   ∃ shown rest, d = shown +:+ rest ∧ String.length shown = 150 ∧
                 descriptionPreview d = shown +:+ "...").
Proof.
  unfold descriptionPreview.
  destruct (150 <? String.length d) eqn:Hlong.
  - apply Nat.ltb_lt in Hlong. split; [|split].
    + rewrite length_append, length_substring_0.
      change (String.length "...") with 3. lia.
    + lia.
    + intros _. destruct (substring_0_prefix 150 d) as [rest Hrest].
      exists (String.substring 0 150 d), rest. split; [done|].
      split; [|done]. rewrite length_substring_0. lia.
  - apply Nat.ltb_ge in Hlong. split; [lia|]. split; [done|lia].
Qed.

End EventsPageMore.

Lemma descriptionPreview_bounded_witness :
  EventsPage.descriptionPreview "Bring your own chair." = "Bring your own chair.".
Proof.
  apply (proj1 (proj2 (descriptionPreview_bounded _))).
  simpl. lia.
Defined.

(** ** RSVPForm: what a submission leaves behind *)

Section RSVPFormMore.
Import RSVPForm.
Implicit Types (formData : FormData) (props : Props) (s : State)
  (backend : Request → FetchOutcome).

(** X11. A valid submission answered by a success status with a body that
    parses leaves the form empty and not submitting, with the success flag
    set and no error, whatever the state was; the callbacks the parent
    gave are called in the order [onRSVPSuccess] (with the body), then
    [onRSVPUpdate]. *)
Theorem rsvp_success backend props formData s r data :
  (∀ f, ¬ violates formData f) →
  backend (mkRequest POST "http://localhost:5000/rsvps"
             (Some (rsvpData props formData))) = Resolved r →
  ok r = true → json r = inr data →
  let out := run backend (handleSubmit props formData) s in
  final out = mkState emptyForm false VNull true ∅ ∧
  effects (trace out) =
    (if onRSVPSuccess props then [Callback "onRSVPSuccess" [data]] else [])
    ++ (if onRSVPUpdate props then [Callback "onRSVPUpdate" []] else []).
Proof.
  intros Hvalid%no_violation_no_error Hb Hok Hjson.
  unfold handleSubmit, validateForm, try_catch_finally. simpl.
  rewrite Hvalid, map_size_empty. simpl. rewrite Hb. simpl.
  unfold ProgM.json_of. rewrite Hjson. simpl. rewrite Hok. simpl.
  by destruct (onRSVPSuccess props), (onRSVPUpdate props).
Qed.

(** X12. A valid submission that fails keeps what was typed, calls no
    callback and ends not submitting, with a message in [submitError]:
    the network message when the request is rejected or when the body of
    the answer does not parse (whatever the status, a success status
    included); else a message of its own for the statuses 409 and 404; else
    the [error] of the body, or a fixed message when it has none. *)
Theorem rsvp_failure backend props formData s :
  (∀ f, ¬ violates formData f) →
  let out := run backend (handleSubmit props formData) s in
  let req := mkRequest POST "http://localhost:5000/rsvps"
               (Some (rsvpData props formData)) in
  let kept :=
    RSVPForm.formData (final out) = RSVPForm.formData s ∧
    submitSuccess (final out) = false ∧
    ∀ name args, Callback name args ∉ effects (trace out) in
  isSubmitting (final out) = false
  ∧ ((∃ e, backend req = Rejected e) ∨
     (∃ r e, backend req = Resolved r ∧ json r = inl e) →
     kept ∧
     submitError (final out) =
       VStr "Network error. Please check your connection and try again.")
  ∧ (∀ r data, backend req = Resolved r → json r = inr data → ok r = false →
     kept ∧
     submitError (final out) =
       if (status r =? 409)%N then
         VStr "You have already RSVP'd to this event. Each email can only RSVP once."
       else if (status r =? 404)%N then
         VStr "Event not found. Please try again."
       else
         match Js.get data "error" with
         | Some err =>
             if Js.truthy err then err
             else VStr "Failed to submit RSVP. Please try again."
         | None =>
             VStr "Network error. Please check your connection and try again."
         end).
Proof.
  intros Hvalid%no_violation_no_error.
  unfold handleSubmit, validateForm, try_catch_finally. simpl.
  rewrite Hvalid, map_size_empty. simpl.
  assert (∀ label detail name args,
            Callback name args ∉ [ConsoleError label detail]) as Hlog.
  { intros label detail name args Hin.
    apply list_elem_of_singleton in Hin. discriminate. }
  assert (∀ name args, Callback name args ∉ @nil Effect) as Hnil.
  { intros name args Hin. by apply elem_of_nil in Hin. }
  unfold ProgM.json_of, ProgM.prop.
  split; [|split].
  - destruct (backend _) as [e|r]; simpl; [done|].
    destruct (json r) as [e|data]; simpl; [done|].
    destruct (ok r); simpl.
    + by destruct (onRSVPSuccess props), (onRSVPUpdate props).
    + destruct (status r =? 409)%N; simpl; [done|].
      destruct (status r =? 404)%N; simpl; [done|].
      by destruct (Js.get data "error").
  - intros [[e ->]|(r & e & -> & Hjson)]; simpl.
    + repeat split; auto.
    + rewrite Hjson. simpl. repeat split; auto.
  - intros r data -> Hjson Hok. simpl. rewrite Hjson. simpl. rewrite Hok. simpl.
    destruct (status r =? 409)%N; simpl; [repeat split; auto|].
    destruct (status r =? 404)%N; simpl; [repeat split; auto|].
    destruct (Js.get data "error") as [err|]; simpl; repeat split; auto.
Qed.

Lemma rsvp_success_witness :
  final (run (answering 201 (VObj [("id", VNum 12)]))
           (handleSubmit sampleProps sampleEntry) initial)
  = mkState emptyForm false VNull true ∅.
Proof.
  exact (proj1 (rsvp_success (answering 201 (VObj [("id", VNum 12)]))
                  sampleProps sampleEntry initial _ _ sampleEntry_valid
                  eq_refl eq_refl eq_refl)).
Defined.

Lemma rsvp_failure_witness :
  isSubmitting (final (run (answering 409 (VObj []))
                         (handleSubmit sampleProps sampleEntry) initial)) = false.
Proof.
  exact (proj1 (rsvp_failure (answering 409 (VObj [])) sampleProps sampleEntry
                  initial sampleEntry_valid)).
Defined.

(** X13. After a refused submission, typing in a violated field hides
    that field's message and no other, stores the typed value in the field
    and calls neither the network nor a callback. *)
Theorem typing_hides_the_fields_message backend props formData s f value :
  violates formData f →
  let s1 := final (run backend (handleSubmit props formData) s) in
  let out := run backend
               (handleInputChange (validationErrors s1) (field_name f) value) s1 in
  shows_error (validationErrors s1) (field_name f) = true
  ∧ shows_error (validationErrors (final out)) (field_name f) = false
  ∧ (∀ g, g ≠ f →
       validationErrors (final out) !! field_name g =
       validationErrors s1 !! field_name g)
  ∧ RSVPForm.formData (final out) =
      with_field (field_name f) value (RSVPForm.formData s)
  ∧ trace out = [].
Proof.
  intros Hv.
  destruct (violated_field_has_message _ _ Hv) as (msg & Hmsg & Hne).
  rewrite handleSubmit_invalid
    by (intros Hempty; by rewrite Hempty, lookup_empty in Hmsg).
  simpl. unfold handleInputChange, shows_error. simpl. rewrite Hmsg.
  apply nonempty_true in Hne. rewrite Hne. simpl.
  rewrite lookup_insert_eq. repeat split.
  intros g Hg. rewrite lookup_insert_ne; [done|].
  by destruct f, g.
Qed.

(** X14. Reset after a submission, whatever its outcome, brings the form
    back to its first state, when no submission was under way before. *)
Theorem reset_after_submission backend props formData s :
  isSubmitting s = false →
  final (run backend handleReset
           (final (run backend (handleSubmit props formData) s))) = initial.
Proof.
  destruct s as [d sub err suc errs]. simpl. intros ->.
  unfold handleSubmit, validateForm, try_catch_finally. simpl.
  destruct (size (errors_of formData) =? 0); simpl; [|done].
  destruct (backend _) as [e|r]; simpl; [done|].
  unfold ProgM.json_of, ProgM.prop.
  destruct (json r) as [e|data]; simpl; [done|].
  destruct (ok r); simpl.
  - by destruct (onRSVPSuccess props), (onRSVPUpdate props).
  - destruct (status r =? 409)%N; simpl; [done|].
    destruct (status r =? 404)%N; simpl; [done|].
    by destruct (Js.get data "error").
Qed.

End RSVPFormMore.

Lemma typing_hides_the_fields_message_witness :
  RSVPForm.shows_error
    (RSVPForm.validationErrors
       (final (run (answering 201 VNull)
                 (RSVPForm.handleSubmit RSVPForm.sampleProps RSVPForm.shortName)
                 RSVPForm.initial)))
    "guest_name" = true.
Proof.
  refine (proj1 (typing_hides_the_fields_message (answering 201 VNull)
                   RSVPForm.sampleProps RSVPForm.shortName RSVPForm.initial
                   RSVPForm.GuestName "Ada" _)).
  simpl. lia.
Defined.

Lemma reset_after_submission_witness :
  final (run (answering 409 (VObj [])) RSVPForm.handleReset
           (final (run (answering 409 (VObj []))
                     (RSVPForm.handleSubmit RSVPForm.sampleProps
                        RSVPForm.sampleEntry) RSVPForm.initial)))
  = RSVPForm.initial.
Proof.
  exact (reset_after_submission (answering 409 (VObj [])) RSVPForm.sampleProps
           RSVPForm.sampleEntry RSVPForm.initial eq_refl).
Defined.


(** ** RSVPForm: the e-mail that goes out *)
Section SentEmail.
Import JsString RSVPForm.

#[local] Arguments String.append !_ _ / : simpl nomatch.

Lemma toLowerCase_append s t :
  toLowerCase (s +:+ t) = toLowerCase s +:+ toLowerCase t.
Proof. induction s as [|c s IH]; simpl; [done|]. by rewrite IH. Qed.

Lemma lower_char_idemp c : lower_char (lower_char c) = lower_char c.
Proof. by destruct c as [[] [] [] [] [] [] [] []]. Qed.

Lemma toLowerCase_idemp s : toLowerCase (toLowerCase s) = toLowerCase s.
Proof.
  induction s as [|c s IH]; simpl; [done|]. by rewrite IH, lower_char_idemp.
Qed.

Lemma plain_char_lower_char c : plain_char (lower_char c) = plain_char c.
Proof. by destruct c as [[] [] [] [] [] [] [] []]. Qed.

Lemma plain_toLowerCase s : plain s → plain (toLowerCase s).
Proof.
  unfold plain. induction s as [|c s IH]; simpl; [done|].
  rewrite plain_char_lower_char. intros [-> Hs]%andb_prop. by rewrite IH.
Qed.

Lemma toLowerCase_nonempty s : s ≠ "" → toLowerCase s ≠ "".
Proof. by destruct s. Qed.

(** Lower-casing keeps the shape of an e-mail. *)
Lemma email_shape_toLowerCase s : email_shape s → email_shape (toLowerCase s).
Proof.
  intros (a & b & c & -> & Ha & Hb & Hc & Hpa & Hpb & Hpc).
  exists (toLowerCase a), (toLowerCase b), (toLowerCase c).
  rewrite !toLowerCase_append.
  repeat split; auto using toLowerCase_nonempty, plain_toLowerCase.
Qed.

(** X15. The e-mail a valid RSVP submission sends has itself the shape
    [local@domain.tld], without white space, and holds no capital letter:
    lower-casing it again changes nothing. *)
Theorem sent_email_is_well_formed backend props formData s :
  (∀ f, ¬ violates formData f) →
  ∃ e, submitted_email backend props formData s = Some (VStr e)
       ∧ email_shape e ∧ toLowerCase e = e.
Proof.
  intros Hok. eexists. split; [by apply submitted_email_valid|].
  split; [|apply toLowerCase_idemp].
  apply email_shape_toLowerCase.
  destruct (Regex.test emailRegex (trim (guest_email formData))) eqn:Htest.
  - by apply emailRegex_shape.
  - destruct (Hok GuestEmail). simpl. intros Hshape.
    apply emailRegex_shape in Hshape. congruence.
Qed.

End SentEmail.

Lemma sent_email_is_well_formed_witness :
  ∃ e, RSVPForm.submitted_email (answering 201 VNull) RSVPForm.sampleProps
         RSVPForm.sampleEntry RSVPForm.initial = Some (VStr e)
       ∧ RSVPForm.email_shape e ∧ JsString.toLowerCase e = e.
Proof.
  exact (sent_email_is_well_formed (answering 201 VNull) RSVPForm.sampleProps
           RSVPForm.sampleEntry RSVPForm.initial sampleEntry_valid).
Defined.

(** ** The Formik forms: what a submission leaves behind *)
Section FormOutcomes.
Context `{Platform}.
Implicit Types (created : Z) (o : FetchOutcome).

(** A due date that the task schema accepts is empty or parses. *)
Lemma task_due_date_parses created values :
  Formik.validate (NewTaskForm.TaskValidationSchema created)
    (NewTaskForm.field values) = ∅ →
  JsString.nonempty (NewTaskForm.due_date values) = true →
  ∃ t, parseDate (NewTaskForm.due_date values) = Some t.
Proof.
  intros Hvalid Hne. eapply date_field_parses; [|exact Hne].
  apply (validate_empty_fields (NewTaskForm.TaskValidationSchema created)
           (NewTaskForm.field values) "due_date"); [exact Hvalid|].
  unfold NewTaskForm.TaskValidationSchema. repeat constructor.
Qed.

(** The date of an event that its schema accepts parses. *)
Lemma event_date_parses created values :
  Formik.validate (NewEventForm.validationSchema created)
    (NewEventForm.field values) = ∅ →
  ∃ t, parseDate (NewEventForm.date values) = Some t.
Proof.
  intros Hvalid.
  assert (Yup.validateField
            (Yup.DateSchema
               [Yup.DateRequired "Date is required";
                Yup.DateMin created "Date must be in the future"]
               (Yup.typeError "Please enter a valid date"))
            (Formik.prepare (NewEventForm.date values)) = []) as Hd.
  { apply (validate_empty_fields (NewEventForm.validationSchema created)
             (NewEventForm.field values) "date"); [exact Hvalid|].
    unfold NewEventForm.validationSchema. repeat constructor. }
  eapply date_field_parses; [exact Hd|].
  by eapply required_date_field_nonempty.
Qed.

(** X16. When the server accepts a new task, the form is back in its
    first state: the values are the initial ones and, [resetForm] coming
    after [setStatus], the status is [undefined] and not the success
    message.  [onTaskCreated], if given, is called once with the answer. *)
Theorem task_created_resets_form created props values s r data :
  Formik.validate (NewTaskForm.TaskValidationSchema created)
    (NewTaskForm.field values) = ∅ →
  ok r = true → json r = inr data →
  let out := run (λ _, Resolved r) (NewTaskForm.submit created props values) s in
  final out = NewTaskForm.initial
  ∧ effects (trace out) =
      if NewTaskForm.onTaskCreated props
      then [Callback "onTaskCreated" [data]] else [].
Proof.
  intros Hvalid Hok Hjson.
  pose proof (task_due_date_parses _ _ Hvalid) as Hdate.
  unfold NewTaskForm.submit, Formik.submitForm. cbv beta.
  rewrite Hvalid, map_size_empty. simpl.
  unfold NewTaskForm.handleSubmit, try_catch_finally, isoOfInput. simpl.
  destruct (JsString.nonempty (NewTaskForm.due_date values)).
  - destruct Hdate as [t ->]; [done|]. simpl.
    unfold ProgM.json_of. rewrite Hjson. simpl. rewrite Hok. simpl.
    by destruct (NewTaskForm.onTaskCreated props).
  - simpl. unfold ProgM.json_of. rewrite Hjson. simpl. rewrite Hok. simpl.
    by destruct (NewTaskForm.onTaskCreated props).
Qed.

Lemma no_callback_nil name args : Callback name args ∉ @nil Effect.
Proof. intros Hin. by apply elem_of_nil in Hin. Qed.

Lemma no_callback_log label detail name args :
  Callback name args ∉ [ConsoleError label detail].
Proof. intros Hin. apply list_elem_of_singleton in Hin. discriminate. Qed.

(** X17. When a new task is not created (the request is rejected, the
    answer has no success status or its body does not parse), the form
    keeps its values, shows an error status with a non-empty message,
    calls no callback and is no longer submitting. *)
Theorem task_not_created created props values s o :
  Formik.validate (NewTaskForm.TaskValidationSchema created)
    (NewTaskForm.field values) = ∅ →
  accepted o = None →
  let out := run (λ _, o) (NewTaskForm.submit created props values) s in
  Formik.values (final out) = Formik.values s
  ∧ Formik.isSubmitting (final out) = false
  ∧ (∀ name args, Callback name args ∉ effects (trace out))
  ∧ ∃ msg, Formik.status (final out) = NewTaskForm.taskStatus (VStr "error") msg
           ∧ Js.truthy msg = true.
Proof.
  intros Hvalid Hfail.
  pose proof (task_due_date_parses _ _ Hvalid) as Hdate.
  unfold NewTaskForm.submit, Formik.submitForm. cbv beta.
  rewrite Hvalid, map_size_empty. simpl.
  unfold NewTaskForm.handleSubmit, try_catch_finally, isoOfInput. simpl.
  assert (∀ msg : JsVal, Js.truthy (Js.or msg (VStr "Failed to create task")) = true)
    as Hor.
  { intros msg. unfold Js.or. by destruct (Js.truthy msg) eqn:Hmsg. }
  destruct (JsString.nonempty (NewTaskForm.due_date values));
    [destruct Hdate as [t ->]; [done|]|];
    simpl;
    (destruct o as [e|r]; simpl;
     [by eauto 10 using no_callback_log|];
     unfold ProgM.json_of, ProgM.prop; simpl in Hfail;
     destruct (json r) as [e|data]; simpl;
     [by eauto 10 using no_callback_log|];
     destruct (ok r); [done|]; simpl;
     destruct (Js.get data "error") as [err|]; simpl;
     [by eauto 10 using no_callback_nil|by eauto 10 using no_callback_log]).
Qed.

(** X18. When the server accepts a new event, the form logs the answer and
    navigates to the list, once; it stores no error, keeps its values and
    is no longer submitting. *)
Theorem event_created_navigates created values s r data :
  Formik.validate (NewEventForm.validationSchema created)
    (NewEventForm.field values) = ∅ →
  ok r = true → json r = inr data →
  let out := run (λ _, Resolved r) (NewEventForm.submit created values) s in
  effects (trace out) =
    [ConsoleLog "Event created successfully:" data;
     Navigate "/"
       (VObj [("state", VObj [("message", VStr "Event created successfully!");
                              ("type", VStr "success")])])]
  ∧ NewEventForm.submitError (final out) = None
  ∧ Formik.isSubmitting (NewEventForm.formik (final out)) = false
  ∧ Formik.values (NewEventForm.formik (final out)) =
      Formik.values (NewEventForm.formik s).
Proof.
  intros Hvalid Hok Hjson.
  destruct (event_date_parses _ _ Hvalid) as [t Ht].
  unfold NewEventForm.submit, Formik.submitForm. cbv beta.
  rewrite Hvalid, map_size_empty. simpl.
  unfold NewEventForm.handleSubmit, NewEventForm.eventData, try_catch_finally,
    isoOfInput.
  rewrite Ht. simpl. rewrite Hok. simpl.
  unfold ProgM.json_of. rewrite Hjson. by simpl.
Qed.

Ltac report_message m :=
  let Htitle := fresh "Htitle" in
  let Hdate := fresh "Hdate" in
  destruct (JsString.includes m "title") eqn:Htitle; simpl;
  [|destruct (JsString.includes m "date") eqn:Hdate; simpl];
  (split; [by auto|]; split; [done|]; exists m; rewrite ?Htitle, ?Hdate; done).

(** X19. When a new event is not created, the form does not navigate and
    is no longer submitting.  It logs and stores the message of the error
    that occurred (a fixed text if that is empty): the message of the
    rejection, or of the failure to parse the body, or, for an answer
    without a success status, the [error] of the body (the text
    [Failed to create event] when it has none); a body that is [null]
    gives the message of the engine's [TypeError].  The message is also put
    on the title field when it contains [title], else on the date field
    when it contains [date]; no other field gets an error. *)
Theorem event_not_created created values s o :
  Formik.validate (NewEventForm.validationSchema created)
    (NewEventForm.field values) = ∅ →
  accepted o = None →
  let out := run (λ _, o) (NewEventForm.submit created values) s in
  (∀ path st, Navigate path st ∉ effects (trace out))
  ∧ Formik.isSubmitting (NewEventForm.formik (final out)) = false
  ∧ ∃ m,
      match o with
      | Rejected e => m = message e
      | Resolved r =>
          match json r with
          | inl e => m = message e
          | inr data =>
              match Js.get data "error" with
              | Some err =>
                  m = Js.to_text (Js.or err (VStr "Failed to create event"))
              | None => True
              end
          end
      end
      ∧ effects (trace out) = [ConsoleError "Error creating event:" m]
      ∧ NewEventForm.submitError (final out) =
          Some (JsString.or_else m "Failed to create event. Please try again.")
      ∧ Formik.errors (NewEventForm.formik (final out)) =
          if JsString.includes m "title" then <["title" := m]> ∅
          else if JsString.includes m "date" then <["date" := m]> ∅
          else ∅.
Proof.
  intros Hvalid Hfail.
  destruct (event_date_parses _ _ Hvalid) as [t Ht].
  unfold NewEventForm.submit, Formik.submitForm. cbv beta.
  rewrite Hvalid, map_size_empty. simpl.
  unfold NewEventForm.handleSubmit, NewEventForm.eventData, try_catch_finally,
    isoOfInput.
  rewrite Ht. simpl.
  assert (∀ label detail path st,
            Navigate path st ∉ [ConsoleError label detail]) as Hlog.
  { intros label detail path st Hin.
    apply list_elem_of_singleton in Hin. discriminate. }
  unfold NewEventForm.reportError, NewEventForm.throwApiError,
    ProgM.json_of, ProgM.prop, ProgM.throw.
  destruct o as [e|r]; simpl.
  { report_message (message e). }
  simpl in Hfail. destruct (ok r); simpl.
  - destruct (json r) as [e|data]; [|done]. simpl.
    report_message (message e).
  - destruct (json r) as [e|data]; simpl.
    { report_message (message e). }
    destruct (Js.get data "error") as [err|]; simpl.
    + report_message (Js.to_text (Js.or err (VStr "Failed to create event"))).
    + split; [by auto|]. split; [done|]. by eexists.
Qed.

(** X20. When the server refuses the update of an event and its answer
    names no error, the fixed message [Failed to update event] is used; it
    contains [date] (in [update]), so the refusal is shown as an error of
    the date field.  No callback is called. *)
Theorem update_fallback_blames_the_date created props initialValues values s
    r data err :
  Formik.validate (NewEventForm.validationSchema created)
    (NewEventForm.field values) = ∅ →
  ok r = false → json r = inr data →
  Js.get data "error" = Some err → Js.truthy err = false →
  let out := run (λ _, Resolved r)
               (EditEventForm.submit created props initialValues values) s in
  NewEventForm.submitError (final out) = Some "Failed to update event"
  ∧ Formik.errors (NewEventForm.formik (final out)) =
      <["date" := "Failed to update event"]> ∅
  ∧ effects (trace out) =
      [ConsoleError "Error updating event:" "Failed to update event"].
Proof.
  intros Hvalid Hok Hjson Herror Hfalsy.
  destruct (event_date_parses _ _ Hvalid) as [t Ht].
  unfold EditEventForm.submit, Formik.submitForm. cbv beta.
  rewrite Hvalid, map_size_empty. simpl.
  unfold EditEventForm.handleSubmit, NewEventForm.eventData, try_catch_finally,
    isoOfInput.
  rewrite Ht. simpl. rewrite Hok. simpl.
  unfold NewEventForm.throwApiError, ProgM.json_of, ProgM.prop.
  rewrite Hjson. simpl. rewrite Herror. simpl.
  unfold Js.or. rewrite Hfalsy. by simpl.
Qed.

(** X21. What a submission of the task editor leaves behind.  When the
    server accepts the update, [onTaskUpdate], if given, is called with the
    answer and the success status stays in the form, which keeps its
    values.  Otherwise the status is an error with the message of the
    failure (a fixed text if that is empty), which is also logged, and no
    callback is called: the message of the rejection, or of the failure to
    parse the body, or, for an answer without a success status, the
    [error] of the body (the text [Failed to update task] when it has
    none); a body that is [null] gives the message of the engine's
    [TypeError].  Either way the form is no longer submitting. *)
Theorem task_update_outcomes created props initialValues values s o :
  Formik.validate (EditTaskForm.validationSchema created)
    (EditTaskForm.field values) = ∅ →
  let out := run (λ _, o)
               (EditTaskForm.submit created props initialValues values) s in
  Formik.isSubmitting (final out) = false
  ∧ Formik.values (final out) = Formik.values s
  ∧ match accepted o with
    | Some data =>
        Formik.status (final out) =
          NewTaskForm.taskStatus (VStr "success")
            (VStr "Task updated successfully!")
        ∧ effects (trace out) =
            if EditTaskForm.onTaskUpdate props
            then [Callback "onTaskUpdate" [data]] else []
    | None =>
        ∃ m,
          match o with
          | Rejected e => m = message e
          | Resolved r =>
              match json r with
              | inl e => m = message e
              | inr data =>
                  match Js.get data "error" with
                  | Some err =>
                      m = Js.to_text (Js.or err (VStr "Failed to update task"))
                  | None => True
                  end
              end
          end
          ∧ Formik.status (final out) =
              NewTaskForm.taskStatus (VStr "error")
                (VStr (JsString.or_else m
                         "Failed to update task. Please try again."))
          ∧ effects (trace out) = [ConsoleError "Error updating task:" m]
    end.
Proof.
  intros Hvalid.
  unfold EditTaskForm.submit, Formik.submitForm. cbv beta.
  rewrite Hvalid, map_size_empty. simpl.
  unfold EditTaskForm.handleSubmit, try_catch_finally. simpl.
  unfold ProgM.json_of, ProgM.prop, ProgM.throw.
  destruct o as [e|r]; simpl; [by eauto 10|].
  destruct (ok r); simpl.
  - destruct (json r) as [e|data]; simpl; [by eauto 10|].
    by destruct (EditTaskForm.onTaskUpdate props).
  - destruct (json r) as [e|data]; simpl; [by eauto 10|].
    destruct (Js.get data "error") as [err|]; simpl; by eauto 10.
Qed.

(** X22. The task schema measures the description as typed, the request
    carries it trimmed: a description of white space alone that the schema
    accepts (it has 5 characters or more) is sent as the empty string. *)
Theorem blank_description_is_sent_empty backend created props values s :
  Formik.validate (NewTaskForm.TaskValidationSchema created)
    (NewTaskForm.field values) = ∅ →
  JsString.all_chars JsString.is_space (NewTaskForm.description values) = true →
  5 ≤ String.length (NewTaskForm.description values)
  ∧ ∃ body,
      requests (trace (run backend (NewTaskForm.submit created props values) s)) =
        [mkRequest POST "http://localhost:5000/tasks" (Some body)]
      ∧ Js.get body "description" = Some (VStr "").
Proof.
  intros Hvalid Hblank. split.
  - pose proof (validate_empty_fields (NewTaskForm.TaskValidationSchema created)
                  (NewTaskForm.field values) "description" _ Hvalid
                  (list_elem_of_here _ _)) as Hd.
    simpl in Hd. unfold NewTaskForm.field, Formik.prepare in Hd. simpl in Hd.
    destruct (NewTaskForm.description values) as [|c d] eqn:Hdesc; [done|].
    simpl in Hd.
    destruct (S (String.length d) <? 5) eqn:Hlen; [done|].
    apply Nat.ltb_ge in Hlen. exact Hlen.
  - destruct (submitForm_valid_requests (λ f, f) NewTaskForm.initialValues
                (λ v, Formik.validate (NewTaskForm.TaskValidationSchema created)
                        (NewTaskForm.field v))
                (NewTaskForm.handleSubmit props) backend values s Hvalid)
      as [s' Hs'].
    destruct (newTask_requests backend props values NewTaskForm.initialValues s'
                (task_due_date_parses _ _ Hvalid))
      as (body & Hreq & _ & Hdesc & _).
    exists body. split; [exact (eq_trans Hs' Hreq)|].
    rewrite Hdesc. unfold JsString.trim.
    rewrite <- (append_nil_r (NewTaskForm.description values)).
    by rewrite trimStart_blank_l.
Qed.

End FormOutcomes.

Lemma task_created_resets_form_witness :
  final (run (λ _, Resolved (mkResponse 201 (inr (VObj [("id", VNum 7)]))))
           (@NewTaskForm.submit samplePlatform 0 NewTaskForm.sampleProps
              NewTaskForm.sampleTask) NewTaskForm.initial)
  = NewTaskForm.initial.
Proof.
  exact (proj1 (@task_created_resets_form samplePlatform 0%Z
                  NewTaskForm.sampleProps NewTaskForm.sampleTask
                  NewTaskForm.initial
                  (mkResponse 201 (inr (VObj [("id", VNum 7)]))) _
                  eq_refl eq_refl eq_refl)).
Defined.

Lemma task_not_created_witness :
  Formik.isSubmitting
    (final (run (λ _, Resolved (mkResponse 500 (inr (VObj []))))
              (@NewTaskForm.submit samplePlatform 0 NewTaskForm.sampleProps
                 NewTaskForm.sampleTask) NewTaskForm.initial)) = false.
Proof.
  exact (proj1 (proj2 (@task_not_created samplePlatform 0%Z
                         NewTaskForm.sampleProps NewTaskForm.sampleTask
                         NewTaskForm.initial
                         (Resolved (mkResponse 500 (inr (VObj []))))
                         eq_refl eq_refl))).
Defined.

Lemma event_created_navigates_witness :
  NewEventForm.submitError
    (final (run (λ _, Resolved (mkResponse 201 (inr (VObj [("id", VNum 3)]))))
              (@NewEventForm.submit samplePlatform 0 NewEventForm.sampleEvent)
              NewEventForm.initial)) = None.
Proof.
  exact (proj1 (proj2 (@event_created_navigates samplePlatform 0%Z
                         NewEventForm.sampleEvent NewEventForm.initial
                         (mkResponse 201 (inr (VObj [("id", VNum 3)]))) _
                         eq_refl eq_refl eq_refl))).
Defined.

Lemma event_not_created_witness :
  Formik.isSubmitting
    (NewEventForm.formik
       (final (run (λ _, Rejected (mkError "Failed to fetch"))
                 (@NewEventForm.submit samplePlatform 0 NewEventForm.sampleEvent)
                 NewEventForm.initial))) = false.
Proof.
  exact (proj1 (proj2 (@event_not_created samplePlatform 0%Z
                         NewEventForm.sampleEvent NewEventForm.initial
                         (Rejected (mkError "Failed to fetch"))
                         eq_refl eq_refl))).
Defined.

Lemma update_fallback_blames_the_date_witness :
  NewEventForm.submitError
    (final (run (λ _, Resolved (mkResponse 500 (inr (VObj []))))
              (@EditEventForm.submit samplePlatform 0
                 (EditEventForm.mkProps (VNum 3) true)
                 NewEventForm.sampleEvent NewEventForm.sampleEvent)
              NewEventForm.initial)) = Some "Failed to update event".
Proof.
  exact (proj1 (@update_fallback_blames_the_date samplePlatform 0%Z
                  (EditEventForm.mkProps (VNum 3) true)
                  NewEventForm.sampleEvent NewEventForm.sampleEvent
                  NewEventForm.initial (mkResponse 500 (inr (VObj [])))
                  (VObj []) VUndefined eq_refl eq_refl eq_refl eq_refl eq_refl)).
Defined.

Lemma task_update_outcomes_witness :
  Formik.isSubmitting
    (final (run (λ _, Resolved (mkResponse 200 (inr (VObj [("id", VNum 7)]))))
              (@EditTaskForm.submit samplePlatform 0 EditTaskForm.sampleProps
                 EditTaskForm.sampleEdit EditTaskForm.sampleEdit)
              (Formik.mkBag EditTaskForm.sampleEdit ∅ VUndefined false)))
  = false.
Proof.
  exact (proj1 (@task_update_outcomes samplePlatform 0%Z EditTaskForm.sampleProps
                  EditTaskForm.sampleEdit EditTaskForm.sampleEdit
                  (Formik.mkBag EditTaskForm.sampleEdit ∅ VUndefined false)
                  (Resolved (mkResponse 200 (inr (VObj [("id", VNum 7)]))))
                  eq_refl)).
Defined.

Lemma blank_description_is_sent_empty_witness :
  5 ≤ String.length (NewTaskForm.description NewTaskForm.blankTask).
Proof.
  exact (proj1 (@blank_description_is_sent_empty samplePlatform
                  (answering 201 VNull) 0%Z NewTaskForm.sampleProps
                  NewTaskForm.blankTask NewTaskForm.initial
                  eq_refl eq_refl)).
Defined.

(** ** TaskList: deleting, and a toggle from press to answer *)
Section TaskListMore.
Import TaskList.

(** X23. [handleDeleteTask] sends one DELETE for the task and leaves the
    state of the list as it is; it calls the callbacks it was given on a
    success status only, and reads no body.  Nothing marks the task while
    the request waits: pressing delete again sends the request again. *)
Theorem handleDeleteTask_outcomes backend props taskId s c :
  (let out := run backend (handleDeleteTask props taskId) s in
   requests (trace out) = [deleteRequest taskId]
   ∧ final out = s
   ∧ effects (trace out) =
       match backend (deleteRequest taskId) with
       | Resolved r =>
           if ok r then
             (if onTaskDelete props
              then [Callback "onTaskDelete" [VNum taskId]] else [])
             ++ (if onTaskUpdate props then [Callback "onTaskUpdate" []] else [])
           else [ConsoleError "Failed to delete task." ""]
       | Rejected e => [ConsoleError "Error deleting task:" (message e)]
       end)
  ∧ (let c' := pressDelete props taskId (pressDelete props taskId c) in
     EventLoop.sent c' =
       EventLoop.sent c ++ [deleteRequest taskId; deleteRequest taskId]
     ∧ EventLoop.state c' = EventLoop.state c).
Proof.
  split.
  - unfold handleDeleteTask, deleteRequest. simpl.
    destruct (backend _) as [e|r]; simpl; [done|].
    destruct (ok r); simpl; [|done].
    by destruct (onTaskDelete props), (onTaskUpdate props).
  - unfold pressDelete, EventLoop.dispatch, handleDeleteTask, deleteRequest.
    simpl. by rewrite <- app_assoc.
Qed.

(** X24. A toggle from press to answer.  For a task that is not being
    processed, pressing its toggle sends one request; when that request
    settles, whatever the outcome, the state of the list and the waiting
    handlers are what they were before the press. *)
Theorem toggle_round_trip props taskId c o :
  taskId ∉ processingTasks (EventLoop.state c) →
  let c' := EventLoop.settle (length (EventLoop.inflight c)) o
              (press props taskId c) in
  EventLoop.state c' = EventLoop.state c
  ∧ EventLoop.inflight c' = EventLoop.inflight c
  ∧ EventLoop.sent c' = EventLoop.sent c ++ [toggleRequest taskId].
Proof.
  intros Hout.
  destruct (press_idle props taskId c Hout) as (p & [Hreq Hresume] & ->).
  unfold EventLoop.settle. simpl.
  rewrite list_lookup_middle by done.
  destruct (Hresume o (setProcessingTasks (λ prev, prev ∪ {[taskId]})
                         (EventLoop.state c))) as (es & r & ->).
  simpl. split; [|split; [|done]].
  - destruct (EventLoop.state c) as [editing processing]. simpl in *.
    unfold setProcessingTasks. simpl. f_equal.
    apply set_eq. intros x.
    rewrite elem_of_difference, elem_of_union, elem_of_singleton.
    split; [by intros [[?|?] ?]|].
    intros Hx. split; [by left|]. by intros ->.
  - rewrite delete_take_drop, take_app_length.
    rewrite drop_ge by (rewrite length_app; simpl; lia).
    by rewrite app_nil_r.
Qed.

(** X25. Time only makes tasks overdue: a task that is overdue stays
    overdue at every later time, as long as it is what it is. *)
Theorem isOverdue_later `{Platform} (now later : Z) (task : Task) :
  isOverdue now task = true → (now ≤ later)%Z → isOverdue later task = true.
Proof.
  unfold isOverdue. intros Hover Hle.
  destruct (due_date task) as [due|]; [|done].
  destruct (negb (JsString.nonempty due) || completed task); [done|].
  destruct (parseDate due) as [t|]; [|done].
  apply Z.ltb_lt in Hover. apply Z.ltb_lt. lia.
Qed.

End TaskListMore.

Lemma toggle_round_trip_witness :
  EventLoop.state
    (EventLoop.settle 0 (Rejected (mkError "Failed to fetch"))
       (TaskList.press TaskList.sampleProps 7 TaskList.start))
  = TaskList.initial.
Proof.
  refine (proj1 (toggle_round_trip TaskList.sampleProps 7%Z TaskList.start
                   (Rejected (mkError "Failed to fetch")) _)).
  simpl. apply not_elem_of_empty.
Defined.

Lemma isOverdue_later_witness :
  @TaskList.isOverdue samplePlatform 1893456000000 TaskList.lateTask = true.
Proof.
  apply (@isOverdue_later samplePlatform 1767225600000 1893456000000
           TaskList.lateTask); [reflexivity|lia].
Defined.

(** ** The detail page and its children *)
Section ChildrenWiring.
Import EventDetailPage.
Context `{Numeric}.
Implicit Types (eventId : JsVal) (c : EventLoop.Config State).

(** X26. An RSVP that the server accepts reaches the page through both
    callbacks of the form: the page fetches the event once and the RSVPs
    twice, hides the form and, the event fetch having set [loading], shows
    the loading view in place of everything else. *)
Theorem rsvp_success_reaches_the_page eventId backend formData s c r data :
  (∀ f, ¬ RSVPForm.violates formData f) →
  backend (mkRequest POST "http://localhost:5000/rsvps"
             (Some (RSVPForm.rsvpData (rsvpFormProps eventId) formData)))
    = Resolved r →
  ok r = true → json r = inr data →
  let out := run backend
               (RSVPForm.handleSubmit (rsvpFormProps eventId) formData) s in
  ∃ c', deliver eventId (effects (trace out)) c = Some c'
        ∧ EventLoop.sent c' =
            EventLoop.sent c ++ [read_request FetchEvent eventId;
                                 read_request FetchEventRSVPs eventId;
                                 read_request FetchEventRSVPs eventId]
        ∧ showRSVPForm (EventLoop.state c') = false
        ∧ render (EventLoop.state c') = Some loading_view.
Proof.
  intros Hvalid%no_violation_no_error Hb Hok Hjson.
  assert (RSVPForm.onRSVPSuccess (rsvpFormProps eventId) = true) as Hsuccess
    by done.
  assert (RSVPForm.onRSVPUpdate (rsvpFormProps eventId) = true) as Hupdate
    by done.
  revert Hb Hsuccess Hupdate. generalize (rsvpFormProps eventId) as props.
  intros props Hb Hsuccess Hupdate.
  unfold RSVPForm.handleSubmit, RSVPForm.validateForm, try_catch_finally. simpl.
  rewrite Hvalid, map_size_empty. simpl. rewrite Hb. simpl.
  unfold ProgM.json_of. rewrite Hjson. simpl. rewrite Hok. simpl.
  rewrite Hsuccess, Hupdate. simpl.
  eexists. split; [done|]. simpl.
  rewrite <- !app_assoc. done.
Qed.

(** X27. A toggle that the server accepts reaches the page through both
    callbacks of the list: the page puts the answer in the place of the
    task and fetches the tasks twice. *)
Theorem task_toggle_reaches_the_page eventId backend processing taskId s c r
    updatedTask replaced :
  taskId ∉ processing →
  backend (TaskList.toggleRequest taskId) = Resolved r →
  ok r = true → json r = inr updatedTask →
  replaceTask updatedTask (tasks (EventLoop.state c)) = Some replaced →
  let out := run backend
               (TaskList.handleTaskToggle taskListProps processing taskId) s in
  ∃ c', deliver eventId (effects (trace out)) c = Some c'
        ∧ tasks (EventLoop.state c') = replaced
        ∧ EventLoop.sent c' =
            EventLoop.sent c ++ [read_request FetchEventTasks eventId;
                                 read_request FetchEventTasks eventId].
Proof.
  intros Hout Hb Hok Hjson Hreplaced.
  unfold TaskList.handleTaskToggle, try_catch_finally.
  rewrite bool_decide_eq_false_2 by done. simpl.
  unfold TaskList.toggleRequest in Hb. simpl in Hb. rewrite Hb. simpl.
  rewrite Hok. simpl. unfold ProgM.json_of. rewrite Hjson. simpl.
  unfold handleTaskToggle. rewrite Hreplaced. simpl.
  eexists. split; [done|]. simpl.
  rewrite <- !app_assoc. done.
Qed.

(** X28. The page gives its edit form the prop [onEventUpdate]; the form
    calls [onEventUpdated].  So no submission of the edit form, whatever
    the values and the answer, calls a callback, and the page is left as it
    is: [handleEventUpdate] does not run. *)
Theorem edit_form_never_reaches_the_page `{Platform} eventId backend created
    initialValues values s c :
  let out := run backend
               (EditEventForm.submit created (editEventFormProps eventId)
                  initialValues values) s in
  (∀ name args, Callback name args ∉ effects (trace out))
  ∧ deliver eventId (effects (trace out)) c = Some c.
Proof.
  assert (∀ es, (∀ name args, Callback name args ∉ es) →
                deliver eventId es c = Some c) as Hdeliver.
  { induction es as [|e es IH]; intros Hno; [done|]. simpl.
    destruct e as [| |name args|]; simpl.
    - apply IH. intros name args Hin. apply (Hno name args). by right.
    - apply IH. intros name args Hin. apply (Hno name args). by right.
    - destruct (Hno name args). by left.
    - apply IH. intros name args Hin. apply (Hno name args). by right. }
  assert (∀ es, (∀ name args, Callback name args ∉ es) →
                (∀ name args, Callback name args ∉ es)
                ∧ deliver eventId es c = Some c) as Hboth by auto.
  apply Hboth. clear Hboth Hdeliver.
  unfold EditEventForm.submit, Formik.submitForm. simpl.
  destruct (size _ =? 0); simpl; [|by apply no_callback_nil].
  unfold EditEventForm.handleSubmit, NewEventForm.eventData, try_catch_finally,
    isoOfInput.
  assert (∀ e1 e2 name args, e1 ≠ Callback name args → e2 ≠ Callback name args →
            Callback name args ∉ [e1; e2]) as Htwo.
  { intros e1 e2 name args H1 H2 Hin.
    apply elem_of_cons in Hin as [?|Hin]; [done|].
    by apply list_elem_of_singleton in Hin. }
  unfold NewEventForm.reportError, NewEventForm.throwApiError,
    ProgM.json_of, ProgM.prop, ProgM.throw.
  destruct (parseDate (NewEventForm.date values)) as [t|]; simpl.
  - destruct (backend _) as [e|r]; simpl.
    { destruct (JsString.includes (message e) "title"); simpl;
        [by auto using no_callback_log|].
      destruct (JsString.includes (message e) "date"); simpl;
        by auto using no_callback_log. }
    destruct (ok r); simpl.
    + destruct (json r) as [e|data]; simpl.
      * destruct (JsString.includes (message e) "title"); simpl;
          [by auto using no_callback_log|].
        destruct (JsString.includes (message e) "date"); simpl;
          by auto using no_callback_log.
      * intros name args Hin. apply list_elem_of_singleton in Hin. discriminate.
    + destruct (json r) as [e|data]; simpl.
      * destruct (JsString.includes (message e) "title"); simpl;
          [by auto using no_callback_log|].
        destruct (JsString.includes (message e) "date"); simpl;
          by auto using no_callback_log.
      * destruct (Js.get data "error") as [err|]; simpl.
        -- destruct (JsString.includes _ "title"); simpl;
             [by auto using no_callback_log|].
           destruct (JsString.includes _ "date"); simpl;
             by auto using no_callback_log.
        -- by auto using no_callback_log.
  - by auto using no_callback_log.
Qed.

End ChildrenWiring.

Lemma rsvp_success_reaches_the_page_witness :
  ∃ c', EventDetailPage.deliver (VNum 1)
          (effects (trace (run (answering 201 (VObj [("id", VNum 12)]))
                             (RSVPForm.handleSubmit (rsvpFormProps (VNum 1))
                                RSVPForm.sampleEntry) RSVPForm.initial)))
          (EventLoop.idle EventDetailPage.loaded) = Some c'
        ∧ EventDetailPage.render (H := sampleNumeric) (EventLoop.state c')
          = Some EventDetailPage.loading_view.
Proof.
  destruct (@rsvp_success_reaches_the_page sampleNumeric (VNum 1)
              (answering 201 (VObj [("id", VNum 12)])) RSVPForm.sampleEntry
              RSVPForm.initial (EventLoop.idle EventDetailPage.loaded) _ _
              sampleEntry_valid eq_refl eq_refl eq_refl)
    as (c' & Hdeliver & _ & _ & Hrender).
  exists c'. split; [exact Hdeliver|exact Hrender].
Defined.

Lemma task_toggle_reaches_the_page_witness :
  ∃ c', EventDetailPage.deliver (VNum 1)
          (effects (trace (run (answering 200 EventDetailPage.toggledTask)
                             (TaskList.handleTaskToggle taskListProps ∅ 7)
                             TaskList.initial)))
          (EventLoop.idle EventDetailPage.loadedWithTasks) = Some c'
        ∧ EventDetailPage.tasks (EventLoop.state c') =
            VArr [EventDetailPage.toggledTask;
                  VObj [("id", VNum 8); ("description", VStr "Order the cake");
                        ("completed", VBool false)]]
        ∧ EventLoop.sent c' =
            [EventDetailPage.read_request EventDetailPage.FetchEventTasks (VNum 1);
             EventDetailPage.read_request EventDetailPage.FetchEventTasks (VNum 1)].
Proof.
  exact (task_toggle_reaches_the_page (VNum 1)
           (answering 200 EventDetailPage.toggledTask) ∅ 7%Z TaskList.initial
           (EventLoop.idle EventDetailPage.loadedWithTasks) _ _ _
           (not_elem_of_empty _) eq_refl eq_refl eq_refl eq_refl).
Defined.

(** ** EditEventForm: loading the event *)
Section EditEventFormLoad.
Import EditEventForm.
Context `{Platform}.

(** X29. [fetchEventDetails] sends one GET.  When the answer has a success
    status, its body parses to something other than [null], and the [date]
    of the body is a date, the form gets the title, the description and
    the location of the body and the first 16 characters of the date in
    ISO form, the stored error is left as it was, and the form is
    rendered.  In every other case (the request, the status, the body, the
    date) it stores a fixed message and no values: the component goes on
    showing [Loading event data...], since the message is rendered inside
    the form only. *)
Theorem fetchEventDetails_outcomes eventId o s :
  initialValues s = None →
  let out := run (λ _, o) (fetchEventDetails eventId) s in
  let failed :=
    final out = mkLoadState (Some "Failed to load event data.") None
    ∧ render (final out) = Elem "" [Text "Loading event data..."] in
  requests (trace out) =
    [mkRequest GET ("http://localhost:5000/events/" +:+ Js.to_text eventId) None]
  ∧ match accepted o with
    | Some data =>
        match Js.get data "title", Js.get data "description",
              Js.get data "location", Js.get data "date" with
        | Some title, Some description, Some location, Some date =>
            match newDate date with
            | Some t =>
                final out =
                  mkLoadState (submitError s)
                    (Some (mkInitialValues title description location
                             (String.substring 0 16 (toISOString t))))
                ∧ has_class "edit-event-form-page" (render (final out)) = true
            | None => failed
            end
        | _, _, _, _ => failed
        end
    | None => failed
    end.
Proof.
  intros Hnone. unfold fetchEventDetails. simpl.
  unfold ProgM.json_of, ProgM.prop, ProgM.throw, render.
  destruct s as [err init]. simpl in Hnone. subst init.
  destruct o as [e|r]; simpl; [done|].
  destruct (ok r) eqn:Hok; simpl; [|done].
  destruct (json r) as [e|data] eqn:Hjson; simpl; [done|].
  destruct (Js.get data "title") as [vt|] eqn:Ht; simpl; [|done].
  destruct (Js.get data "description") as [vd|] eqn:Hd; simpl.
  2:{ destruct data; done. }
  destruct (Js.get data "location") as [vl|] eqn:Hl; simpl.
  2:{ destruct data; done. }
  destruct (Js.get data "date") as [vdate|] eqn:Hdate; simpl.
  2:{ destruct data; done. }
  by destruct (newDate vdate) as [t|].
Qed.

End EditEventFormLoad.

Lemma fetchEventDetails_outcomes_witness :
  final (run (λ _, Resolved (mkResponse 200 (inr
               (VObj [("id", VNum 3); ("title", VStr "Launch party");
                      ("description", VNull); ("location", VStr "Town hall");
                      ("date", VStr "2030-05-01T18:00")]))))
           (@EditEventForm.fetchEventDetails samplePlatform (VNum 3))
           EditEventForm.mounted)
  = EditEventForm.mkLoadState None
      (Some (EditEventForm.mkInitialValues (VStr "Launch party") VNull
               (VStr "Town hall") "2030-05-01T18:00")).
Proof.
  exact (proj1 (proj2 (@fetchEventDetails_outcomes samplePlatform (VNum 3)
                         (Resolved (mkResponse 200 (inr
                            (VObj [("id", VNum 3);
                                   ("title", VStr "Launch party");
                                   ("description", VNull);
                                   ("location", VStr "Town hall");
                                   ("date", VStr "2030-05-01T18:00")]))))
                         EditEventForm.mounted eq_refl))).
Defined.

(** ** EditTaskForm: the due date shown in the form *)
Section DueDateInput.
Import EditTaskForm.
Context `{Platform} `{LocalZone}.

#[local] Arguments String.append !_ _ / : simpl nomatch.

Lemma padStart2_two_digits (n : Z) :
  (0 ≤ n < 100)%Z → String.length (padStart2 (pretty n)) = 2.
Proof.
  intros Hn.
  assert (forallb (λ k, Nat.eqb (String.length (padStart2 (pretty k))) 2)
            (seqZ 0 100) = true) as Hall by (vm_compute; reflexivity).
  rewrite forallb_forall in Hall.
  apply Nat.eqb_eq, Hall, list_elem_of_In, elem_of_seqZ. lia.
Qed.

Lemma four_digits (n : Z) :
  (1000 ≤ n < 10000)%Z → String.length (pretty n) = 4.
Proof.
  intros Hn.
  assert (forallb (λ k, Nat.eqb (String.length (pretty k)) 4)
            (seqZ 1000 9000) = true) as Hall by (vm_compute; reflexivity).
  rewrite forallb_forall in Hall.
  apply Nat.eqb_eq, Hall, list_elem_of_In, elem_of_seqZ. lia.
Qed.

(** X30. [formatDateForInput] on a non-empty string.  A date that parses,
    with a four-digit year, is written as [YYYY-MM-DDTHH:MM], 16
    characters, every part but the year padded to two digits.  A string
    that does not parse throws nothing, so the [catch] is not reached: the
    value of the field is [NaN-NaN-NaNTNaN:NaN]. *)
Theorem formatDateForInput_shape (dateString : string) :
  dateString ≠ "" →
  match parseDate dateString with
  | Some t =>
      let d := localParts t in
      (1000 ≤ fullYear d < 10000)%Z → (0 ≤ month d ≤ 11)%Z →
      (1 ≤ day d ≤ 31)%Z → (0 ≤ hours d ≤ 23)%Z → (0 ≤ minutes d ≤ 59)%Z →
      ∃ year month day hours minutes,
        formatDateForInput (Some dateString) =
          year +:+ "-" +:+ month +:+ "-" +:+ day +:+ "T" +:+ hours +:+ ":" +:+ minutes
        ∧ String.length year = 4 ∧ String.length month = 2
        ∧ String.length day = 2 ∧ String.length hours = 2
        ∧ String.length minutes = 2
  | None => formatDateForInput (Some dateString) = "NaN-NaN-NaNTNaN:NaN"
  end.
Proof.
  intros Hne. unfold formatDateForInput.
  destruct dateString as [|c rest]; [done|].
  destruct (parseDate (String c rest)) as [t|]; [|done].
  cbv zeta. intros Hy Hm Hd Hh Hmin. cbn [fmap option_fmap option_map numberText].
  eexists _, _, _, _, _. split; [reflexivity|].
  split; [by apply four_digits|].
  repeat split; apply padStart2_two_digits; lia.
Qed.

End DueDateInput.

Lemma formatDateForInput_shape_witness :
  @EditTaskForm.formatDateForInput samplePlatform EditTaskForm.sampleZone
    (Some "next week") = "NaN-NaN-NaNTNaN:NaN".
Proof.
  refine (@formatDateForInput_shape samplePlatform EditTaskForm.sampleZone
            "next week" _).
  discriminate.
Defined.
